(** * Pick Up & Delivery (mypoapp): persistence and reconciliation core

    A shallow embedding of the data-handling methods of [POApp] in
    [src/mypoapp/app.py]: the settings file, the company database (load, save,
    merge-or-replace sync, refresh of the route and company lists), the PO
    record file (load, upload, delete, update), the delivery cache (download,
    cyclic browsing) and the opening of the add-PO form; then the handlers
    around them: reading the settings and the delivery cache back, the home
    screens, the selection of a route and of a company, the PO form, and the
    management of routes, companies and frequent blades.

    Conventions of the embedding:
    - a Python [dict] keyed by strings is a [gmap string _]: two dicts are
      equal when they hold the same items, and the order in which a dict is
      iterated is not recorded;
    - a Python [list] is a [list]; indexing outside the list raises
      [IndexError] and is modelled as such;
    - [list(set(l))] is an enumeration of [l] without repetition, in an order
      that the development leaves open ([SetIteration]);
    - a method of [POApp] is a computation in the monad [M]: it reads and
      writes the application object and may raise; what was assigned before an
      exception stays assigned;
    - a JSON file is missing, unreadable, not JSON, or holds a value of the
      shape the application writes to it; a write replaces the content, or
      raises when the directory does not accept it.  The delivery cache
      holds any JSON value, and [load_pos_of] is [load_pos] on a PO file
      that holds any JSON value;
    - the answer of the remote server and the current date are inputs of the
      handler that asks for them; a scheduled coroutine runs at once;
    - widgets are reduced to the state the handlers read back: the shown
      screen, the queued dialogs, the check boxes and rows of the PO list, the
      items of the route selector.  What a handler reads from an input
      widget (a text, after [strip()]; the value of a selector) is an input
      of the handler.  The application is taken after [startup], when every
      widget the handlers test with [hasattr] exists. *)

From stdpp Require Import gmap strings list fin_maps.
From Stdlib Require Import ZArith Lia.
From Stdlib Require Import Sorted.

Set Warnings "-register-all".
Set Default Proof Using "Type".
Open Scope string_scope.
Open Scope Z_scope.
Open Scope list_scope.

(** ** JSON values *)

(** What [json.load] and [response.json()] return.  Numbers are the integers
    (no claim below depends on a fractional number). *)
Inductive json :=
| JNull
| JBool (b : bool)
| JNum (n : Z)
| JStr (s : string)
| JList (l : list json)
| JDict (d : gmap string json).

(** Python truth value of a JSON value, as tested by [if x:]. *)
Definition truthy (j : json) : bool :=
  match j with
  | JNull => false
  | JBool b => b
  | JNum n => negb (n =? 0)
  | JStr s => negb (String.eqb s "")
  | JList l => negb (Nat.eqb (length l) 0)
  | JDict d => negb (Nat.eqb (size d) 0)
  end.

(** The text of [type(x)] inside an f-string. *)
Definition type_name (j : json) : string :=
  match j with
  | JNull => "<class 'NoneType'>"
  | JBool _ => "<class 'bool'>"
  | JNum _ => "<class 'int'>"
  | JStr _ => "<class 'str'>"
  | JList _ => "<class 'list'>"
  | JDict _ => "<class 'dict'>"
  end.

(** ** Data model *)

(** [CompanyDatabase]: route -> company -> record; the record is a dict whose
    key ["frequent_blades"] holds a list of blade descriptions. *)
Abbreviation company_record := (gmap string (list string)).
Abbreviation route_record := (gmap string (gmap string (list string))).
Abbreviation database := (gmap string (gmap string (gmap string (list string)))).

(** A PO entry is a dict; ["uploaded"] is ["yes"], ["no"] or a boolean. *)
Abbreviation po_entry := (gmap string json).

(** [list(d.keys())].  The order (insertion order in Python) is not recorded
    by [gmap]; only membership in the result is used below. *)
Definition keys {A} (d : gmap string A) : list string := (map_to_list d).*1.

(** A file of the data directory: missing, present but not readable (the
    [open] raises), readable but not JSON ([json.load] raises), or holding a
    value. *)
Inductive file (A : Type) :=
| Absent
| Unreadable
| Corrupt
| Stored (a : A).
Arguments Absent {A}.
Arguments Unreadable {A}.
Arguments Corrupt {A}.
Arguments Stored {A} a.

(** The four JSON files, and whether the directory accepts writes (when it
    does not, [open(path, "w")] raises and the file keeps its content). *)
Record Disk := {
  data_file : file (list po_entry);
  settings_file : file (gmap string string);
  company_db_file : file database;
  delivery_data_file : file json;
  writable : bool
}.

Record Settings := {
  upload_url : string;
  company_db_url : string;
  delivery_url : string;
  selected_route : string;
  selected_company : string;
  driver_id : string;
  app_mode : string
}.

Record Delivery := {
  delivery_api_response : json;
  delivery_companies : list string;
  current_delivery_index : Z;
  total_deliveries : Z
}.

Inductive screen :=
| route_selection_screen
| company_management_screen
| settings_screen
| delivery_home_screen
| pickup_home_screen
| add_po_screen
| company_selection_screen
| add_company_screen.

Inductive dialog_type := info | error.

(** The message of a dialog is an f-string: literal text and formatted
    values. *)
Inductive piece :=
| Lit (s : string)
| Fmt (j : json).

Record dialog := {
  dialog_kind : dialog_type;
  dialog_title : string;
  dialog_message : list piece
}.

(** A row of the PO list: the four displayed columns. *)
Record po_row := {
  row_uploaded : string;
  row_description : json;
  row_company : json;
  row_route : json
}.

Record Window := {
  content : screen;
  dialogs : list dialog;
  checkboxes : list bool;
  po_list_box : list po_row;
  route_selection_items : list string
}.

(** The application object, after [startup] has created the screens. *)
Record POApp := {
  settings : Settings;
  company_database : database;
  available_routes : list string;
  company_names : list string;
  frequent_blades : list string;
  delivery : Delivery;
  editing_index : option nat;
  window : Window;
  disk : Disk;
  uploads : list (list po_entry)
}.

(** *** Field updates *)

Definition set_selected_company (v : string) (s : Settings) : Settings :=
  {| upload_url := upload_url s; company_db_url := company_db_url s;
     delivery_url := delivery_url s; selected_route := selected_route s;
     selected_company := v; driver_id := driver_id s; app_mode := app_mode s |}.

Definition set_selected_route (v : string) (s : Settings) : Settings :=
  {| upload_url := upload_url s; company_db_url := company_db_url s;
     delivery_url := delivery_url s; selected_route := v;
     selected_company := selected_company s; driver_id := driver_id s;
     app_mode := app_mode s |}.

Definition set_data_file (v : file (list po_entry)) (d : Disk) : Disk :=
  {| data_file := v; settings_file := settings_file d;
     company_db_file := company_db_file d;
     delivery_data_file := delivery_data_file d; writable := writable d |}.

Definition set_settings_file (v : file (gmap string string)) (d : Disk) : Disk :=
  {| data_file := data_file d; settings_file := v;
     company_db_file := company_db_file d;
     delivery_data_file := delivery_data_file d; writable := writable d |}.

Definition set_company_db_file (v : file database) (d : Disk) : Disk :=
  {| data_file := data_file d; settings_file := settings_file d;
     company_db_file := v;
     delivery_data_file := delivery_data_file d; writable := writable d |}.

Definition set_delivery_data_file (v : file json) (d : Disk) : Disk :=
  {| data_file := data_file d; settings_file := settings_file d;
     company_db_file := company_db_file d;
     delivery_data_file := v; writable := writable d |}.

Definition set_content (v : screen) (w : Window) : Window :=
  {| content := v; dialogs := dialogs w; checkboxes := checkboxes w;
     po_list_box := po_list_box w;
     route_selection_items := route_selection_items w |}.

Definition set_dialogs (v : list dialog) (w : Window) : Window :=
  {| content := content w; dialogs := v; checkboxes := checkboxes w;
     po_list_box := po_list_box w;
     route_selection_items := route_selection_items w |}.

Definition set_po_list (cs : list bool) (rows : list po_row) (w : Window) : Window :=
  {| content := content w; dialogs := dialogs w; checkboxes := cs;
     po_list_box := rows;
     route_selection_items := route_selection_items w |}.

Definition set_route_selection_items (v : list string) (w : Window) : Window :=
  {| content := content w; dialogs := dialogs w; checkboxes := checkboxes w;
     po_list_box := po_list_box w; route_selection_items := v |}.

Definition with_settings (f : Settings -> Settings) (a : POApp) : POApp :=
  {| settings := f (settings a); company_database := company_database a;
     available_routes := available_routes a; company_names := company_names a;
     frequent_blades := frequent_blades a; delivery := delivery a;
     editing_index := editing_index a; window := window a; disk := disk a;
     uploads := uploads a |}.

Definition with_company_database (f : database -> database) (a : POApp) : POApp :=
  {| settings := settings a; company_database := f (company_database a);
     available_routes := available_routes a; company_names := company_names a;
     frequent_blades := frequent_blades a; delivery := delivery a;
     editing_index := editing_index a; window := window a; disk := disk a;
     uploads := uploads a |}.

Definition with_lists (routes companies : list string) (a : POApp) : POApp :=
  {| settings := settings a; company_database := company_database a;
     available_routes := routes; company_names := companies;
     frequent_blades := frequent_blades a; delivery := delivery a;
     editing_index := editing_index a; window := window a; disk := disk a;
     uploads := uploads a |}.

Definition with_frequent_blades (v : list string) (a : POApp) : POApp :=
  {| settings := settings a; company_database := company_database a;
     available_routes := available_routes a; company_names := company_names a;
     frequent_blades := v; delivery := delivery a;
     editing_index := editing_index a; window := window a; disk := disk a;
     uploads := uploads a |}.

Definition with_delivery (f : Delivery -> Delivery) (a : POApp) : POApp :=
  {| settings := settings a; company_database := company_database a;
     available_routes := available_routes a; company_names := company_names a;
     frequent_blades := frequent_blades a; delivery := f (delivery a);
     editing_index := editing_index a; window := window a; disk := disk a;
     uploads := uploads a |}.

Definition with_editing_index (v : option nat) (a : POApp) : POApp :=
  {| settings := settings a; company_database := company_database a;
     available_routes := available_routes a; company_names := company_names a;
     frequent_blades := frequent_blades a; delivery := delivery a;
     editing_index := v; window := window a; disk := disk a;
     uploads := uploads a |}.

Definition with_window (f : Window -> Window) (a : POApp) : POApp :=
  {| settings := settings a; company_database := company_database a;
     available_routes := available_routes a; company_names := company_names a;
     frequent_blades := frequent_blades a; delivery := delivery a;
     editing_index := editing_index a; window := f (window a); disk := disk a;
     uploads := uploads a |}.

Definition with_disk (f : Disk -> Disk) (a : POApp) : POApp :=
  {| settings := settings a; company_database := company_database a;
     available_routes := available_routes a; company_names := company_names a;
     frequent_blades := frequent_blades a; delivery := delivery a;
     editing_index := editing_index a; window := window a; disk := f (disk a);
     uploads := uploads a |}.

Definition with_uploads (f : list (list po_entry) -> list (list po_entry))
    (a : POApp) : POApp :=
  {| settings := settings a; company_database := company_database a;
     available_routes := available_routes a; company_names := company_names a;
     frequent_blades := frequent_blades a; delivery := delivery a;
     editing_index := editing_index a; window := window a; disk := disk a;
     uploads := f (uploads a) |}.

(** ** The monad of handlers *)

Inductive exn :=
| OSError
| JSONDecodeError
| RequestException
| TypeError
| AttributeError
| KeyError
| IndexError.

Inductive outcome (A : Type) :=
| Return (a : A)
| Raise (e : exn).
Arguments Return {A} a.
Arguments Raise {A} e.

Definition M (A : Type) : Type := POApp -> outcome A * POApp.

#[export] Instance M_ret : MRet M := λ A a st, (Return a, st).

#[export] Instance M_bind : MBind M := λ A B f m st,
  match m st with
  | (Return a, st') => f a st'
  | (Raise e, st') => (Raise e, st')
  end.

Definition raise {A} (e : exn) : M A := λ st, (Raise e, st).
Definition get : M POApp := λ st, (Return st, st).
Definition modify (f : POApp -> POApp) : M unit := λ st, (Return (), f st).

(** [try: body except Exception as e: handler(e)] *)
Definition try_except {A} (body : M A) (handler : exn -> M A) : M A := λ st,
  match body st with
  | (Return a, st') => (Return a, st')
  | (Raise e, st') => handler e st'
  end.

(** The state a handler leaves, and what it returned. *)
Definition run {A} (m : M A) (st : POApp) : POApp := (m st).2.
Definition result {A} (m : M A) (st : POApp) : outcome A := (m st).1.

(** ** Python and environment primitives *)

(** [for x in xs: acc = body(x, acc)], stopping at the first exception. *)
Fixpoint for_each {A S} (xs : list A) (body : A -> S -> M S) (acc : S) : M S :=
  match xs with
  | [] => mret acc
  | x :: xs' => acc' ← body x acc; for_each xs' body acc'
  end.

(** [l[i]], [l.pop(i)] and [l[i] = x] for a non-negative index. *)
Definition getitem {A} (l : list A) (i : nat) : M A :=
  match l !! i with
  | Some x => mret x
  | None => raise IndexError
  end.

Definition pop {A} (l : list A) (i : nat) : M (list A) :=
  if decide (i < length l)%nat then mret (delete i l) else raise IndexError.

Definition setitem {A} (l : list A) (i : nat) (x : A) : M (list A) :=
  if decide (i < length l)%nat then mret (<[i:=x]> l) else raise IndexError.

(** [l[i]] for a Python integer: a negative index counts from the end. *)
Definition getitem_int {A} (l : list A) (i : Z) : M A :=
  let n := Z.of_nat (length l) in
  if decide (0 <= i < n) then getitem l (Z.to_nat i)
  else if decide (- n <= i < 0) then getitem l (Z.to_nat (n + i))
  else raise IndexError.

(** A value computed without the state, inside a handler. *)
Definition lift {A} (o : outcome A) : M A := λ st, (o, st).

(** [key in x] for a string [key]: a key of a dict, an element of a list, a
    part of a string; other values raise. *)
Definition contains (key : string) (x : json) : outcome bool :=
  match x with
  | JDict d => Return (bool_decide (is_Some (d !! key)))
  | JList l =>
      Return (existsb (λ j, match j with JStr s => String.eqb s key | _ => false end) l)
  | JStr s => Return (match String.index 0 key s with Some _ => true | None => false end)
  | _ => Raise TypeError
  end.

(** [x[key]] for a string [key]: only a dict takes one. *)
Definition subscript (x : json) (key : string) : outcome json :=
  match x with
  | JDict d =>
      match d !! key with
      | Some v => Return v
      | None => Raise KeyError
      end
  | _ => Raise TypeError
  end.

(** [list(x)] and [for item in x]: the keys of a dict, the elements of a
    list, the characters of a string; other values raise. *)
Definition list_of (x : json) : outcome (list json) :=
  match x with
  | JDict d => Return (JStr <$> keys d)
  | JList l => Return l
  | JStr s => Return ((λ c, JStr (String c "")) <$> String.list_ascii_of_string s)
  | _ => Raise TypeError
  end.

(** [d.get(key)], [d.keys()] and [key in d] on a value that is expected to be
    a dict: only a dict has [get] and [keys]. *)
Definition dict_of (j : json) : M (gmap string json) :=
  match j with
  | JDict d => mret d
  | _ => raise AttributeError
  end.

(** [os.path.exists(path)] *)
Definition path_exists {A} (path : Disk -> file A) : M bool :=
  st ← get;
  mret (match path (disk st) with Absent => false | _ => true end).

(** [with open(path, "r") as f: json.load(f)] *)
Definition read_json {A} (path : Disk -> file A) : M A :=
  st ← get;
  match path (disk st) with
  | Absent | Unreadable => raise OSError
  | Corrupt => raise JSONDecodeError
  | Stored a => mret a
  end.

(** [with open(path, "w") as f: json.dump(a, f, indent=2)] *)
Definition write_json {A} (set_path : file A -> Disk -> Disk) (a : A) : M unit :=
  st ← get;
  if writable (disk st) then modify (with_disk (set_path (Stored a)))
  else raise OSError.

(** The answer to an HTTP request: no answer (time-out, connection failure:
    [requests] raises), or a response with its status, its text and what
    [response.json()] gives ([None] when the body is not JSON). *)
Inductive http_result (B : Type) :=
| NoResponse
| Response (status_code : Z) (text : string) (body : option B).
Arguments NoResponse {B}.
Arguments Response {B} status_code text body.

Definition response_json {B} (body : option B) : M B :=
  match body with
  | Some b => mret b
  | None => raise JSONDecodeError
  end.

(** [str(e)]: the exception is named by its class. *)
Definition str_exn (e : exn) : string :=
  match e with
  | OSError => "OSError"
  | JSONDecodeError => "JSONDecodeError"
  | RequestException => "RequestException"
  | TypeError => "TypeError"
  | AttributeError => "AttributeError"
  | KeyError => "KeyError"
  | IndexError => "IndexError"
  end.

(** [show_dialog_async] and [await self.main_window.dialog(...)]: the dialog
    is queued on the window. *)
Definition queue_dialog (d : dialog) (w : Window) : Window :=
  set_dialogs (dialogs w ++ [d]) w.

Definition show_dialog_async (kind : dialog_type) (title : string)
    (message : list piece) : M unit :=
  modify (with_window (queue_dialog
    {| dialog_kind := kind; dialog_title := title; dialog_message := message |})).

(** [list(set(l))].  The order in which a Python set is iterated is not
    specified; every enumeration without repetition is admitted. *)
Class SetIteration := {
  list_of_set : list string -> list string;
  list_of_set_NoDup : ∀ l, NoDup (list_of_set l);
  list_of_set_elem : ∀ l x, x ∈ list_of_set l ↔ x ∈ l
}.

(** One such enumeration: first occurrences, in order. *)
Definition first_occurrences : SetIteration :=
  {| list_of_set := remove_dups;
     list_of_set_NoDup := NoDup_remove_dups;
     list_of_set_elem := elem_of_remove_dups |}.

(** ** Settings store *)

Definition settings_dict (s : Settings) : gmap string string :=
  list_to_map [
    ("upload_url", upload_url s);
    ("company_db_url", company_db_url s);
    ("delivery_url", delivery_url s);
    ("selected_route", selected_route s);
    ("selected_company", selected_company s);
    ("driver_id", driver_id s);
    ("app_mode", app_mode s)].

Definition save_settings : M unit :=
  try_except
    (st ← get; write_json set_settings_file (settings_dict (settings st)))
    (λ _, mret ()).

(** ** Company database store *)

Definition update_route_company_lists : M unit :=
  st ← get;
  let db := company_database st in
  let route := selected_route (settings st) in
  let names :=
    if decide (route ≠ "") then
      match db !! route with
      | Some companies => keys companies
      | None => []
      end
    else [] in
  modify (with_lists (keys db) names);;
  st ← get;
  let company := selected_company (settings st) in
  if decide (company ≠ "" ∧ company ∉ company_names st) then
    modify (with_settings (set_selected_company ""));;
    save_settings
  else mret ().

Definition load_company_database : M unit :=
  try_except
    (found ← path_exists company_db_file;
     if (found : bool) then
       db ← read_json company_db_file;
       modify (with_company_database (λ _, db));;
       update_route_company_lists
     else
       modify (with_company_database (λ _, ∅));;
       update_route_company_lists)
    (λ _,
     modify (with_company_database (λ _, ∅));;
     update_route_company_lists).

Definition save_company_database : M bool :=
  try_except
    (st ← get;
     write_json set_company_db_file (company_database st);;
     update_route_company_lists;;
     mret true)
    (λ _, mret false).

(** The server's [{route: {company: {"descriptions": [...]}}}] becomes
    [{route: {company: {"frequent_blades": [...]}}}]. *)
Definition convert_company (company : string) (data : company_record)
    (acc : route_record) :
    route_record :=
  let descriptions := default [] (data !! "descriptions") in
  <[company := {["frequent_blades" := descriptions]}]> acc.

Definition convert_route (route : string)
    (companies : route_record)
    (acc : database) :
    database :=
  <[route := map_fold convert_company ∅ companies]> acc.

Definition convert_db (server_db : database) :
    database :=
  map_fold convert_route ∅ server_db.

Section merge.
Context `{SetIteration}.

(** The branch taken when the company is already known locally. *)
Definition merge_blades (existing_data data : company_record) :
    company_record :=
  let existing_blades := default [] (existing_data !! "frequent_blades") in
  let new_blades := default [] (data !! "frequent_blades") in
  let merged_blades := list_of_set (existing_blades ++ new_blades) in
  <["frequent_blades" := merged_blades]> existing_data.

Definition merge_company (company : string) (data : company_record)
    (local_route : route_record) :
    route_record :=
  match local_route !! company with
  | Some existing_data => <[company := merge_blades existing_data data]> local_route
  | None => <[company := data]> local_route
  end.

Definition merge_route (route : string)
    (companies : route_record)
    (db : database) :
    database :=
  let db1 := match db !! route with
             | Some _ => db
             | None => <[route := ∅]> db
             end in
  <[route := map_fold merge_company (default ∅ (db1 !! route)) companies]> db1.

Definition merge_db (local converted_db : database) :
    database :=
  map_fold merge_route local converted_db.

(** [sync_company_database(replace)], given the answer to the GET. *)
Definition sync_company_database (replace : bool)
    (response : http_result (database)) : M bool :=
  try_except
    (match response with
     | NoResponse => raise RequestException
     | Response status_code _ body =>
         if decide (status_code = 200) then
           server_db ← response_json body;
           let converted_db := convert_db server_db in
           (if replace then modify (with_company_database (λ _, converted_db))
            else modify (with_company_database (λ db, merge_db db converted_db)));;
           save_company_database;;
           update_route_company_lists;;
           st ← get;
           modify (with_window (set_route_selection_items (available_routes st)));;
           mret true
         else mret false
     end)
    (λ _, mret false).

Definition synced_db (replace : bool) (remote local : database) : database :=
  if replace then convert_db remote else merge_db local (convert_db remote).

Definition merged_record (existing : option (company_record))
    (data : company_record) : company_record :=
  match existing with
  | Some existing_data => merge_blades existing_data data
  | None => data
  end.

End merge.

(** The database as the data model reads it: every list of blades taken as
    the set of its elements. *)
Definition blade_sets (db : database) :
    gmap string (gmap string (gmap string (gset string))) :=
  (λ companies : route_record,
     (λ record : company_record,
        (λ blades : list string, list_to_set blades : gset string) <$> record)
     <$> companies) <$> db.

(** ** PO record store *)

(** The indices of the ticked check boxes:
    [for i, checkbox in enumerate(self.checkboxes): if checkbox.value: ...] *)
Fixpoint ticked_from (i : nat) (boxes : list bool) : list nat :=
  match boxes with
  | [] => []
  | b :: boxes' => (if b then [i] else []) ++ ticked_from (S i) boxes'
  end.

Definition ticked (boxes : list bool) : list nat := ticked_from 0 boxes.

(** [sorted(selected, reverse=True)] *)
Fixpoint insert_descending (i : nat) (l : list nat) : list nat :=
  match l with
  | [] => [i]
  | j :: l' => if decide (j < i)%nat then i :: l else j :: insert_descending i l'
  end.

Fixpoint sorted_reverse (l : list nat) : list nat :=
  match l with
  | [] => []
  | i :: l' => insert_descending i (sorted_reverse l')
  end.

(** One displayed row: ["yes"] when [po.get("uploaded") == True] (which the
    integer 1 also satisfies), the other columns default to ["N/A"]. *)
Definition row_of (po : po_entry) : po_row :=
  {| row_uploaded :=
       match po !! "uploaded" with
       | Some (JBool true) | Some (JNum 1) => "yes"
       | _ => "no"
       end;
     row_description := default (JStr "N/A") (po !! "description");
     row_company := default (JStr "N/A") (po !! "company");
     row_route := default (JStr "N/A") (po !! "route") |}.

(** The loading step of [load_pos]: parse the file, or the empty list. *)
Definition read_pos : M (list po_entry) :=
  try_except
    (found ← path_exists data_file;
     if (found : bool) then read_json data_file else mret [])
    (λ _, mret []).

Definition load_pos : M unit :=
  modify (with_window (set_po_list [] []));;
  pos ← read_pos;
  for_each pos (λ po _,
    modify (with_window (λ w,
      set_po_list (checkboxes w ++ [false]) (po_list_box w ++ [row_of po]) w)))
    ().



(** The copy of a PO that is sent: missing ["pickup_date"] and ["driver_id"]
    filled in, ["uploaded"] turned into a boolean. *)
Definition prepare_po (today driver : string) (po : po_entry) : po_entry :=
  let po := match po !! "pickup_date" with
            | Some _ => po
            | None => <["pickup_date" := JStr today]> po
            end in
  let po := match po !! "driver_id" with
            | Some _ => po
            | None => <["driver_id" := JStr driver]> po
            end in
  match po !! "uploaded" with
  | Some (JStr "yes") => <["uploaded" := JBool true]> po
  | Some (JStr "no") => <["uploaded" := JBool false]> po
  | _ => po
  end.

(** [requests.post(self.upload_url, json=to_upload, timeout=30)] *)
Definition requests_post (payload : list po_entry)
    (response : http_result unit) : M (Z * string) :=
  modify (with_uploads (λ sent, sent ++ [payload]));;
  match response with
  | NoResponse => raise RequestException
  | Response status_code text _ => mret (status_code, text)
  end.

(** [upload_selected], given today's date and the answer to the POST. *)
Definition upload_selected (today : string) (response : http_result unit) : M unit :=
  st ← get;
  let selected := ticked (checkboxes (window st)) in
  if decide (selected = []) then
    show_dialog_async info "No Selection" [Lit "Please select pick up forms to upload"]
  else
    loaded ← try_except
      (all_pos ← read_json data_file; mret (Some all_pos))
      (λ e, show_dialog_async error "Error" [Lit "Couldn't load data: "; Lit (str_exn e)];;
            mret None);
    match loaded with
    | None => mret ()
    | Some all_pos =>
        to_upload ← for_each selected (λ i to_upload,
          if decide (i < length all_pos)%nat then
            po ← getitem all_pos i;
            mret (to_upload ++ [prepare_po today (driver_id (settings st)) po])
          else mret to_upload) [];
        try_except
          ('(status_code, text) ← requests_post to_upload response;
           if decide (status_code = 200) then
             all_pos ← for_each selected (λ i all_pos,
               if decide (i < length all_pos)%nat then
                 po ← getitem all_pos i;
                 setitem all_pos i (<["uploaded" := JBool true]> po)
               else mret all_pos) all_pos;
             write_json set_data_file all_pos;;
             load_pos;;
             show_dialog_async info "Success"
               [Fmt (JNum (Z.of_nat (length to_upload)));
                Lit " pick up form(s) uploaded successfully!"]
           else
             show_dialog_async error "Error"
               [Lit "Server responded: "; Fmt (JNum status_code);
                Lit (String (Ascii.ascii_of_nat 10) text)])
          (λ e, show_dialog_async error "Error" [Lit "Upload failed: "; Lit (str_exn e)])
    end.

Definition delete_selected : M unit :=
  st ← get;
  let selected := ticked (checkboxes (window st)) in
  if decide (selected = []) then
    show_dialog_async info "No Selection" [Lit "Please select pick up forms to delete"]
  else
    loaded ← try_except
      (pos ← read_json data_file; mret (Some pos))
      (λ e, show_dialog_async error "Error" [Lit "Couldn't load data: "; Lit (str_exn e)];;
            mret None);
    match loaded with
    | None => mret ()
    | Some pos =>
        pos ← for_each (sorted_reverse selected) (λ i pos,
          if decide (i < length pos)%nat then pop pos i else mret pos) pos;
        try_except
          (write_json set_data_file pos;;
           load_pos;;
           show_dialog_async info "Success"
             [Fmt (JNum (Z.of_nat (length selected)));
              Lit " pick up form(s) deleted!"])
          (λ e, show_dialog_async error "Error" [Lit "Delete failed: "; Lit (str_exn e)])
    end.

(** ** Navigation *)

Definition update_frequent_blades_list : M unit :=
  modify (with_frequent_blades []);;
  st ← get;
  match company_database st !! selected_route (settings st) with
  | Some companies =>
      match companies !! selected_company (settings st) with
      | Some record =>
          modify (with_frequent_blades (default [] (record !! "frequent_blades")))
      | None => mret ()
      end
  | None => mret ()
  end.

(** [reset_form]; the refresh of the form's widgets leaves no state behind. *)
Definition reset_form : M unit :=
  modify (with_editing_index None);;
  update_frequent_blades_list.

(** The items [update_add_po_screen] gives the blade drop-down. *)
Definition blade_dropdown_items (st : POApp) : list string :=
  frequent_blades st ++ ["--- Enter Custom Description ---"].

Definition show_company_selection : M unit :=
  st ← get;
  if decide (selected_route (settings st) = "") then
    show_dialog_async error "No Route" [Lit "Please select a route first"]
  else modify (with_window (set_content company_selection_screen)).

Definition show_add_po : M unit :=
  st ← get;
  if decide (selected_company (settings st) = "") then show_company_selection
  else
    reset_form;;
    update_frequent_blades_list;;
    modify (with_window (set_content add_po_screen)).


(** ** Delivery cache store *)

Definition set_delivery_api_response (v : json) (d : Delivery) : Delivery :=
  {| delivery_api_response := v; delivery_companies := delivery_companies d;
     current_delivery_index := current_delivery_index d;
     total_deliveries := total_deliveries d |}.

Definition set_current_delivery_index (v : Z) (d : Delivery) : Delivery :=
  {| delivery_api_response := delivery_api_response d;
     delivery_companies := delivery_companies d;
     current_delivery_index := v;
     total_deliveries := total_deliveries d |}.

Definition set_delivery_companies (companies : list string) (d : Delivery) : Delivery :=
  {| delivery_api_response := delivery_api_response d;
     delivery_companies := companies;
     current_delivery_index := 0;
     total_deliveries := Z.of_nat (length companies) |}.

(** One line of the display of an item: [if key in po_item:] and the label
    made of [po_item[key]]. *)
Definition show_field (key : string) (po_item : json) : M unit :=
  found ← lift (contains key po_item);
  if (found : bool) then lift (subscript po_item key);; mret ()
  else mret ().

(** The last line: [if "expected_delivery" in po_item and
    po_item["expected_delivery"] != "N/A":] and its label. *)
Definition show_expected_delivery (po_item : json) : M unit :=
  found ← lift (contains "expected_delivery" po_item);
  if (found : bool) then
    expected ← lift (subscript po_item "expected_delivery");
    if match expected with JStr s => String.eqb s "N/A" | _ => false end then mret ()
    else lift (subscript po_item "expected_delivery");; mret ()
  else mret ().

Definition show_po_item (po_item : json) : M unit :=
  show_field "po_number" po_item;;
  show_field "description" po_item;;
  show_field "quantity" po_item;;
  show_field "pickup_date" po_item;;
  show_expected_delivery po_item.

(** [update_delivery_display]: the company under the cursor becomes the
    selected company, the settings are saved and the items of its entry are
    read, one by one, to build their labels.  The labels are not part of the
    state; what reading an item raises is the method's outcome. *)
Definition update_delivery_display : M unit :=
  st ← get;
  let d := delivery st in
  if decide (total_deliveries d = 0) then mret ()
  else if decide (current_delivery_index d < total_deliveries d) then
    current_company ← getitem_int (delivery_companies d) (current_delivery_index d);
    api_response ← dict_of (delivery_api_response d);
    match api_response !! "data" with
    | Some (JDict data_field) =>
        match data_field !! current_company with
        | Some company_data =>
            modify (with_settings (set_selected_company current_company));;
            save_settings;;
            po_items ← lift (list_of company_data);
            for_each po_items (λ po_item _, show_po_item po_item) ()
        | None => mret ()
        end
    | _ => mret ()
    end
  else mret ().

Definition previous_delivery : M unit :=
  st ← get;
  if decide (total_deliveries (delivery st) = 0) then mret ()
  else
    modify (with_delivery (λ d,
      set_current_delivery_index
        ((current_delivery_index d - 1) `mod` total_deliveries d) d));;
    update_delivery_display.

Definition next_delivery : M unit :=
  st ← get;
  if decide (total_deliveries (delivery st) = 0) then mret ()
  else
    modify (with_delivery (λ d,
      set_current_delivery_index
        ((current_delivery_index d + 1) `mod` total_deliveries d) d));;
    update_delivery_display.

(** The ways a download can end, each with the dialog the user gets. *)
Inductive download_report :=
| Downloaded (count : Z) (route : string)
| NoRoute
| WrongDataFormat (data_field : json)
| NoDataField
| ApiError (message : json)
| ServerStatus (status_code : Z) (text : string)
| DownloadFailed (e : exn).

Definition report_dialog (r : download_report) : dialog :=
  match r with
  | Downloaded count route =>
      {| dialog_kind := info; dialog_title := "Success";
         dialog_message := [Lit "Downloaded "; Fmt (JNum count);
                            Lit " deliveries for route "; Lit route] |}
  | NoRoute =>
      {| dialog_kind := error; dialog_title := "No Route";
         dialog_message := [Lit "Please select a route first"] |}
  | WrongDataFormat data_field =>
      {| dialog_kind := error; dialog_title := "Data Format Error";
         dialog_message := [Lit "API returned wrong data format: ";
                            Lit "Expected 'data' to be a dictionary, got ";
                            Lit (type_name data_field)] |}
  | NoDataField =>
      {| dialog_kind := error; dialog_title := "Error";
         dialog_message := [Lit "No 'data' field in API response"] |}
  | ApiError message =>
      {| dialog_kind := error; dialog_title := "Error";
         dialog_message := [Lit "API returned error: "; Fmt message] |}
  | ServerStatus status_code text =>
      {| dialog_kind := error; dialog_title := "Error";
         dialog_message := [Lit "Server returned status: "; Fmt (JNum status_code);
                            Lit (String (Ascii.ascii_of_nat 10) "Response: ");
                            Lit (String.substring 0 200 text)] |}
  | DownloadFailed e =>
      {| dialog_kind := error; dialog_title := "Error";
         dialog_message := [Lit "Failed to download: "; Lit (str_exn e)] |}
  end.

Definition report (r : download_report) : M unit :=
  modify (with_window (queue_dialog (report_dialog r))).

(** [download_delivery_route], given the answer to the GET. *)
Definition download_delivery_route (response : http_result json) : M unit :=
  st ← get;
  if decide (selected_route (settings st) = "") then report NoRoute
  else
    try_except
      (match response with
       | NoResponse => raise RequestException
       | Response status_code text body =>
           if decide (status_code = 200) then
             api_response ← response_json body;
             fields ← dict_of api_response;
             if truthy (default JNull (fields !! "success")) then
               write_json set_delivery_data_file api_response;;
               modify (with_delivery (set_delivery_api_response api_response));;
               match fields !! "data" with
               | Some (JDict data_field) =>
                   modify (with_delivery (set_delivery_companies (keys data_field)));;
                   update_delivery_display;;
                   st ← get;
                   report (Downloaded (total_deliveries (delivery st))
                                      (selected_route (settings st)))
               | Some data_field => report (WrongDataFormat data_field)
               | None => report NoDataField
               end
             else report (ApiError (default (JStr "Unknown error") (fields !! "error")))
           else report (ServerStatus status_code text)
       end)
      (λ e, report (DownloadFailed e)).

(** ** Settings, read back *)

(** [load_settings]: every field is read with [settings.get(key, default)];
    the three addresses default to the value they have, the others to the
    value [__init__] gave them.  Nothing is assigned when the file is missing
    or cannot be read. *)
Definition load_settings : M unit :=
  try_except
    (found ← path_exists settings_file;
     if (found : bool) then
       stored ← read_json settings_file;
       modify (with_settings (λ s,
         {| upload_url := default (upload_url s) (stored !! "upload_url");
            company_db_url := default (company_db_url s) (stored !! "company_db_url");
            delivery_url := default (delivery_url s) (stored !! "delivery_url");
            selected_route := default "" (stored !! "selected_route");
            selected_company := default "" (stored !! "selected_company");
            driver_id := default "" (stored !! "driver_id");
            app_mode := default "delivery" (stored !! "app_mode") |}))
     else mret ())
    (λ _, mret ()).

(** ** Home screens and selection *)

Definition set_app_mode_field (v : string) (s : Settings) : Settings :=
  {| upload_url := upload_url s; company_db_url := company_db_url s;
     delivery_url := delivery_url s; selected_route := selected_route s;
     selected_company := selected_company s; driver_id := driver_id s;
     app_mode := v |}.

Definition set_urls (upload company_db delivery : string) (s : Settings) : Settings :=
  {| upload_url := upload; company_db_url := company_db;
     delivery_url := delivery; selected_route := selected_route s;
     selected_company := selected_company s; driver_id := driver_id s;
     app_mode := app_mode s |}.

(** [load_delivery_pos] returns at its first test: [delivery_po_list_box] is
    [None] from [__init__] on, and no method assigns it. *)
Definition load_delivery_pos : M unit := mret ().

Definition show_delivery_home : M unit :=
  modify (with_window (set_content delivery_home_screen));;
  load_delivery_pos.

Definition show_home : M unit :=
  st ← get;
  if decide (app_mode (settings st) = "delivery") then show_delivery_home
  else
    modify (with_window (set_content pickup_home_screen));;
    load_pos.

Definition show_current_home : M unit :=
  st ← get;
  if decide (app_mode (settings st) = "delivery") then
    modify (with_window (set_content delivery_home_screen));;
    update_delivery_display
  else
    modify (with_window (set_content pickup_home_screen));;
    load_pos.

Definition switch_to_delivery_mode : M unit :=
  modify (with_settings (set_app_mode_field "delivery"));;
  save_settings;;
  modify (with_window (set_content delivery_home_screen));;
  update_delivery_display.

Definition switch_to_pickup_mode : M unit :=
  modify (with_settings (set_app_mode_field "pickup"));;
  save_settings;;
  modify (with_window (set_content pickup_home_screen));;
  load_pos.

(** [save_settings_from_ui]; the three arguments are the stripped texts of
    the address inputs. *)
Definition save_settings_from_ui (url db_url delivery_url_value : string) : M unit :=
  modify (with_settings (set_urls url db_url delivery_url_value));;
  save_settings;;
  show_dialog_async info "Success" [Lit "Settings saved"];;
  show_current_home.

(** [select_route]; [selected] is the value of the route selector ([None]
    when it has no item). *)
Definition select_route (selected : option string) : M unit :=
  match selected with
  | Some selected =>
      if decide (selected ≠ "" ∧ selected ≠ "No routes available") then
        modify (with_settings (set_selected_route selected));;
        save_settings;;
        update_route_company_lists;;
        show_home
      else mret ()
  | None => mret ()
  end.

(** [l.index(x)]: the first position of [x], [None] for [ValueError]. *)
Fixpoint index (x : string) (l : list string) : option nat :=
  match l with
  | [] => None
  | y :: l' => if decide (y = x) then Some 0%nat else S <$> index x l'
  end.

Definition select_company (company : string) : M unit :=
  modify (with_settings (set_selected_company company));;
  save_settings;;
  st ← get;
  (if decide (app_mode (settings st) = "delivery" ∧
              company ∈ delivery_companies (delivery st)) then
     match index company (delivery_companies (delivery st)) with
     | Some i => modify (with_delivery (set_current_delivery_index (Z.of_nat i)))
     | None => modify (with_delivery (set_current_delivery_index 0))
     end
   else mret ());;
  show_current_home.

(** ** The PO form *)

(** The description the form stands for: the custom text when the custom
    entry of the drop-down is chosen, the chosen blade otherwise ([None] when
    the drop-down has no value). *)
Definition form_description (selected_blade : option string) (custom_desc : string) :
    option string :=
  if decide (selected_blade = Some "--- Enter Custom Description ---")
  then Some custom_desc
  else selected_blade.

(** The PO object [save_po_form] builds. *)
Definition po_data (description quantity current_date created_at : string)
    (s : Settings) : po_entry :=
  list_to_map [
    ("uploaded", JStr "no");
    ("description", JStr description);
    ("company", JStr (selected_company s));
    ("route", JStr (selected_route s));
    ("quantity", JStr quantity);
    ("pickup_date", JStr current_date);
    ("driver_id", JStr (driver_id s));
    ("created_at", JStr created_at)].

(** [save_po_form].  [selected_blade] is the value of the blade drop-down,
    [custom_desc] and [quantity] the stripped texts of the two inputs,
    [current_date] and [created_at] the two readings of the clock. *)
Definition save_po_form (selected_blade : option string)
    (custom_desc quantity current_date created_at : string) : M unit :=
  try_except
    (let description := form_description selected_blade custom_desc in
     if decide (default "" description = "") then
       show_dialog_async error "Missing Information" [Lit "Please enter a description"]
     else if decide (quantity = "") then
       show_dialog_async error "Missing Information" [Lit "Please enter quantity"]
     else
       st ← get;
       if decide (selected_company (settings st) = "") then
         show_dialog_async error "Missing Company" [Lit "Please select a company first"]
       else
         let po := po_data (default "" description) quantity current_date created_at
                     (settings st) in
         found ← path_exists data_file;
         data ← (if (found : bool) then read_json data_file else mret []);
         data ← match editing_index st with
                 | Some i =>
                     if decide (i < length data)%nat then setitem data i po
                     else mret (data ++ [po])
                 | None => mret (data ++ [po])
                 end;
         write_json set_data_file data;;
         reset_form;;
         show_home;;
         show_dialog_async info "Success" [Lit "PO saved successfully!"])
    (λ e, show_dialog_async error "Error" [Lit "Failed to save: "; Lit (str_exn e)]).

(** ** Company management *)

(** [value or otherwise], for the value of a selector. *)
Definition or_else (value : option string) (otherwise : string) : string :=
  match value with
  | Some v => if decide (v = "") then otherwise else v
  | None => otherwise
  end.

(** [d[key]] *)
Definition getkey {A} (d : gmap string A) (key : string) : M A :=
  match d !! key with
  | Some v => mret v
  | None => raise KeyError
  end.

(** [add_route]; [new_route] is the stripped text of the route input. *)
Definition add_route (new_route : string) : M unit :=
  st ← get;
  if decide (new_route ≠ "" ∧ company_database st !! new_route = None) then
    modify (with_company_database (λ db, <[new_route := ∅]> db));;
    update_route_company_lists;;
    show_dialog_async info "Success" [Lit "Route '"; Lit new_route; Lit "' added"]
  else mret ().

(** [add_company]; [dropdown_value] is the value of the route selector of the
    management screen, [new_company] the stripped text of the company input. *)
Definition add_company (dropdown_value : option string) (new_company : string) : M unit :=
  st ← get;
  let route := or_else dropdown_value (selected_route (settings st)) in
  if decide (route ≠ "" ∧ new_company ≠ "") then
    (if decide (company_database st !! route = None) then
       modify (with_company_database (λ db, <[route := ∅]> db))
     else mret ());;
    st ← get;
    companies ← getkey (company_database st) route;
    if decide (companies !! new_company = None) then
      modify (with_company_database (λ db,
        <[route := <[new_company := {["frequent_blades" := []]}]> companies]> db));;
      update_route_company_lists;;
      show_dialog_async info "Success" [Lit "Company '"; Lit new_company; Lit "' added"]
    else mret ()
  else mret ().

(** [add_frequent_blade] and [remove_blade] change one list of the company
    database in place and redraw the list of blades of the management screen.
    They are given by what they do to the database.  [selected_route] is the
    local of that name (the value of the route selector, or the selected route
    when it has none), [selected_company] and [new_blade] the stripped texts
    of the two inputs.  (The list they change may be the very list
    [update_frequent_blades_list] assigned to [self.frequent_blades]; that
    attribute is not followed through these two handlers.) *)
Definition add_frequent_blade (selected_route selected_company new_blade : string)
    (db : database) : database :=
  if decide (selected_route ≠ "" ∧ selected_company ≠ "" ∧ new_blade ≠ "") then
    match db !! selected_route with
    | Some companies =>
        match companies !! selected_company with
        | Some company_data =>
            let company_data :=
              match company_data !! "frequent_blades" with
              | Some _ => company_data
              | None => <["frequent_blades" := []]> company_data
              end in
            let blades := default [] (company_data !! "frequent_blades") in
            if decide (new_blade ∈ blades) then
              <[selected_route := <[selected_company := company_data]> companies]> db
            else
              <[selected_route :=
                  <[selected_company :=
                      <["frequent_blades" := blades ++ [new_blade]]> company_data]>
                  companies]> db
        | None => db
        end
    | None => db
    end
  else db.

(** [l.remove(x)]: the first occurrence goes ([l] is returned as it is when
    there is none; the caller tests [x in l] first). *)
Fixpoint remove_first (x : string) (l : list string) : list string :=
  match l with
  | [] => []
  | y :: l' => if decide (y = x) then l' else y :: remove_first x l'
  end.

Definition remove_blade (route company blade : string) (db : database) : database :=
  match db !! route with
  | Some companies =>
      match companies !! company with
      | Some company_data =>
          let blades := default [] (company_data !! "frequent_blades") in
          if decide (blade ∈ blades) then
            <[route :=
                <[company := <["frequent_blades" := remove_first blade blades]> company_data]>
                companies]> db
          else db
      | None => db
      end
  | None => db
  end.

Definition save_company_changes : M unit :=
  saved ← save_company_database;
  if (saved : bool) then show_dialog_async info "Success" [Lit "Company database saved"]
  else show_dialog_async error "Error" [Lit "Failed to save company database"].

(** [save_new_company]; [company_name] is the stripped text of the input. *)
Definition save_new_company (company_name : string) : M unit :=
  if decide (company_name = "") then
    show_dialog_async error "Error" [Lit "Please enter a company name"]
  else
    st ← get;
    let route := selected_route (settings st) in
    (if decide (company_database st !! route = None) then
       modify (with_company_database (λ db, <[route := ∅]> db))
     else mret ());;
    st ← get;
    companies ← getkey (company_database st) route;
    if decide (is_Some (companies !! company_name)) then
      show_dialog_async error "Error" [Lit "Company already exists"]
    else
      modify (with_company_database (λ db,
        <[route := <[company_name := {["frequent_blades" := []]}]> companies]> db));;
      save_company_database;;
      update_route_company_lists;;
      modify (with_settings (set_selected_company company_name));;
      save_settings;;
      show_home;;
      show_dialog_async info "Success" [Lit "Company '"; Lit company_name; Lit "' added"].

Section sync_ui.
Context `{SetIteration}.

(** [sync_company_db_ui]; [choice] is the answer to the question the handler
    asks first ([None]: dismissed, [Some true]: replace, [Some false]:
    merge), [response] the answer to the GET. *)
Definition sync_company_db_ui (choice : option bool)
    (response : http_result database) : M unit :=
  match choice with
  | None => mret ()
  | Some replace =>
      success ← sync_company_database replace response;
      let message :=
        if replace then "Company database replaced with server data"
        else "Company database merged with server data" in
      if (success : bool) then
        show_dialog_async info "Success" [Lit message; Lit " successfully"]
      else
        show_dialog_async error "Error" [Lit "Failed to sync company database"]
  end.

End sync_ui.

(** ** Delivery cache, read back *)

(** [load_delivery_data] assigns three attributes.  What [list(...)] gives
    need not be strings, so the companies are JSON values here; the method is
    given by the three values it assigns, as a function of the cache file. *)
Record loaded_delivery := {
  loaded_api_response : json;
  loaded_companies : list json;
  loaded_total : Z
}.

(** ["data" in x]: a key of a dict, an element of a list, a part of a string;
    other values raise. *)
Definition contains_data (x : json) : outcome bool :=
  match x with
  | JDict d => Return (bool_decide (is_Some (d !! "data")))
  | JList l =>
      Return (existsb (λ j, match j with JStr s => String.eqb s "data" | _ => false end) l)
  | JStr s => Return (match String.index 0 "data" s with Some _ => true | None => false end)
  | _ => Raise TypeError
  end.

(** [x["data"]] *)
Definition subscript_data (x : json) : outcome json :=
  match x with
  | JDict d =>
      match d !! "data" with
      | Some v => Return v
      | None => Raise KeyError
      end
  | _ => Raise TypeError
  end.

(** What the method assigns on every path that ends in [except], and when
    there is no file. *)
Definition no_delivery : loaded_delivery :=
  {| loaded_api_response := JDict ∅; loaded_companies := []; loaded_total := 0 |}.

Definition load_delivery_data (cache : file json) : loaded_delivery :=
  match cache with
  | Absent => no_delivery
  | Unreadable | Corrupt => no_delivery
  | Stored api_response =>
      match contains_data api_response with
      | Return true =>
          match subscript_data api_response with
          | Return data =>
              match list_of data with
              | Return companies =>
                  {| loaded_api_response := api_response;
                     loaded_companies := companies;
                     loaded_total := Z.of_nat (length companies) |}
              | Raise _ => no_delivery
              end
          | Raise _ => no_delivery
          end
      | Return false =>
          {| loaded_api_response := api_response; loaded_companies := [];
             loaded_total := 0 |}
      | Raise _ => no_delivery
      end
  end.

(** ** The company selection screen *)

(** [sorted(l)] for strings, which Python orders character by character. *)
Fixpoint insert_sorted (x : string) (l : list string) : list string :=
  match l with
  | [] => [x]
  | y :: l' => if String.leb x y then x :: l else y :: insert_sorted x l'
  end.

Fixpoint sorted (l : list string) : list string :=
  match l with
  | [] => []
  | x :: l' => insert_sorted x (sorted l')
  end.

Section company_selection.
Context `{SetIteration}.

(** The buttons [show_company_selection] builds when a route is selected, in
    their order: the company each one selects, and whether its text carries
    the mark of a company with a delivery. *)
Definition company_buttons (st : POApp) : list (string * bool) :=
  let from_database :=
    match company_database st !! selected_route (settings st) with
    | Some companies => keys companies
    | None => []
    end in
  let all_companies := list_of_set (from_database ++ delivery_companies (delivery st)) in
  (λ company, (company, bool_decide (company ∈ delivery_companies (delivery st))))
    <$> sorted all_companies.

End company_selection.

(** ** Notions used in the statements *)

(** The company names [update_route_company_lists] computes. *)
Definition refreshed_names (st : POApp) : list string :=
  if decide (selected_route (settings st) ≠ "") then
    match company_database st !! selected_route (settings st) with
    | Some companies => keys companies
    | None => []
    end
  else [].

(** The selected company is none, or a company of the selected route. *)
Definition selection_valid (st : POApp) : Prop :=
  selected_company (settings st) = "" ∨
  match company_database st !! selected_route (settings st) with
  | Some companies => is_Some (companies !! selected_company (settings st))
  | None => False
  end.

#[export] Instance selection_valid_dec (st : POApp) : Decision (selection_valid st).
Proof.
  unfold selection_valid.
  destruct (company_database st !! selected_route (settings st)); apply _.
Defined.

(** The database [load_company_database] ends up with. *)
Definition loaded_db (st : POApp) : database :=
  match company_db_file (disk st) with
  | Stored db => db
  | _ => ∅
  end.

(** [db[route][company]], when both keys are there. *)
Definition record_at {A} (db : gmap string (gmap string A)) (route company : string) :
    option A :=
  companies ← db !! route; companies !! company.

(** [db[route][company]["frequent_blades"]], when the three keys are there. *)
Definition blades_at (db : database) (route company : string) : option (list string) :=
  record ← record_at db route company; record !! "frequent_blades".

(** The converted form of one company record of the server. *)
Definition converted_record (data : company_record) : company_record :=
  {["frequent_blades" := default [] (data !! "descriptions")]}.

(** The settings, and the application, as [__init__] leaves them. *)
Definition initial_settings : Settings :=
  {| upload_url := "https://doublersharpening.com/api/upload_po/";
     company_db_url := "https://doublersharpening.com/api/company_db/";
     delivery_url := "https://doublersharpening.com/api/delivery_pos/";
     selected_route := ""; selected_company := ""; driver_id := "";
     app_mode := "delivery" |}.

(** Every file missing, the directory writable. *)
Definition empty_disk : Disk :=
  {| data_file := Absent; settings_file := Absent; company_db_file := Absent;
     delivery_data_file := Absent; writable := true |}.

Definition initial_app : POApp :=
  {| settings := initial_settings; company_database := ∅;
     available_routes := []; company_names := []; frequent_blades := [];
     delivery := {| delivery_api_response := JDict ∅; delivery_companies := [];
                    current_delivery_index := 0; total_deliveries := 0 |};
     editing_index := None;
     window := {| content := route_selection_screen; dialogs := [];
                  checkboxes := []; po_list_box := [];
                  route_selection_items := [] |};
     disk := empty_disk; uploads := [] |}.

(** The local and remote databases of the merge example. *)
Definition example_local : database :=
  {["R1" := {["A" := {["frequent_blades" := ["x"]]}]}]}.
Definition example_remote : database :=
  {["R1" := {["A" := {["descriptions" := ["x"; "y"]]}]}]}.

(** A snapshot whose only company lists the same blade twice. *)
Definition duplicated_remote : database :=
  {["R1" := {["A" := {["descriptions" := ["x"; "x"]]}]}]}.

(** A local database with a route the server does not know. *)
Definition local_with_R2 : database :=
  {["R1" := {["A" := {["frequent_blades" := ["x"]]}]};
    "R2" := {["B" := {["frequent_blades" := ["z"]]}]}]}.

(** Company Z is selected on route R1, which only has company A. *)
Definition stale_selection : POApp :=
  with_company_database (λ _, example_local)
    (with_settings (λ s, set_selected_company "Z" (set_selected_route "R1" s))
       initial_app).

(** A PO entry as [save_po_form] writes it. *)
Definition sample_po (description : string) : po_entry :=
  list_to_map [("uploaded", JStr "no"); ("description", JStr description);
               ("company", JStr "A"); ("route", JStr "R1"); ("quantity", JStr "2")].

(** Two stored POs; the first and a third, no longer existing, row ticked. *)
Definition sample_pickup : POApp :=
  with_disk (set_data_file (Stored [sample_po "saw"; sample_po "knife"]))
    (with_window (set_po_list [true; false; true] []) initial_app).

(** Three stored POs, rows 0 and 2 ticked. *)
Definition three_pos : POApp :=
  with_disk (set_data_file (Stored [sample_po "saw"; sample_po "knife"; sample_po "planer"]))
    (with_window (set_po_list [true; false; true] []) initial_app).

(** The PO list the data file yields. *)
Definition stored_pos (st : POApp) : list po_entry :=
  match data_file (disk st) with
  | Absent | Unreadable | Corrupt => []
  | Stored pos => pos
  end.

(** The data file is there but does not parse. *)
Definition corrupt_data_file : POApp :=
  with_disk (set_data_file Corrupt) sample_pickup.

(** What [upload_selected] sends: the prepared copies of the selected entries
    that exist. *)
Definition payload (today driver : string) (selected : list nat)
    (all_pos : list po_entry) : list po_entry :=
  omap (λ i, prepare_po today driver <$> all_pos !! i) selected.

(** What [upload_selected] stores after a 200: the selected entries marked. *)
Definition mark_uploaded (po : po_entry) : po_entry :=
  <["uploaded" := JBool true]> po.

Definition marked (selected : list nat) (all_pos : list po_entry) :
    list po_entry :=
  imap (λ k po, if decide (k ∈ selected) then mark_uploaded po else po) all_pos.

(** The dialog [show_dialog_async] queues. *)
Definition a_dialog (kind : dialog_type) (title : string) (message : list piece) : dialog :=
  {| dialog_kind := kind; dialog_title := title; dialog_message := message |}.

(** What is left of a list once the ticked positions are removed. *)
Fixpoint unticked {A} (boxes : list bool) (l : list A) : list A :=
  match boxes, l with
  | b :: boxes', x :: l' => (if b then [] else [x]) ++ unticked boxes' l'
  | _, _ => l
  end.

(** The body of the deletion loop. *)
Definition guarded_pop {A} (i : nat) (pos : list A) : M (list A) :=
  if decide (i < length pos)%nat then pop pos i else mret pos.


(** The status code, when there is a response. *)
Definition status_of {B} (response : http_result B) : option Z :=
  match response with
  | NoResponse => None
  | Response status_code _ _ => Some status_code
  end.

(** The browse cursor and the number of deliveries. *)
Definition cursor (st : POApp) : Z := current_delivery_index (delivery st).
Definition count (st : POApp) : Z := total_deliveries (delivery st).

(** Three deliveries, the cursor on [index]. *)
Definition sample_delivery (index : Z) : POApp :=
  with_delivery (λ d, set_current_delivery_index index
                        (set_delivery_companies ["A"; "B"; "C"] d)) initial_app.


(** A successful answer whose ["data"] is a string. *)
Definition malformed_answer : gmap string json :=
  list_to_map [("success", JBool true); ("data", JStr "oops")].

(** The application with [route] selected. *)
Definition on_route (route : string) (st : POApp) : POApp :=
  with_settings (set_selected_route route) st.



(** A well-formed answer with two companies. *)
Definition two_deliveries : gmap string json :=
  list_to_map [("success", JBool true);
               ("data", JDict (list_to_map [("A", JList []); ("B", JList [])]))].

(** Route R1 and its company A selected; A has no frequent blade. *)
Definition bladeless_selection : POApp :=
  with_window (set_content pickup_home_screen)
    (with_company_database (λ _, {["R1" := {["A" := {["frequent_blades" := []]}]}]})
       (with_settings (λ s, set_selected_company "A" (set_selected_route "R1" s))
          initial_app)).

(** The application as [__init__] leaves it, on a given data directory:
    the state in which [startup] calls the loaders. *)
Definition restarted (d : Disk) : POApp := with_disk (λ _, d) initial_app.

(** The settings file holds the settings of the running application. *)
Definition settings_saved (st : POApp) : Prop :=
  settings_file (disk st) = Stored (settings_dict (settings st)).

(** The list [save_po_form] writes: the entry under edit replaced when its
    index is inside the list, the new entry appended otherwise. *)
Definition saved_list (editing : option nat) (po : po_entry) (data : list po_entry) :
    list po_entry :=
  match editing with
  | Some i => if decide (i < length data)%nat then <[i := po]> data else data ++ [po]
  | None => data ++ [po]
  end.

(** The form cannot be saved: no description, no quantity or no company. *)
Definition incomplete_form (selected_blade : option string) (custom_desc quantity : string)
    (st : POApp) : Prop :=
  default "" (form_description selected_blade custom_desc) = "" ∨
  quantity = "" ∨
  selected_company (settings st) = "".

#[export] Instance incomplete_form_dec selected_blade custom_desc quantity st :
  Decision (incomplete_form selected_blade custom_desc quantity st).
Proof. unfold incomplete_form. apply _. Defined.

(** The delivery state as a download leaves it and browsing keeps it: the
    count is the number of companies, the cursor is on one of them (when
    there is one), and every company has its entry under ["data"] in the
    stored response. *)
Definition delivery_consistent (st : POApp) : Prop :=
  total_deliveries (delivery st) = Z.of_nat (length (delivery_companies (delivery st))) ∧
  (total_deliveries (delivery st) = 0 ∨
   0 <= current_delivery_index (delivery st) < total_deliveries (delivery st)) ∧
  match delivery_api_response (delivery st) with
  | JDict fields =>
      match fields !! "data" with
      | Some (JDict data_field) =>
          Forall (λ company, is_Some (data_field !! company))
            (delivery_companies (delivery st))
      | _ => delivery_companies (delivery st) = []
      end
  | _ => False
  end.

#[export] Instance delivery_consistent_dec (st : POApp) : Decision (delivery_consistent st).
Proof.
  unfold delivery_consistent.
  destruct (delivery_api_response (delivery st)) as [| | | | |fields]; try apply _.
  destruct (fields !! "data") as [[| | | | |data_field]|]; apply _.
Defined.

(** The company under the browse cursor. *)
Definition current_company (st : POApp) : option string :=
  delivery_companies (delivery st) !! Z.to_nat (current_delivery_index (delivery st)).

(** The five fields the display reads of an item. *)
Definition shown_fields : list string :=
  ["po_number"; "description"; "quantity"; "pickup_date"; "expected_delivery"].

(** An item the display can read: an object, or a string or a list in which
    none of the five fields occurs.  A number, a boolean or null cannot be
    searched, and a string or a list cannot be indexed by a field found in
    it. *)
Definition item_shows (po_item : json) : bool :=
  match po_item with
  | JDict _ => true
  | JStr _ | JList _ =>
      forallb (λ key, match contains key po_item with
                      | Return false => true
                      | _ => false
                      end) shown_fields
  | _ => false
  end.

(** An entry the display can read: a value that can be iterated, every item
    of which can be read.  A list of objects is one. *)
Definition entry_shows (company_data : json) : bool :=
  match list_of company_data with
  | Return po_items => forallb item_shows po_items
  | Raise _ => false
  end.

(** The entry of the company under the cursor in the stored response. *)
Definition current_entry (st : POApp) : option json :=
  match current_company st, delivery_api_response (delivery st) with
  | Some company, JDict fields =>
      match fields !! "data" with
      | Some (JDict data_field) => data_field !! company
      | _ => None
      end
  | _, _ => None
  end.

(** What showing the delivery under the cursor comes to: [TypeError] when
    its entry cannot be read. *)
Definition display_outcome (st : POApp) : outcome unit :=
  match current_entry st with
  | Some entry => if entry_shows entry then Return () else Raise TypeError
  | None => Return ()
  end.

(** The JSON value of a PO list, and the data file as the JSON it holds. *)
Definition as_json (pos : list po_entry) : json := JList (JDict <$> pos).



Definition is_object (j : json) : bool :=
  match j with
  | JDict _ => true
  | _ => false
  end.




(** Two deliveries; the entry of B is a list of numbers. *)
Definition ill_formed_deliveries : gmap string json :=
  list_to_map [("success", JBool true);
               ("data", JDict (list_to_map [("A", JList []); ("B", JList [JNum 1])]))].

(** Company A of route R1 selected, in pickup mode, nothing stored yet. *)
Definition pickup_form : POApp :=
  with_settings
    (λ s, set_app_mode_field "pickup" (set_selected_company "A" (set_selected_route "R1" s)))
    initial_app.


(** Route R1 with its two deliveries, A and B, the cursor on A. *)
Definition two_stops : POApp :=
  with_delivery
    (λ _, {| delivery_api_response := JDict two_deliveries;
             delivery_companies := ["A"; "B"];
             current_delivery_index := 0; total_deliveries := 2 |})
    (on_route "R1" initial_app).

(** The same route, the entry of B being a list of numbers. *)
Definition ill_formed_stops : POApp :=
  with_delivery (set_delivery_api_response (JDict ill_formed_deliveries)) two_stops.

(** One entry written by the form, its row ticked. *)
Definition entered : POApp :=
  with_disk
    (set_data_file
       (Stored [po_data "planer" "3" "11/03/2026" "2026-11-03T10:15:00"
                  (settings pickup_form)]))
    (with_window (set_po_list [true] []) pickup_form).

(** Every file missing, in a directory that refuses writes. *)
Definition read_only_disk : Disk :=
  {| data_file := Absent; settings_file := Absent; company_db_file := Absent;
     delivery_data_file := Absent; writable := false |}.

(** * Proofs *)

Tactic Notation "unfold_monad" :=
  unfold mbind, M_bind, mret, M_ret, try_except, raise, get, modify.
Tactic Notation "unfold_monad" "in" hyp(H) :=
  unfold mbind, M_bind, mret, M_ret, try_except, raise, get, modify in H.

(** ** Settings and company database *)

Lemma elem_of_keys {A} (d : gmap string A) k : k ∈ keys d ↔ is_Some (d !! k).
Proof.
  unfold keys. rewrite list_elem_of_fmap. split.
  - intros [[k' x] [-> Hin]]. apply elem_of_map_to_list in Hin. by exists x.
  - intros [x Hx]. exists (k, x). split; [done|]. by apply elem_of_map_to_list.
Qed.

Lemma save_settings_eq st :
  save_settings st =
    (Return (),
     if writable (disk st)
     then with_disk (set_settings_file (Stored (settings_dict (settings st)))) st
     else st).
Proof.
  unfold save_settings, write_json. unfold_monad. by destruct (writable (disk st)).
Qed.

Lemma update_route_company_lists_eq st :
  update_route_company_lists st =
    (Return (),
     let st1 := with_lists (keys (company_database st)) (refreshed_names st) st in
     if decide (selected_company (settings st) ≠ "" ∧
                selected_company (settings st) ∉ refreshed_names st)
     then (save_settings (with_settings (set_selected_company "") st1)).2
     else st1).
Proof.
  unfold update_route_company_lists, refreshed_names. unfold_monad. simpl.
  case_decide; [|done].
  by rewrite save_settings_eq.
Qed.

Lemma refreshed_names_elem st c :
  c ∈ refreshed_names st →
  match company_database st !! selected_route (settings st) with
  | Some companies => is_Some (companies !! c)
  | None => False
  end.
Proof.
  unfold refreshed_names. case_decide; [|by intros ?%elem_of_nil].
  destruct (company_database st !! selected_route (settings st)).
  - by intros ?%elem_of_keys.
  - by intros ?%elem_of_nil.
Qed.


Lemma update_route_company_lists_database st :
  company_database (run update_route_company_lists st) = company_database st.
Proof.
  unfold run. rewrite update_route_company_lists_eq. simpl.
  case_decide; [|done]. rewrite save_settings_eq. simpl.
  by destruct (writable _).
Qed.

Lemma update_route_company_lists_route st :
  selected_route (settings (run update_route_company_lists st)) =
  selected_route (settings st).
Proof.
  unfold run. rewrite update_route_company_lists_eq. simpl.
  case_decide; [|done]. rewrite save_settings_eq. simpl.
  by destruct (writable _).
Qed.

Lemma update_route_company_lists_valid st :
  selection_valid (run update_route_company_lists st).
Proof.
  unfold selection_valid.
  rewrite update_route_company_lists_database, update_route_company_lists_route.
  unfold run. rewrite update_route_company_lists_eq. simpl.
  case_decide as Hstale.
  - left. rewrite save_settings_eq. simpl. by destruct (writable _).
  - simpl. destruct (decide (selected_company (settings st) = "")) as [|Hne]; [by left|].
    right. apply refreshed_names_elem.
    destruct (decide (selected_company (settings st) ∈ refreshed_names st)); [done|].
    destruct Hstale. done.
Qed.

Lemma load_company_database_eq st :
  load_company_database st =
  update_route_company_lists (with_company_database (λ _, loaded_db st) st).
Proof.
  unfold load_company_database, loaded_db, path_exists, read_json.
  unfold_monad. simpl.
  destruct (company_db_file (disk st)) eqn:Hfile; simpl; try done.
  all: rewrite ?Hfile; simpl; by rewrite ?update_route_company_lists_eq.
Qed.

Lemma save_company_database_eq st :
  save_company_database st =
  if writable (disk st) then
    (Return true,
     run update_route_company_lists
       (with_disk (set_company_db_file (Stored (company_database st))) st))
  else (Return false, st).
Proof.
  unfold save_company_database, write_json. unfold_monad. simpl.
  destruct (writable (disk st)); [|done]. simpl.
  unfold run. by rewrite update_route_company_lists_eq.
Qed.

Lemma save_company_database_database st :
  company_database (run save_company_database st) = company_database st.
Proof.
  unfold run at 1. rewrite save_company_database_eq.
  destruct (writable _); [|done]. simpl.
  by rewrite update_route_company_lists_database.
Qed.

Section sync.
Context `{SetIteration}.

Lemma sync_company_database_ok replace text remote st :
  sync_company_database replace (Response 200 text (Some remote)) st =
  (Return true,
   let st1 := with_company_database (synced_db replace remote) st in
   let st2 := run update_route_company_lists (run save_company_database st1) in
   with_window (set_route_selection_items (available_routes st2)) st2).
Proof.
  unfold sync_company_database, response_json, synced_db. unfold_monad. simpl.
  destruct replace; simpl.
  all: unfold run.
  all: destruct (save_company_database _) as [[saved|e] st2] eqn:Hsave;
    [|rewrite save_company_database_eq in Hsave; by destruct (writable _)].
  all: simpl.
  all: by destruct (update_route_company_lists st2) as [[[]|] st3] eqn:Hupd;
    rewrite update_route_company_lists_eq in Hupd.
Qed.

Lemma sync_company_database_database replace text remote st :
  company_database (run (sync_company_database replace (Response 200 text (Some remote))) st)
  = synced_db replace remote (company_database st).
Proof.
  unfold run at 1. rewrite sync_company_database_ok. simpl.
  rewrite update_route_company_lists_database, save_company_database_database.
  done.
Qed.
End sync.

Lemma convert_companies_lookup (companies : route_record) c :
  map_fold convert_company ∅ companies !! c = converted_record <$> companies !! c.
Proof.
  revert c. apply (map_fold_weak_ind (λ r m, ∀ c, r !! c = converted_record <$> m !! c)).
  - intros c. by rewrite !lookup_empty.
  - intros i x m r Hi IH c. unfold convert_company.
    destruct (decide (i = c)) as [->|Hne].
    + by rewrite !lookup_insert_eq.
    + by rewrite !lookup_insert_ne.
Qed.

Lemma convert_db_lookup (server_db : database) r :
  convert_db server_db !! r = map_fold convert_company ∅ <$> server_db !! r.
Proof.
  unfold convert_db. revert r.
  apply (map_fold_weak_ind
           (λ acc m, ∀ r, acc !! r = map_fold convert_company ∅ <$> m !! r)).
  - intros r. by rewrite !lookup_empty.
  - intros i x m acc Hi IH r. unfold convert_route.
    destruct (decide (i = r)) as [->|Hne].
    + by rewrite !lookup_insert_eq.
    + by rewrite !lookup_insert_ne.
Qed.

Lemma convert_db_record_at (server_db : database) r c :
  record_at (convert_db server_db) r c = converted_record <$> record_at server_db r c.
Proof.
  unfold record_at. rewrite convert_db_lookup.
  destruct (server_db !! r) as [companies|]; simpl; [|done].
  apply convert_companies_lookup.
Qed.

Section merge_facts.
Context `{SetIteration}.

Lemma merge_companies_lookup (local_route companies : route_record) c :
  map_fold merge_company local_route companies !! c =
  match companies !! c with
  | Some data => Some (merged_record (local_route !! c) data)
  | None => local_route !! c
  end.
Proof.
  revert c. apply (map_fold_weak_ind (λ r m, ∀ c, r !! c =
    match m !! c with
    | Some data => Some (merged_record (local_route !! c) data)
    | None => local_route !! c
    end)).
  - intros c. by rewrite lookup_empty.
  - intros i x m r Hi IH c. unfold merge_company.
    destruct (decide (i = c)) as [->|Hne].
    + rewrite lookup_insert_eq. rewrite IH, Hi.
      destruct (local_route !! c); by rewrite lookup_insert_eq.
    + rewrite (lookup_insert_ne m) by done.
      destruct (r !! i); by rewrite lookup_insert_ne.
Qed.

Lemma merge_db_lookup (local converted : database) r :
  merge_db local converted !! r =
  match converted !! r with
  | Some companies => Some (map_fold merge_company (default ∅ (local !! r)) companies)
  | None => local !! r
  end.
Proof.
  unfold merge_db. revert r.
  apply (map_fold_weak_ind (λ acc m, ∀ r, acc !! r =
    match m !! r with
    | Some companies => Some (map_fold merge_company (default ∅ (local !! r)) companies)
    | None => local !! r
    end)).
  - intros r. by rewrite lookup_empty.
  - intros i x m acc Hi IH r. unfold merge_route.
    destruct (decide (i = r)) as [->|Hne].
    + rewrite !lookup_insert_eq. f_equal. f_equal.
      pose proof (IH r) as IHr. rewrite Hi in IHr.
      destruct (acc !! r) eqn:Hacc.
      * by rewrite Hacc, <- IHr.
      * by rewrite lookup_insert_eq, <- IHr.
    + rewrite (lookup_insert_ne m) by done.
      rewrite lookup_insert_ne by done.
      destruct (acc !! i); [done|]. by rewrite lookup_insert_ne.
Qed.

Lemma merge_db_record_at (local converted : database) r c :
  record_at (merge_db local converted) r c =
  match record_at converted r c with
  | Some data => Some (merged_record (record_at local r c) data)
  | None => record_at local r c
  end.
Proof.
  unfold record_at. rewrite merge_db_lookup.
  destruct (converted !! r) as [companies|]; simpl; [|done].
  rewrite merge_companies_lookup.
  destruct (companies !! c).
  - by destruct (local !! r).
  - by destruct (local !! r).
Qed.
End merge_facts.

Section sync_claims.
Context `{SetIteration}.

(** C1.  Merge sync unions the blades of a company known on both sides.
    When [sync_company_database(replace=False)] receives the snapshot [remote]
    with status 200, every route/company present both in the local database
    and in the snapshot ends with a ["frequent_blades"] list that has no
    repeated entry and whose elements are exactly the local blades together
    with the remote descriptions, for every order in which the set is
    enumerated. *)
Theorem merge_sync_unions_blades (st : POApp) (remote : database) (text : string)
    (route company : string) (existing_data data : company_record) :
  record_at (company_database st) route company = Some existing_data →
  record_at remote route company = Some data →
  let st' := run (sync_company_database false (Response 200 text (Some remote))) st in
  ∃ blades,
    blades_at (company_database st') route company = Some blades ∧
    NoDup blades ∧
    (list_to_set blades : gset string) =
      list_to_set (default [] (existing_data !! "frequent_blades")) ∪
      list_to_set (default [] (data !! "descriptions")).
Proof.
  intros Hlocal Hremote st'. subst st'.
  rewrite sync_company_database_database. unfold synced_db, blades_at.
  rewrite merge_db_record_at, convert_db_record_at, Hremote, Hlocal. simpl.
  unfold merge_blades. rewrite lookup_insert_eq.
  eexists. split; [done|]. split; [apply list_of_set_NoDup|].
  apply set_eq. intros x.
  rewrite elem_of_union, !elem_of_list_to_set, list_of_set_elem, elem_of_app.
  unfold converted_record. by rewrite lookup_singleton_eq.
Qed.
End sync_claims.

(** C1 at the example of the specification: local blades [x], remote
    descriptions [x, y], first-occurrence order. *)
Lemma merge_sync_unions_blades_example :
  ∃ blades,
    blades_at (company_database
      (run (@sync_company_database first_occurrences false
              (Response 200 "" (Some example_remote)))
           (with_company_database (λ _, example_local) initial_app)))
      "R1" "A" = Some blades ∧
    NoDup blades ∧
    (list_to_set blades : gset string) = {["x"; "y"]}.
Proof.
  destruct (@merge_sync_unions_blades first_occurrences
              (with_company_database (λ _, example_local) initial_app)
              example_remote "" "R1" "A"
              {["frequent_blades" := ["x"]]} {["descriptions" := ["x"; "y"]]})
    as (blades & Hblades & Hnodup & Hset).
  - vm_compute. reflexivity.
  - vm_compute. reflexivity.
  - exists blades. split; [exact Hblades|]. split; [exact Hnodup|].
    rewrite Hset, !lookup_singleton_eq. simpl. set_solver.
Defined.

Lemma update_route_company_lists_disk st :
  company_db_file (disk (run update_route_company_lists st)) = company_db_file (disk st) ∧
  data_file (disk (run update_route_company_lists st)) = data_file (disk st) ∧
  delivery_data_file (disk (run update_route_company_lists st)) =
    delivery_data_file (disk st) ∧
  writable (disk (run update_route_company_lists st)) = writable (disk st).
Proof.
  unfold run. rewrite update_route_company_lists_eq. simpl.
  case_decide; [|done]. rewrite save_settings_eq. simpl.
  by destruct (writable (disk st)) eqn:Hw.
Qed.

Section sync_claims2.
Context `{SetIteration}.

(** C2.  Replace sync discards the local database.  When
    [sync_company_database(replace=True)] receives the snapshot [remote] with
    status 200 it returns [True], the local database is exactly the converted
    snapshot, a route the snapshot does not have is no longer present, every
    company record is the converted remote one, and the database file holds
    the converted snapshot when the directory accepts the write. *)
Theorem replace_sync_discards_local (st : POApp) (remote : database) (text : string) :
  let sync := sync_company_database true (Response 200 text (Some remote)) in
  result sync st = Return true ∧
  company_database (run sync st) = convert_db remote ∧
  (∀ route, remote !! route = None → company_database (run sync st) !! route = None) ∧
  (∀ route company,
     record_at (company_database (run sync st)) route company =
     converted_record <$> record_at remote route company) ∧
  company_db_file (disk (run sync st)) =
    (if writable (disk st) then Stored (convert_db remote)
     else company_db_file (disk st)).
Proof.
  intros sync. subst sync.
  assert (Hdb := sync_company_database_database true text remote st).
  unfold synced_db in Hdb. rewrite Hdb.
  split; [|split; [done|split; [|split]]].
  - unfold result. by rewrite sync_company_database_ok.
  - intros route Hroute. by rewrite convert_db_lookup, Hroute.
  - intros route company. apply convert_db_record_at.
  - unfold run at 1. rewrite sync_company_database_ok. simpl.
    destruct (update_route_company_lists_disk
                (run save_company_database
                   (with_company_database (synced_db true remote) st)))
      as (-> & _).
    unfold run at 1. rewrite save_company_database_eq. simpl.
    destruct (writable (disk st)); [|done]. simpl.
    destruct (update_route_company_lists_disk
                (with_disk (set_company_db_file (Stored (convert_db remote)))
                   (with_company_database (λ _ : database, convert_db remote) st)))
      as (Hfile & _).
    unfold synced_db. simpl. by rewrite Hfile.
Qed.

Lemma merge_blades_again (existing : option (company_record))
    (d0 : company_record) :
  let data := converted_record d0 in
  let record := merged_record existing data in
  (list_to_set <$> merge_blades record data : gmap string (gset string)) =
  list_to_set <$> record.
Proof.
  intros data record. unfold merge_blades at 1.
  rewrite fmap_insert. apply insert_id. rewrite lookup_fmap.
  assert (Hdata : data !! "frequent_blades" = Some (default [] (d0 !! "descriptions"))).
  { unfold data, converted_record. by rewrite lookup_singleton_eq. }
  rewrite Hdata. simpl.
  assert (Hrec : ∃ blades, record !! "frequent_blades" = Some blades ∧
            ∀ x, x ∈ default [] (d0 !! "descriptions") → x ∈ blades).
  { unfold record, merged_record. destruct existing as [existing_data|].
    - unfold merge_blades. rewrite lookup_insert_eq. eexists. split; [done|].
      intros x Hx. rewrite list_of_set_elem, elem_of_app, Hdata. by right.
    - exists (default [] (d0 !! "descriptions")). by split. }
  destruct Hrec as (blades & -> & Hsub). simpl. f_equal.
  apply set_eq. intros x.
  rewrite !elem_of_list_to_set, list_of_set_elem, elem_of_app.
  split; [by left|intros [?|?]; auto].
Qed.

(** C3, as amended.  A second merge sync with the same snapshot leaves the
    database unchanged once every list of blades is read as a set, and after
    it every company of the snapshot has a list of blades without repeated
    entry: no blade is appended a second time. *)
Theorem merge_sync_idempotent_up_to_blade_sets (st : POApp) (remote : database)
    (text text' : string) :
  let once := run (sync_company_database false (Response 200 text (Some remote))) st in
  let twice := run (sync_company_database false (Response 200 text' (Some remote))) once in
  blade_sets (company_database twice) = blade_sets (company_database once) ∧
  ∀ route company, is_Some (record_at remote route company) →
    ∃ blades, blades_at (company_database twice) route company = Some blades ∧
              NoDup blades.
Proof.
  intros once twice. subst once twice.
  rewrite !sync_company_database_database. unfold synced_db.
  set (L := company_database st). set (C := convert_db remote).
  split.
  - unfold blade_sets. apply map_eq. intros r. rewrite !lookup_fmap.
    rewrite (merge_db_lookup (merge_db L C) C r). rewrite (merge_db_lookup L C r).
    destruct (C !! r) as [cs|] eqn:HC; [|done].
    simpl. f_equal. apply map_eq. intros c. rewrite !lookup_fmap.
    rewrite !merge_companies_lookup.
    destruct (cs !! c) as [data|] eqn:Hdata; [|done].
    simpl. f_equal.
    assert (Hconv : ∃ d0, data = converted_record d0).
    { unfold C in HC. rewrite convert_db_lookup in HC.
      destruct (remote !! r) as [rcs|]; simpl in HC; [|done].
      injection HC as <-. rewrite convert_companies_lookup in Hdata.
      destruct (rcs !! c) as [d0|]; simpl in Hdata; [|done].
      injection Hdata as <-. by exists d0. }
    destruct Hconv as [d0 ->]. apply merge_blades_again.
  - intros route company [d0 Hd0]. unfold blades_at.
    rewrite merge_db_record_at. unfold C at 1.
    rewrite convert_db_record_at, Hd0. simpl.
    rewrite merge_db_record_at. unfold C.
    rewrite convert_db_record_at, Hd0. simpl.
    unfold merge_blades at 1. rewrite lookup_insert_eq.
    eexists. split; [done|]. apply list_of_set_NoDup.
Qed.
End sync_claims2.

(** C3, counterexample.  On an empty local database and a snapshot whose
    company lists the blade "x" twice, the first merge stores the list as
    received and the second one stores it without the repetition: the two
    databases differ, whatever the order of enumeration. *)
Lemma merge_sync_twice_changes_blade_list :
  ¬ ∃ order : SetIteration,
      let sync := @sync_company_database order false
                    (Response 200 "" (Some duplicated_remote)) in
      company_database (run sync (run sync initial_app)) =
      company_database (run sync initial_app).
Proof.
  intros [order Heq]. cbv zeta in Heq.
  apply (f_equal (λ db, blades_at db "R1" "A")) in Heq.
  rewrite !sync_company_database_database in Heq. unfold synced_db, blades_at in Heq.
  rewrite (merge_db_record_at (merge_db _ _)) in Heq.
  rewrite !merge_db_record_at, !convert_db_record_at in Heq.
  change (record_at duplicated_remote "R1" "A")
    with (Some ({["descriptions" := ["x"; "x"]]} : company_record)) in Heq.
  change (record_at (company_database initial_app) "R1" "A")
    with (@None (company_record)) in Heq.
  simpl in Heq. unfold merge_blades, converted_record in Heq.
  rewrite lookup_insert_eq, !lookup_singleton_eq in Heq. simpl in Heq.
  injection Heq as Heq.
  pose proof (list_of_set_NoDup ["x"; "x"; "x"; "x"]) as Hnodup.
  rewrite Heq in Hnodup. apply NoDup_cons in Hnodup as [Hin _].
  apply Hin. by left.
Qed.

(** C3, as amended, at the snapshot of the counterexample. *)
Lemma merge_sync_idempotent_up_to_blade_sets_example :
  let sync := @sync_company_database first_occurrences false
                (Response 200 "" (Some duplicated_remote)) in
  blade_sets (company_database (run sync (run sync initial_app))) =
  blade_sets (company_database (run sync initial_app)).
Proof.
  cbv zeta.
  destruct (@merge_sync_idempotent_up_to_blade_sets first_occurrences
              initial_app duplicated_remote "" "") as [Hsame _].
  exact Hsame.
Defined.

Lemma selection_valid_with_window f st :
  selection_valid (with_window f st) ↔ selection_valid st.
Proof. done. Qed.



(** C2 at an example: the local-only route R2 is gone after a replace sync. *)
Lemma replace_sync_discards_local_example :
  let local := with_company_database (λ _, local_with_R2) initial_app in
  let sync := @sync_company_database first_occurrences true
                (Response 200 "" (Some example_remote)) in
  is_Some (company_database local !! "R2") ∧
  company_database (run sync local) !! "R2" = None ∧
  blades_at (company_database (run sync local)) "R1" "A" = Some ["x"; "y"].
Proof.
  cbv zeta.
  destruct (@replace_sync_discards_local first_occurrences
              (with_company_database (λ _, local_with_R2) initial_app)
              example_remote "") as (_ & _ & Hgone & Hrecord & _).
  split; [|split].
  - vm_compute. eauto.
  - apply Hgone. vm_compute. reflexivity.
  - unfold blades_at. rewrite Hrecord. vm_compute. reflexivity.
Defined.


Section extras.
Context `{SetIteration}.

(** X2.  Merge sync, record by record.  After a merge sync that received
    [remote] with status 200: a company of the snapshot that is unknown
    locally is inserted with its converted record, one that is known gets the
    merged blades, and every other company keeps its record; the routes are
    those of the local database and of the snapshot. *)
Theorem merge_sync_record_by_record (st : POApp) (remote : database) (text : string)
    (route company : string) :
  let st' := run (sync_company_database false (Response 200 text (Some remote))) st in
  record_at (company_database st') route company =
    match record_at remote route company with
    | Some data =>
        match record_at (company_database st) route company with
        | Some existing_data => Some (merge_blades existing_data (converted_record data))
        | None => Some (converted_record data)
        end
    | None => record_at (company_database st) route company
    end ∧
  (is_Some (company_database st' !! route) ↔
   is_Some (company_database st !! route) ∨ is_Some (remote !! route)).
Proof.
  intros st'. subst st'. rewrite sync_company_database_database. unfold synced_db.
  split.
  - rewrite merge_db_record_at, convert_db_record_at.
    destruct (record_at remote route company); simpl; [|done].
    by destruct (record_at (company_database st) route company).
  - rewrite merge_db_lookup, convert_db_lookup.
    destruct (remote !! route); simpl.
    + split; [by right|by eauto].
    + split; [by left|]. intros [?|[? ?]]; done.
Qed.

(** X3.  A sync that fails changes nothing.  When the request fails, the
    status is not 200 or the body is not JSON, [sync_company_database] returns
    [False] and the application is left as it was. *)
Theorem failed_sync_leaves_everything (st : POApp) (replace : bool)
    (response : http_result database) :
  (∀ text remote, response ≠ Response 200 text (Some remote)) →
  sync_company_database replace response st = (Return false, st).
Proof.
  intros Hfail. unfold sync_company_database, response_json. unfold_monad.
  destruct response as [|status_code text [remote|]]; simpl; [done| |].
  - case_decide as Hstatus; [|done]. subst. by destruct (Hfail text remote).
  - by case_decide.
Qed.
End extras.

(** X2 at an example: the local-only company B of route R2 is kept. *)
Lemma merge_sync_record_by_record_example :
  let sync := @sync_company_database first_occurrences false
                (Response 200 "" (Some example_remote)) in
  let local := with_company_database (λ _, local_with_R2) initial_app in
  record_at (company_database (run sync local)) "R2" "B"
    = Some {["frequent_blades" := ["z"]]}.
Proof.
  cbv zeta.
  destruct (@merge_sync_record_by_record first_occurrences
              (with_company_database (λ _, local_with_R2) initial_app)
              example_remote "" "R2" "B") as [Hrecord _].
  rewrite Hrecord. vm_compute. reflexivity.
Defined.

(** X3 at an example: a 503 answer. *)
Lemma failed_sync_leaves_everything_example :
  @sync_company_database first_occurrences false (Response 503 "" None)
    (with_company_database (λ _, local_with_R2) initial_app)
  = (Return false, with_company_database (λ _, local_with_R2) initial_app).
Proof.
  apply (@failed_sync_leaves_everything first_occurrences).
  intros text remote. discriminate.
Defined.

(** ** PO record store *)

Lemma read_pos_eq st : read_pos st = (Return (stored_pos st), st).
Proof.
  unfold read_pos, stored_pos, path_exists, read_json. unfold_monad. simpl.
  destruct (data_file (disk st)) eqn:Hfile; simpl; rewrite ?Hfile; done.
Qed.

Lemma load_pos_rows (pos : list po_entry) st :
  for_each pos (λ po _,
    modify (with_window (λ w,
      set_po_list (checkboxes w ++ [false]) (po_list_box w ++ [row_of po]) w)))
    () st =
  (Return (),
   with_window (λ w,
     set_po_list (checkboxes w ++ replicate (length pos) false)
                 (po_list_box w ++ (row_of <$> pos)) w) st).
Proof.
  revert st. induction pos as [|po pos IH]; intros st.
  - simpl. unfold_monad. destruct st as [? ? ? ? ? ? ? [] ? ?]. simpl.
    unfold with_window, set_po_list. simpl. by rewrite !app_nil_r.
  - simpl. unfold_monad. simpl. unfold_monad in IH. rewrite IH.
    destruct st as [? ? ? ? ? ? ? [] ? ?]. simpl.
    unfold with_window, set_po_list. simpl. by rewrite <- !app_assoc.
Qed.

Lemma load_pos_eq st :
  load_pos st =
  (Return (),
   with_window (set_po_list (replicate (length (stored_pos st)) false)
                            (row_of <$> stored_pos st)) st).
Proof.
  unfold load_pos. unfold_monad. simpl.
  pose proof (read_pos_eq (with_window (set_po_list [] []) st)) as Hread.
  unfold_monad in Hread. rewrite Hread.
  pose proof (load_pos_rows (stored_pos (with_window (set_po_list [] []) st))
                (with_window (set_po_list [] []) st)) as Hrows.
  unfold_monad in Hrows. rewrite Hrows.
  by destruct st as [? ? ? ? ? ? ? [] ? ?].
Qed.








Lemma getitem_lookup {A} (l : list A) i x st :
  l !! i = Some x → getitem l i st = (Return x, st).
Proof. unfold getitem. by intros ->. Qed.

Lemma collect_loop today driver (all_pos : list po_entry) selected acc st :
  for_each selected (λ i to_upload,
    if decide (i < length all_pos)%nat then
      po ← getitem all_pos i;
      mret (to_upload ++ [prepare_po today driver po])
    else mret to_upload) acc st =
  (Return (acc ++ payload today driver selected all_pos), st).
Proof.
  revert acc. induction selected as [|i selected IH]; intros acc.
  - simpl. unfold payload. simpl. by rewrite app_nil_r.
  - simpl. unfold_monad. case_decide as Hi.
    + destruct (lookup_lt_is_Some_2 all_pos i Hi) as [po Hpo].
      rewrite (getitem_lookup _ _ _ _ Hpo). unfold_monad in IH. rewrite IH.
      unfold payload. simpl. rewrite Hpo. simpl. by rewrite <- app_assoc.
    + unfold_monad in IH. rewrite IH. unfold payload. simpl.
      rewrite lookup_ge_None_2 by lia. done.
Qed.

Lemma insert_as_alter {A} (f : A → A) (l : list A) i x :
  l !! i = Some x → <[i:=f x]> l = alter f i l.
Proof.
  intros Hx. apply list_eq. intros k. destruct (decide (i = k)) as [->|Hne].
  - rewrite list_lookup_insert_eq by eauto using lookup_lt_Some.
    by rewrite list_lookup_alter_eq, Hx.
  - by rewrite list_lookup_insert_ne, list_lookup_alter_ne.
Qed.

Lemma alter_out_of_range {A} (f : A → A) (l : list A) i :
  (length l ≤ i)%nat → alter f i l = l.
Proof.
  intros Hi. apply list_eq. intros k. destruct (decide (i = k)) as [->|Hne].
  - rewrite list_lookup_alter_eq. by rewrite lookup_ge_None_2.
  - by rewrite list_lookup_alter_ne.
Qed.

Lemma mark_loop (selected : list nat) (all_pos : list po_entry) st :
  for_each selected (λ i all_pos,
    if decide (i < length all_pos)%nat then
      po ← getitem all_pos i;
      setitem all_pos i (<["uploaded" := JBool true]> po)
    else mret all_pos) all_pos st =
  (Return (foldl (λ l i, alter mark_uploaded i l) all_pos selected), st).
Proof.
  revert all_pos. induction selected as [|i selected IH]; intros all_pos; [done|].
  simpl. unfold_monad. unfold_monad in IH.
  case_decide as Hi.
  - destruct (lookup_lt_is_Some_2 all_pos i Hi) as [po Hpo].
    rewrite (getitem_lookup _ _ _ _ Hpo). unfold setitem.
    rewrite decide_True by done. unfold_monad.
    change (<["uploaded":=JBool true]> po) with (mark_uploaded po).
    rewrite (insert_as_alter mark_uploaded _ _ _ Hpo). apply IH.
  - rewrite IH. by rewrite (alter_out_of_range mark_uploaded all_pos i) by lia.
Qed.

Lemma marked_foldl (selected : list nat) (all_pos : list po_entry) :
  foldl (λ l i, alter mark_uploaded i l) all_pos selected = marked selected all_pos.
Proof.
  apply list_eq. intros k. unfold marked. rewrite list_lookup_imap.
  revert all_pos. induction selected as [|i selected IH]; intros all_pos; simpl.
  - by destruct (all_pos !! k).
  - rewrite IH. destruct (decide (i = k)) as [->|Hne].
    + rewrite list_lookup_alter_eq.
      destruct (all_pos !! k) as [po|]; simpl; [|done].
      rewrite (decide_True (P := k ∈ k :: selected)) by (apply elem_of_cons; by left).
      case_decide; [|done]. unfold mark_uploaded. by rewrite insert_insert_eq.
    + rewrite list_lookup_alter_ne by done.
      destruct (all_pos !! k) as [po|]; simpl; [|done].
      f_equal. apply decide_ext. rewrite elem_of_cons. intuition congruence.
Qed.

Lemma show_dialog_async_eq kind title message st :
  show_dialog_async kind title message st =
  (Return (), with_window (queue_dialog (a_dialog kind title message)) st).
Proof. done. Qed.

Lemma upload_selected_stored today response st all_pos :
  data_file (disk st) = Stored all_pos →
  ticked (checkboxes (window st)) ≠ [] →
  upload_selected today response st =
  (Return (),
   let selected := ticked (checkboxes (window st)) in
   let to_upload := payload today (driver_id (settings st)) selected all_pos in
   let st1 := with_uploads (λ sent, sent ++ [to_upload]) st in
   match response with
   | NoResponse =>
       with_window (queue_dialog (a_dialog error "Error"
         [Lit "Upload failed: "; Lit (str_exn RequestException)])) st1
   | Response status_code text _ =>
       if decide (status_code = 200) then
         if writable (disk st) then
           with_window (queue_dialog (a_dialog info "Success"
             [Fmt (JNum (Z.of_nat (length to_upload)));
              Lit " pick up form(s) uploaded successfully!"]))
             (run load_pos
                (with_disk (set_data_file (Stored (marked selected all_pos))) st1))
         else
           with_window (queue_dialog (a_dialog error "Error"
             [Lit "Upload failed: "; Lit (str_exn OSError)])) st1
       else
         with_window (queue_dialog (a_dialog error "Error"
           [Lit "Server responded: "; Fmt (JNum status_code);
            Lit (String (Ascii.ascii_of_nat 10) text)])) st1
   end).
Proof.
  intros Hfile Hsel. unfold upload_selected, read_json, requests_post, write_json.
  unfold_monad. simpl. rewrite decide_False by done. rewrite Hfile.
  pose proof (collect_loop today (driver_id (settings st))
                all_pos (ticked (checkboxes (window st))) [] st) as Hcollect.
  unfold_monad in Hcollect. rewrite Hcollect. simpl.
  destruct response as [|status_code text body]; simpl; [done|].
  case_decide as Hstatus; [|done].
  pose proof (mark_loop (ticked (checkboxes (window st))) all_pos) as Hmark.
  unfold_monad in Hmark. rewrite Hmark, marked_foldl. simpl.
  destruct (writable (disk st)); [|done].
  unfold run. rewrite load_pos_eq. done.
Qed.

Lemma for_each_app {A S} (xs ys : list A) (body : A → S → M S) acc st :
  for_each (xs ++ ys) body acc st =
  (acc' ← for_each xs body acc; for_each ys body acc') st.
Proof.
  revert acc st. induction xs as [|x xs IH]; intros acc st; simpl.
  - unfold_monad. done.
  - unfold_monad. destruct (body x acc st) as [[acc'|e] st']; [|done].
    rewrite IH. done.
Qed.

Lemma ticked_from_ge i boxes : Forall (λ j, (i ≤ j)%nat) (ticked_from i boxes).
Proof.
  revert i. induction boxes as [|b boxes IH]; intros i; simpl; [constructor|].
  apply Forall_app. split.
  - destruct b; repeat constructor.
  - eapply Forall_impl; [apply IH|]. simpl. lia.
Qed.

Lemma insert_descending_below i l :
  Forall (λ j, (i < j)%nat) l → insert_descending i (reverse l) = reverse l ++ [i].
Proof.
  intros Hl. apply Forall_reverse in Hl. revert Hl.
  generalize (reverse l). clear l. intros l.
  induction l as [|j l IH]; intros Hl; simpl; [done|].
  apply Forall_cons in Hl as [Hj Hl].
  rewrite decide_False by lia. by rewrite IH.
Qed.

Lemma sorted_reverse_ticked_from i boxes :
  sorted_reverse (ticked_from i boxes) = reverse (ticked_from i boxes).
Proof.
  revert i. induction boxes as [|b boxes IH]; intros i; simpl; [done|].
  destruct b; simpl; [|apply IH].
  rewrite IH, reverse_cons. apply insert_descending_below.
  eapply Forall_impl; [apply ticked_from_ge|]. simpl. lia.
Qed.

Lemma guarded_pop_beyond {A} (indices : list nat) (pos : list A) st :
  Forall (λ j, (length pos ≤ j)%nat) indices →
  for_each indices guarded_pop pos st = (Return pos, st).
Proof.
  induction 1 as [|j indices Hj _ IH]; simpl; [done|].
  unfold_monad. unfold guarded_pop at 1. rewrite decide_False by lia.
  unfold_monad. apply IH.
Qed.

Lemma delete_loop_from {A} (boxes : list bool) (pre l : list A) st :
  for_each (reverse (ticked_from (length pre) boxes)) guarded_pop (pre ++ l) st =
  (Return (pre ++ unticked boxes l), st).
Proof.
  revert pre l. induction boxes as [|b boxes IH]; intros pre l; [by destruct l|].
  destruct l as [|x l].
  - simpl. apply guarded_pop_beyond. apply Forall_reverse.
    rewrite app_nil_r.
    apply (ticked_from_ge (length pre) (b :: boxes)).
  - simpl. rewrite reverse_app, for_each_app. unfold_monad.
    specialize (IH (pre ++ [x]) l). rewrite length_app in IH. simpl in IH.
    replace (length pre + 1)%nat with (S (length pre)) in IH by lia.
    rewrite <- !app_assoc in IH. simpl in IH. rewrite IH.
    destruct b; simpl; [|done].
    unfold_monad. unfold guarded_pop, pop.
    rewrite !decide_True by (rewrite length_app; simpl; lia).
    unfold_monad. by rewrite delete_middle.
Qed.

Lemma delete_loop (boxes : list bool) (pos : list po_entry) st :
  for_each (sorted_reverse (ticked boxes)) (λ i pos,
    if decide (i < length pos)%nat then pop pos i else mret pos) pos st =
  (Return (unticked boxes pos), st).
Proof.
  unfold ticked. rewrite sorted_reverse_ticked_from.
  apply (delete_loop_from boxes [] pos st).
Qed.

Lemma delete_selected_stored st pos :
  data_file (disk st) = Stored pos →
  ticked (checkboxes (window st)) ≠ [] →
  delete_selected st =
  (Return (),
   if writable (disk st) then
     with_window (queue_dialog (a_dialog info "Success"
       [Fmt (JNum (Z.of_nat (length (ticked (checkboxes (window st))))));
        Lit " pick up form(s) deleted!"]))
       (run load_pos
          (with_disk (set_data_file
             (Stored (unticked (checkboxes (window st)) pos))) st))
   else
     with_window (queue_dialog (a_dialog error "Error"
       [Lit "Delete failed: "; Lit (str_exn OSError)])) st).
Proof.
  intros Hfile Hsel. unfold delete_selected, read_json, write_json.
  unfold_monad. simpl. rewrite decide_False by done. rewrite Hfile.
  pose proof (delete_loop (checkboxes (window st)) pos st) as Hloop.
  unfold_monad in Hloop. rewrite Hloop. simpl.
  destruct (writable (disk st)); [|done].
  unfold run. rewrite load_pos_eq. done.
Qed.



Lemma update_frequent_blades_list_eq st :
  update_frequent_blades_list st =
  (Return (),
   with_frequent_blades
     (default [] (blades_at (company_database st) (selected_route (settings st))
                    (selected_company (settings st)))) st).
Proof.
  unfold update_frequent_blades_list, blades_at, record_at. unfold_monad. simpl.
  destruct (company_database st !! selected_route (settings st)) as [companies|];
    simpl; [|by destruct st].
  destruct (companies !! selected_company (settings st)) as [record|];
    simpl; by destruct st.
Qed.






(** C4.  Upload changes the PO file only on HTTP 200.  For a stored PO list
    and a non-empty selection: when the POST raises or answers another status
    than 200, no file changes and an error dialog is queued; when it answers
    200, the data file holds the same list with ["uploaded"] set to [True] at
    exactly the selected positions that exist (written when the directory
    accepts the write), and the other files are untouched. *)
Theorem upload_touches_the_file_only_on_200 (st : POApp) (today : string)
    (response : http_result unit) (all_pos : list po_entry) :
  data_file (disk st) = Stored all_pos →
  ticked (checkboxes (window st)) ≠ [] →
  let selected := ticked (checkboxes (window st)) in
  let st' := run (upload_selected today response) st in
  (status_of response ≠ Some 200 →
     disk st' = disk st ∧
     ∃ d, dialogs (window st') = dialogs (window st) ++ [d] ∧ dialog_kind d = error) ∧
  (status_of response = Some 200 →
     data_file (disk st') =
       (if writable (disk st)
        then Stored (imap (λ k po, if decide (k ∈ selected)
                                   then <["uploaded" := JBool true]> po else po)
                          all_pos)
        else Stored all_pos) ∧
     settings_file (disk st') = settings_file (disk st) ∧
     company_db_file (disk st') = company_db_file (disk st) ∧
     delivery_data_file (disk st') = delivery_data_file (disk st)).
Proof.
  intros Hfile Hsel selected st'. subst selected st'.
  unfold run at 1 2 3 4 5 6. rewrite (upload_selected_stored _ _ _ all_pos) by done.
  simpl. split.
  - intros Hstatus. destruct response as [|status_code text body]; simpl in *.
    + split; [done|]. eexists. split; [done|]. done.
    + rewrite decide_False by congruence. simpl.
      split; [done|]. eexists. split; [done|]. done.
  - intros Hstatus. destruct response as [|status_code text body]; simpl in *; [done|].
    rewrite decide_True by congruence.
    destruct (writable (disk st)) eqn:Hw; simpl.
    + unfold run. rewrite load_pos_eq. simpl. done.
    + by rewrite Hfile.
Qed.

(** C4 at an example: a 500 answer changes no file; a 200 answer marks the
    first entry, the ticked third row having no entry. *)
Lemma upload_touches_the_file_only_on_200_example :
  disk (run (upload_selected "11/03/2026" (Response 500 "busy" None)) sample_pickup)
    = disk sample_pickup ∧
  data_file (disk (run (upload_selected "11/03/2026" (Response 200 "ok" None))
                     sample_pickup))
    = Stored [<["uploaded" := JBool true]> (sample_po "saw"); sample_po "knife"].
Proof.
  split.
  - apply (upload_touches_the_file_only_on_200 sample_pickup "11/03/2026"
             (Response 500 "busy" None) [sample_po "saw"; sample_po "knife"]).
    + reflexivity.
    + vm_compute. discriminate.
    + vm_compute. discriminate.
  - apply (upload_touches_the_file_only_on_200 sample_pickup "11/03/2026"
             (Response 200 "ok" None) [sample_po "saw"; sample_po "knife"]).
    + reflexivity.
    + vm_compute. discriminate.
    + reflexivity.
Defined.



(** X1.  Deleting by index removes exactly the ticked rows.  For a stored
    list, a non-empty selection and a writable directory, [delete_selected]
    stores the entries whose row is not ticked, in their order, each of them
    an entry of the former list; with rows 0 and 2 of three entries ticked,
    the entry of row 1 is what remains. *)
Theorem delete_selected_removes_the_ticked_rows (st : POApp) (pos : list po_entry) :
  data_file (disk st) = Stored pos →
  ticked (checkboxes (window st)) ≠ [] →
  writable (disk st) = true →
  let st' := run delete_selected st in
  data_file (disk st') = Stored (unticked (checkboxes (window st)) pos) ∧
  (∀ k po, unticked (checkboxes (window st)) pos !! k = Some po → po ∈ pos) ∧
  (length (unticked (checkboxes (window st)) pos) ≤ length pos)%nat.
Proof.
  intros Hfile Hsel Hw st'. subst st'. split; [|split].
  - unfold run. rewrite (delete_selected_stored _ pos) by done.
    rewrite Hw. simpl. unfold run. by rewrite load_pos_eq.
  - generalize (checkboxes (window st)). clear. intros boxes.
    revert pos. induction boxes as [|b boxes IH]; intros [|x pos] k po; simpl;
      try (by intros ?%list_elem_of_lookup_2).
    destruct b; simpl.
    + intros Hk. apply elem_of_cons. right. by eapply IH.
    + destruct k as [|k]; simpl.
      * intros [= ->]. apply elem_of_cons. by left.
      * intros Hk. apply elem_of_cons. right. by eapply IH.
  - generalize (checkboxes (window st)). clear. intros boxes.
    revert pos. induction boxes as [|b boxes IH]; intros [|x pos]; simpl; try lia.
    specialize (IH pos). destruct b; simpl; lia.
Qed.

(** X1 at the example of the specification. *)
Lemma delete_selected_removes_the_ticked_rows_example :
  data_file (disk (run delete_selected three_pos)) = Stored [sample_po "knife"].
Proof.
  destruct (delete_selected_removes_the_ticked_rows three_pos
              [sample_po "saw"; sample_po "knife"; sample_po "planer"])
    as (Hfile & _).
  - reflexivity.
  - vm_compute. discriminate.
  - reflexivity.
  - rewrite Hfile. reflexivity.
Defined.

(** ** Delivery cache *)

Lemma show_field_eq key po_item st :
  show_field key po_item st =
  (match contains key po_item with
   | Return true => if is_object po_item then Return () else Raise TypeError
   | Return false => Return ()
   | Raise e => Raise e
   end, st).
Proof.
  unfold show_field, lift. unfold_monad.
  destruct po_item as [| | |s|l|d]; simpl; try done.
  - by destruct (String.index _ _ _).
  - by destruct (existsb _ _).
  - case_bool_decide as Hkey; [|done]. by destruct Hkey as [v ->].
Qed.

Lemma show_expected_delivery_eq po_item st :
  show_expected_delivery po_item st =
  (match contains "expected_delivery" po_item with
   | Return true => if is_object po_item then Return () else Raise TypeError
   | Return false => Return ()
   | Raise e => Raise e
   end, st).
Proof.
  unfold show_expected_delivery, lift. unfold_monad.
  destruct po_item as [| | |s|l|d]; simpl; try done.
  - by destruct (String.index _ _ _).
  - by destruct (existsb _ _).
  - case_bool_decide as Hkey; [|done]. destruct Hkey as [v ->].
    by destruct (match v with JStr s => _ | _ => false end).
Qed.

Lemma show_po_item_eq po_item st :
  show_po_item po_item st =
  (if item_shows po_item then Return () else Raise TypeError, st).
Proof.
  unfold show_po_item. unfold mbind, M_bind.
  rewrite !show_field_eq, show_expected_delivery_eq.
  destruct po_item as [| | |s|l|d]; try done.
  - unfold item_shows, shown_fields, forallb, contains, is_object.
    repeat (match goal with
            | |- context [String.index 0 ?key s] => destruct (String.index 0 key s)
            end; try done).
  - unfold item_shows, shown_fields, forallb, contains, is_object.
    repeat (match goal with
            | |- context [existsb ?f l] => destruct (existsb f l)
            end; try done).
  - simpl. by repeat case_bool_decide.
Qed.

Lemma show_po_items_eq po_items st :
  for_each po_items (λ po_item _, show_po_item po_item) () st =
  (if forallb item_shows po_items then Return () else Raise TypeError, st).
Proof.
  induction po_items as [|po_item po_items IH]; [done|].
  simpl. unfold mbind, M_bind. rewrite show_po_item_eq.
  destruct (item_shows po_item); [|done]. apply IH.
Qed.

Lemma show_entry_eq company_data st :
  match list_of company_data with
  | Return po_items => for_each po_items (λ po_item _, show_po_item po_item) () st
  | Raise e => (Raise e, st)
  end = (if entry_shows company_data then Return () else Raise TypeError, st).
Proof.
  unfold entry_shows.
  destruct company_data; simpl; try done; apply show_po_items_eq.
Qed.

Lemma update_delivery_display_state st :
  run update_delivery_display st = st ∨
  ∃ company, run update_delivery_display st =
             run save_settings (with_settings (set_selected_company company) st).
Proof.
  unfold run, update_delivery_display. unfold_monad. simpl.
  case_decide; [by left|]. case_decide; [|by left].
  destruct (getitem_int _ _ st) as [[company|e] st1] eqn:Hget.
  2: { left. unfold getitem_int, getitem in Hget. unfold_monad in Hget.
       repeat case_decide; try destruct (_ !! _); by simplify_eq. }
  assert (st1 = st) as ->.
  { unfold getitem_int, getitem in Hget. unfold_monad in Hget.
    repeat case_decide; try destruct (_ !! _); by simplify_eq. }
  unfold dict_of. destruct (delivery_api_response (delivery st)) as [| | | | |fields];
    simpl; try by left.
  destruct (fields !! "data") as [[| | | | |data_field]|]; simpl; try by left.
  destruct (data_field !! company) as [company_data|]; simpl; [|by left].
  right. exists company. destruct (save_settings _) as [[] st2]; [|done].
  by rewrite show_entry_eq.
Qed.

Lemma update_delivery_display_delivery st :
  delivery (run update_delivery_display st) = delivery st.
Proof.
  destruct (update_delivery_display_state st) as [->|[company ->]]; [done|].
  unfold run. rewrite save_settings_eq. simpl. by destruct (writable (disk st)).
Qed.

Lemma next_delivery_run st :
  run next_delivery st =
  if decide (count st = 0) then st
  else run update_delivery_display
         (with_delivery (set_current_delivery_index
            ((cursor st + 1) `mod` count st)) st).
Proof.
  unfold run, next_delivery, count, cursor. unfold_monad. simpl.
  case_decide; [done|]. by destruct (update_delivery_display _) as [[] ?].
Qed.

Lemma previous_delivery_run st :
  run previous_delivery st =
  if decide (count st = 0) then st
  else run update_delivery_display
         (with_delivery (set_current_delivery_index
            ((cursor st - 1) `mod` count st)) st).
Proof.
  unfold run, previous_delivery, count, cursor. unfold_monad. simpl.
  case_decide; [done|]. by destruct (update_delivery_display _) as [[] ?].
Qed.

(** C6.  The browse cursor is cyclic.  With [n] deliveries and the cursor
    on [i], [next_delivery] moves it to [(i + 1) mod n] and
    [previous_delivery] to [(i - 1) mod n], both within [0 .. n-1] when
    [n > 0]; when [n = 0] both leave the whole state unchanged.  The number of
    deliveries never changes. *)
Theorem delivery_cursor_is_cyclic (st : POApp) :
  cursor (run next_delivery st) =
    (if decide (count st = 0) then cursor st else (cursor st + 1) `mod` count st) ∧
  cursor (run previous_delivery st) =
    (if decide (count st = 0) then cursor st else (cursor st - 1) `mod` count st) ∧
  count (run next_delivery st) = count st ∧
  count (run previous_delivery st) = count st ∧
  (count st = 0 → run next_delivery st = st ∧ run previous_delivery st = st) ∧
  (0 < count st →
     0 <= cursor (run next_delivery st) < count st ∧
     0 <= cursor (run previous_delivery st) < count st).
Proof.
  rewrite next_delivery_run, previous_delivery_run.
  destruct (decide (count st = 0)) as [Hzero|Hsome].
  - repeat split; try done; lia.
  - assert (Hcursor : ∀ st', cursor (run update_delivery_display st') = cursor st').
    { intros st'. unfold cursor. by rewrite update_delivery_display_delivery. }
    assert (Hcount : ∀ st', count (run update_delivery_display st') = count st').
    { intros st'. unfold count. by rewrite update_delivery_display_delivery. }
    rewrite !Hcursor, !Hcount. unfold cursor, count in *. simpl.
    repeat split; try done; apply Z.mod_pos_bound; done.
Qed.

(** C6 at the example of the specification: three deliveries. *)
Lemma delivery_cursor_is_cyclic_example :
  cursor (run previous_delivery (sample_delivery 0)) = 2 ∧
  cursor (run next_delivery (sample_delivery 2)) = 0.
Proof.
  split.
  - destruct (delivery_cursor_is_cyclic (sample_delivery 0)) as (_ & -> & _).
    reflexivity.
  - destruct (delivery_cursor_is_cyclic (sample_delivery 2)) as (-> & _).
    reflexivity.
Defined.

Lemma report_eq r st :
  report r st = (Return (), with_window (queue_dialog (report_dialog r)) st).
Proof. done. Qed.

(** What the download leaves when the answer is a 200 whose body is a dict
    with a true ["success"] and the directory is writable. *)
Lemma download_success_saved st text fields :
  selected_route (settings st) ≠ "" →
  writable (disk st) = true →
  truthy (default JNull (fields !! "success")) = true →
  download_delivery_route (Response 200 text (Some (JDict fields))) st =
  let st1 := with_delivery (set_delivery_api_response (JDict fields))
               (with_disk (set_delivery_data_file (Stored (JDict fields))) st) in
  match fields !! "data" with
  | Some (JDict data_field) =>
      let st2 := run update_delivery_display
                   (with_delivery (set_delivery_companies (keys data_field)) st1) in
      match result update_delivery_display
              (with_delivery (set_delivery_companies (keys data_field)) st1) with
      | Return _ =>
          (Return (), with_window (queue_dialog (report_dialog
             (Downloaded (total_deliveries (delivery st2))
                         (selected_route (settings st2))))) st2)
      | Raise e =>
          (Return (), with_window (queue_dialog (report_dialog (DownloadFailed e))) st2)
      end
  | Some data_field =>
      (Return (), with_window (queue_dialog (report_dialog (WrongDataFormat data_field))) st1)
  | None =>
      (Return (), with_window (queue_dialog (report_dialog NoDataField)) st1)
  end.
Proof.
  intros Hroute Hw Hsuccess.
  unfold download_delivery_route, response_json, dict_of, write_json.
  unfold_monad. simpl. rewrite decide_False by done. simpl.
  rewrite Hsuccess, Hw. simpl.
  destruct (fields !! "data") as [[| | | | |data_field]|]; simpl; try done.
  unfold run, result.
  by destruct (update_delivery_display _) as [[[]|e] st2].
Qed.



Lemma download_without_route st response :
  selected_route (settings st) = "" →
  download_delivery_route response st =
  (Return (), with_window (queue_dialog (report_dialog NoRoute)) st).
Proof.
  intros Hroute. unfold download_delivery_route. unfold_monad.
  by rewrite decide_True.
Qed.

Lemma keys_length_lookup {A} (d : gmap string A) :
  keys d = [] ∨ ∃ company, keys d !! 0%nat = Some company ∧ is_Some (d !! company).
Proof.
  destruct (keys d) as [|company rest] eqn:Hkeys; [by left|].
  right. exists company. split; [done|].
  apply elem_of_keys. rewrite Hkeys. apply elem_of_cons. by left.
Qed.

(** In a consistent delivery state the display returns unless the entry under
    the cursor cannot be read. *)
Lemma update_delivery_display_result st :
  delivery_consistent st →
  result update_delivery_display st = display_outcome st.
Proof.
  intros (Hcount & Hcursor & Hdata).
  unfold result, update_delivery_display, display_outcome, current_entry, current_company.
  unfold getitem_int, getitem, dict_of. unfold_monad. simpl.
  destruct (delivery_api_response (delivery st)) as [| | | | |fields]; try done.
  case_decide as Hzero.
  { rewrite Hzero in Hcount.
    destruct (delivery_companies (delivery st)); [|simpl in Hcount; lia].
    by rewrite lookup_nil. }
  destruct Hcursor as [?|Hcursor]; [done|].
  rewrite decide_True by lia. rewrite <- Hcount. rewrite decide_True by lia.
  destruct (delivery_companies (delivery st) !! Z.to_nat _) as [company|] eqn:Hcompany.
  2: { apply lookup_ge_None in Hcompany. lia. }
  simpl. destruct (fields !! "data") as [[| | | | |data_field]|];
    try (rewrite Hdata in Hcompany; by rewrite lookup_nil in Hcompany).
  rewrite Forall_forall in Hdata.
  destruct (Hdata company) as [entry Hentry]; [by eapply list_elem_of_lookup_2|].
  rewrite Hentry. simpl.
  destruct (save_settings _) as [[[]|e] st2] eqn:Hsave.
  - rewrite show_entry_eq. simpl. by destruct (entry_shows entry).
  - by rewrite save_settings_eq in Hsave.
Qed.

Lemma display_outcome_frame st st' :
  delivery st' = delivery st → display_outcome st' = display_outcome st.
Proof.
  intros Hdelivery. unfold display_outcome, current_entry, current_company.
  by rewrite Hdelivery.
Qed.

Lemma update_delivery_display_frame st :
  let st' := run update_delivery_display st in
  delivery st' = delivery st ∧
  selected_route (settings st') = selected_route (settings st) ∧
  window st' = window st ∧
  delivery_data_file (disk st') = delivery_data_file (disk st).
Proof.
  cbv zeta. destruct (update_delivery_display_state st) as [->|[company ->]]; [done|].
  unfold run. rewrite save_settings_eq. simpl. by destruct (writable (disk st)) eqn:Hw.
Qed.






(** ** Navigation *)

Lemma show_add_po_eq st :
  show_add_po st =
  (Return (),
   if decide (selected_company (settings st) = "") then
     if decide (selected_route (settings st) = "") then
       with_window (queue_dialog (a_dialog error "No Route"
         [Lit "Please select a route first"])) st
     else with_window (set_content company_selection_screen) st
   else
     with_window (set_content add_po_screen)
       (with_frequent_blades
          (default [] (blades_at (company_database st)
             (selected_route (settings st)) (selected_company (settings st))))
          (with_editing_index None st))).
Proof.
  unfold show_add_po, show_company_selection, reset_form. unfold_monad. simpl.
  case_decide.
  - by case_decide.
  - rewrite !update_frequent_blades_list_eq. simpl. by destruct st.
Qed.

(** C7, as amended.  Opening the add-PO form depends on the selection only.
    With a selected company the form opens, whatever its frequent blades
    (they are loaded into the form, the empty list included); with no selected
    company the user is sent to company selection, or, with no selected route
    either, gets the "No Route" error and stays where they are. *)
Theorem add_po_form_is_gated_on_the_selection_only (st : POApp) :
  let st' := run show_add_po st in
  let route := selected_route (settings st) in
  let company := selected_company (settings st) in
  result show_add_po st = Return () ∧
  (company ≠ "" →
     content (window st') = add_po_screen ∧
     frequent_blades st' = default [] (blades_at (company_database st) route company) ∧
     blade_dropdown_items st' =
       default [] (blades_at (company_database st) route company) ++
       ["--- Enter Custom Description ---"] ∧
     editing_index st' = None ∧
     dialogs (window st') = dialogs (window st)) ∧
  (company = "" → route ≠ "" → content (window st') = company_selection_screen) ∧
  (company = "" → route = "" →
     content (window st') = content (window st) ∧
     dialogs (window st') = dialogs (window st) ++
       [a_dialog error "No Route" [Lit "Please select a route first"]]).
Proof.
  intros st' route company. subst st' route company.
  unfold result, run. rewrite show_add_po_eq. simpl.
  split; [done|]. split; [|split].
  - intros Hcompany. by rewrite decide_False.
  - intros Hcompany Hroute. by rewrite decide_True, decide_False.
  - intros Hcompany Hroute. by rewrite !decide_True.
Qed.

(** C7, counterexample.  Company A of route R1 has no frequent blade and is
    selected: [show_add_po] opens the add-PO form, not company management. *)
Lemma add_po_form_opens_without_blades :
  blades_at (company_database bladeless_selection)
    (selected_route (settings bladeless_selection))
    (selected_company (settings bladeless_selection)) = Some [] ∧
  content (window (run show_add_po bladeless_selection)) = add_po_screen ∧
  content (window (run show_add_po bladeless_selection)) ≠ company_management_screen.
Proof.
  unfold run. rewrite show_add_po_eq. split; [|split].
  - vm_compute. reflexivity.
  - vm_compute. reflexivity.
  - vm_compute. discriminate.
Qed.

(** C7, as amended, at an example: a route but no company selected. *)
Lemma add_po_form_is_gated_on_the_selection_only_example :
  content (window (run show_add_po (on_route "R1" initial_app))) = company_selection_screen.
Proof.
  destruct (add_po_form_is_gated_on_the_selection_only (on_route "R1" initial_app))
    as (_ & _ & Hselect & _).
  apply Hselect.
  - reflexivity.
  - vm_compute. discriminate.
Defined.

(** * Further properties *)

(** ** Running a handler step by step *)

Lemma bind_return {A B} (m : M A) (k : A → M B) st a st' :
  m st = (Return a, st') → (m ≫= k) st = k a st'.
Proof. intros Hm. unfold mbind, M_bind. by rewrite Hm. Qed.

Lemma save_settings_total st : save_settings st = (Return (), run save_settings st).
Proof. unfold run. by rewrite save_settings_eq. Qed.

Lemma update_route_company_lists_total st :
  update_route_company_lists st = (Return (), run update_route_company_lists st).
Proof. unfold run. by rewrite update_route_company_lists_eq. Qed.

Lemma save_company_database_total st :
  save_company_database st = (Return (writable (disk st)), run save_company_database st).
Proof. unfold run. rewrite save_company_database_eq. by destruct (writable _). Qed.

Lemma show_home_eq st :
  show_home st =
  (Return (),
   if decide (app_mode (settings st) = "delivery")
   then with_window (set_content delivery_home_screen) st
   else run load_pos (with_window (set_content pickup_home_screen) st)).
Proof.
  unfold show_home, show_delivery_home, load_delivery_pos, run. unfold_monad.
  destruct (decide _); [done|]. by rewrite load_pos_eq.
Qed.

Lemma show_home_total st : show_home st = (Return (), run show_home st).
Proof. unfold run. by rewrite show_home_eq. Qed.

Lemma reset_form_eq st :
  reset_form st =
  (Return (),
   with_frequent_blades
     (default [] (blades_at (company_database st) (selected_route (settings st))
                    (selected_company (settings st))))
     (with_editing_index None st)).
Proof. unfold reset_form. unfold_monad. by rewrite update_frequent_blades_list_eq. Qed.

(** One step of a handler whose first action returns: by computation, or by
    the lemma that gives what it returns. *)
Tactic Notation "step" := erewrite bind_return by reflexivity.
Tactic Notation "step" "by" constr(returns) := erewrite bind_return by apply returns.

Lemma save_settings_run st :
  run save_settings st =
  if writable (disk st)
  then with_disk (set_settings_file (Stored (settings_dict (settings st)))) st
  else st.
Proof. unfold run. by rewrite save_settings_eq. Qed.

Lemma save_settings_saved st :
  writable (disk st) = true → settings_saved (run save_settings st).
Proof. intros Hw. by rewrite save_settings_run, Hw. Qed.

(** What [update_route_company_lists] and [save_company_database] leave as
    it was. *)
Lemma update_route_company_lists_frame st :
  let st' := run update_route_company_lists st in
  company_database st' = company_database st ∧
  available_routes st' = keys (company_database st) ∧
  company_names st' = refreshed_names st ∧
  window st' = window st ∧
  delivery st' = delivery st ∧
  editing_index st' = editing_index st ∧
  uploads st' = uploads st ∧
  company_db_file (disk st') = company_db_file (disk st) ∧
  data_file (disk st') = data_file (disk st) ∧
  delivery_data_file (disk st') = delivery_data_file (disk st) ∧
  writable (disk st') = writable (disk st) ∧
  selected_route (settings st') = selected_route (settings st) ∧
  app_mode (settings st') = app_mode (settings st) ∧
  driver_id (settings st') = driver_id (settings st).
Proof.
  cbv zeta. unfold run. rewrite update_route_company_lists_eq. cbv zeta.
  destruct (decide _); simpl; [|done].
  rewrite save_settings_eq. cbn. by destruct (writable (disk st)) eqn:Hw; cbn; rewrite ?Hw.
Qed.

Lemma save_company_database_frame st :
  let st' := run save_company_database st in
  company_database st' = company_database st ∧
  window st' = window st ∧
  company_db_file (disk st') =
    (if writable (disk st) then Stored (company_database st)
     else company_db_file (disk st)) ∧
  writable (disk st') = writable (disk st) ∧
  selected_route (settings st') = selected_route (settings st) ∧
  (writable (disk st) = false → st' = st).
Proof.
  cbv zeta. unfold run at 1 2 3 4 5 6. rewrite save_company_database_eq.
  destruct (writable (disk st)) eqn:Hw; cbn [fst snd]; [|done].
  destruct (update_route_company_lists_frame
              (with_disk (set_company_db_file (Stored (company_database st))) st))
    as (? & _ & _ & ? & _ & _ & _ & ? & _ & _ & ? & ? & _).
  repeat split; try done. simpl in *. congruence.
Qed.

Lemma update_route_company_lists_saved st :
  writable (disk st) = true →
  settings_saved st →
  settings_saved (run update_route_company_lists st).
Proof.
  intros Hw Hsaved. unfold run. rewrite update_route_company_lists_eq. cbv zeta.
  destruct (decide _); cbn [fst snd]; [|done].
  fold (run save_settings (with_settings (set_selected_company "")
          (with_lists (keys (company_database st)) (refreshed_names st) st))).
  by apply save_settings_saved.
Qed.

Lemma show_home_run st : ∃ w, run show_home st = with_window (λ _, w) st.
Proof.
  unfold run. rewrite show_home_eq. cbn [fst snd].
  destruct (decide _); [by eexists|].
  unfold run. rewrite load_pos_eq. by eexists.
Qed.

(** ** Settings, read back *)

Lemma load_settings_eq st :
  load_settings st =
  (Return (),
   match settings_file (disk st) with
   | Stored stored =>
       with_settings (λ s,
         {| upload_url := default (upload_url s) (stored !! "upload_url");
            company_db_url := default (company_db_url s) (stored !! "company_db_url");
            delivery_url := default (delivery_url s) (stored !! "delivery_url");
            selected_route := default "" (stored !! "selected_route");
            selected_company := default "" (stored !! "selected_company");
            driver_id := default "" (stored !! "driver_id");
            app_mode := default "delivery" (stored !! "app_mode") |}) st
   | _ => st
   end).
Proof.
  unfold load_settings, path_exists, read_json. unfold_monad. simpl.
  by destruct (settings_file (disk st)) eqn:Hf; simpl; rewrite ?Hf.
Qed.

Lemma settings_dict_read (s s0 : Settings) :
  {| upload_url := default (upload_url s0) (settings_dict s !! "upload_url");
     company_db_url := default (company_db_url s0) (settings_dict s !! "company_db_url");
     delivery_url := default (delivery_url s0) (settings_dict s !! "delivery_url");
     selected_route := default "" (settings_dict s !! "selected_route");
     selected_company := default "" (settings_dict s !! "selected_company");
     driver_id := default "" (settings_dict s !! "driver_id");
     app_mode := default "delivery" (settings_dict s !! "app_mode") |} = s.
Proof. by destruct s. Qed.

(** X4.  The settings are read back as they were saved.  On a directory that
    accepts the write, [save_settings] leaves the settings file holding the
    seven settings and changes nothing in memory; [load_settings] on a file
    that holds the settings of [st] returns and ends with exactly these
    settings, whatever the settings were before, touching nothing else; and
    when the file is missing, unreadable or not JSON, [load_settings] returns
    and changes nothing. *)
Theorem settings_are_read_back_as_saved :
  (∀ st, writable (disk st) = true →
     settings_saved (run save_settings st) ∧
     settings (run save_settings st) = settings st) ∧
  (∀ st st0, settings_saved st →
     settings_file (disk st0) = settings_file (disk st) →
     result load_settings st0 = Return () ∧
     run load_settings st0 = with_settings (λ _, settings st) st0) ∧
  (∀ st0, (∀ stored, settings_file (disk st0) ≠ Stored stored) →
     load_settings st0 = (Return (), st0)).
Proof.
  split; [|split].
  - intros st Hw. by rewrite save_settings_run, Hw.
  - intros st st0 Hsaved Hfile. unfold result, run. rewrite load_settings_eq.
    rewrite Hfile, Hsaved. split; [done|]. cbn [fst snd].
    unfold with_settings. f_equal. apply settings_dict_read.
  - intros st0 Hnot. rewrite load_settings_eq.
    destruct (settings_file (disk st0)) as [| | |stored]; try done.
    by destruct (Hnot stored).
Qed.

(** X4 at an example: route R1 is selected and saved; a restart reads it
    back. *)
Lemma settings_are_read_back_as_saved_example :
  let saved := run save_settings (on_route "R1" initial_app) in
  selected_route (settings (run load_settings (restarted (disk saved)))) = "R1".
Proof.
  cbv zeta.
  destruct settings_are_read_back_as_saved as (Hsave & Hload & _).
  destruct (Hsave (on_route "R1" initial_app) eq_refl) as [Hsaved _].
  destruct (Hload _ (restarted (disk (run save_settings (on_route "R1" initial_app))))
              Hsaved eq_refl) as [_ Hrun].
  rewrite Hrun. reflexivity.
Defined.
(** ** The PO form *)

Lemma ticked_from_replicate i n : ticked_from i (replicate n false) = [].
Proof. revert i. induction n as [|n IH]; intros i; simpl; [done|apply IH]. Qed.

Lemma ticked_replicate n : ticked (replicate n false) = [].
Proof. apply ticked_from_replicate. Qed.

Lemma save_po_form_incomplete selected_blade custom_desc quantity current_date created_at st :
  incomplete_form selected_blade custom_desc quantity st →
  ∃ d, save_po_form selected_blade custom_desc quantity current_date created_at st =
       (Return (), with_window (queue_dialog d) st) ∧ dialog_kind d = error.
Proof.
  intros Hinc. unfold save_po_form. unfold_monad.
  destruct (decide (default "" _ = "")); [by eexists|].
  destruct (decide (quantity = "")); [by eexists|].
  simpl. destruct (decide (selected_company _ = "")); [by eexists|].
  by destruct Hinc as [?|[?|?]].
Qed.

Lemma save_po_form_complete selected_blade custom_desc quantity current_date created_at st :
  ¬ incomplete_form selected_blade custom_desc quantity st →
  save_po_form selected_blade custom_desc quantity current_date created_at st =
  (Return (),
   let po := po_data (default "" (form_description selected_blade custom_desc))
               quantity current_date created_at (settings st) in
   let failed e := with_window (queue_dialog (a_dialog error "Error"
                     [Lit "Failed to save: "; Lit (str_exn e)])) st in
   match data_file (disk st) with
   | Unreadable => failed OSError
   | Corrupt => failed JSONDecodeError
   | _ =>
       if writable (disk st) then
         with_window (queue_dialog (a_dialog info "Success" [Lit "PO saved successfully!"]))
           (run show_home (run reset_form
              (with_disk (set_data_file
                 (Stored (saved_list (editing_index st) po (stored_pos st)))) st)))
       else failed OSError
   end).
Proof.
  intros Hinc. unfold incomplete_form in Hinc.
  unfold save_po_form, run. unfold_monad.
  rewrite !decide_False by tauto. simpl. rewrite ?decide_False by tauto.
  unfold path_exists, read_json, write_json, stored_pos, saved_list, setitem. unfold_monad.
  simpl.
  destruct (data_file (disk st)) as [| | |data] eqn:Hf; simpl; rewrite ?Hf; try done.
  all: destruct (editing_index st) as [i|]; simpl.
  all: try destruct (decide (i < length data)%nat); simpl.
  all: destruct (writable (disk st)) eqn:Hw; [|done]; simpl.
  all: by rewrite !reset_form_eq; simpl; rewrite !show_home_eq.
Qed.

Lemma saved_list_spec editing po (data : list po_entry) :
  match editing with
  | Some i =>
      if decide (i < length data)%nat then
        length (saved_list editing po data) = length data ∧
        saved_list editing po data !! i = Some po ∧
        ∀ j, j ≠ i → saved_list editing po data !! j = data !! j
      else saved_list editing po data = data ++ [po]
  | None => saved_list editing po data = data ++ [po]
  end.
Proof.
  unfold saved_list. destruct editing as [i|]; [|done].
  destruct (decide _); [|done].
  split; [by rewrite length_insert|].
  split; [by apply list_lookup_insert_eq|].
  intros j Hj. by apply list_lookup_insert_ne.
Qed.

(** X5.  A complete form is stored.  When the form has a description, a
    quantity and a selected company, the data file is missing or holds a
    list, and the directory accepts the write, [save_po_form] stores a list
    that is the old one with the new entry appended, or (when an entry is
    under edit and its index is inside the list) the old one with that entry
    replaced and every other entry untouched.  The entry is marked not
    uploaded, the edit mode is left, the other three files are untouched, a
    success dialog is queued, and in pickup mode the PO list shows the stored
    list with no row ticked. *)
Theorem complete_form_is_stored (st : POApp) (selected_blade : option string)
    (custom_desc quantity current_date created_at : string) :
  ¬ incomplete_form selected_blade custom_desc quantity st →
  data_file (disk st) ≠ Unreadable →
  data_file (disk st) ≠ Corrupt →
  writable (disk st) = true →
  let st' := run (save_po_form selected_blade custom_desc quantity current_date created_at)
               st in
  let data := stored_pos st in
  let po := po_data (default "" (form_description selected_blade custom_desc))
              quantity current_date created_at (settings st) in
  ∃ new,
    data_file (disk st') = Stored new ∧
    match editing_index st with
    | Some i =>
        if decide (i < length data)%nat then
          length new = length data ∧ new !! i = Some po ∧
          ∀ j, j ≠ i → new !! j = data !! j
        else new = data ++ [po]
    | None => new = data ++ [po]
    end ∧
    po !! "uploaded" = Some (JStr "no") ∧
    editing_index st' = None ∧
    settings_file (disk st') = settings_file (disk st) ∧
    company_db_file (disk st') = company_db_file (disk st) ∧
    delivery_data_file (disk st') = delivery_data_file (disk st) ∧
    dialogs (window st') =
      dialogs (window st) ++ [a_dialog info "Success" [Lit "PO saved successfully!"]] ∧
    (app_mode (settings st) ≠ "delivery" →
       content (window st') = pickup_home_screen ∧
       po_list_box (window st') = (row_of <$> new) ∧
       ticked (checkboxes (window st')) = []).
Proof.
  intros Hinc Hu Hc Hw st' data po. subst st'. unfold run.
  rewrite save_po_form_complete by done. cbv zeta. rewrite Hw.
  exists (saved_list (editing_index st) po data).
  assert (Hrun : ∀ A B (x : A) (y : B), (x, y).2 = y) by done.
  destruct (data_file (disk st)) eqn:Hf; try done.
  all: rewrite Hrun; unfold run; rewrite reset_form_eq, show_home_eq; simpl.
  all: destruct (decide (app_mode (settings st) = "delivery")) as [Hm|Hm]; simpl.
  all: unfold run; rewrite ?load_pos_eq; simpl.
  all: (split; [done|]); (split; [apply saved_list_spec|]); repeat split; try done.
  all: apply ticked_replicate.
Qed.

(** X5 at an example: the first entry of the day. *)
Lemma complete_form_is_stored_example :
  let st' := run (save_po_form (Some "--- Enter Custom Description ---") "planer" "3"
                    "11/03/2026" "2026-11-03T10:15:00") pickup_form in
  data_file (disk st') =
    Stored [po_data "planer" "3" "11/03/2026" "2026-11-03T10:15:00"
              (settings pickup_form)] ∧
  content (window st') = pickup_home_screen.
Proof.
  cbv zeta.
  destruct (complete_form_is_stored pickup_form
              (Some "--- Enter Custom Description ---") "planer" "3"
              "11/03/2026" "2026-11-03T10:15:00")
    as (new & Hfile & Hnew & _ & _ & _ & _ & _ & _ & Hshown).
  - intros [H|[H|H]]; discriminate H.
  - discriminate.
  - discriminate.
  - reflexivity.
  - simpl in Hnew. subst new. split; [exact Hfile|].
    apply Hshown. discriminate.
Defined.

(** X6.  A form that cannot be saved changes nothing.  When the form lacks a
    description, a quantity or a selected company, when the data file is
    there but cannot be read or is not JSON, or when the directory refuses the
    write, [save_po_form] returns and leaves the application as it was but
    for one error dialog: no file is written (a data file that does not parse
    is not replaced), and the entry under edit stays under edit. *)
Theorem refused_form_changes_nothing (st : POApp) (selected_blade : option string)
    (custom_desc quantity current_date created_at : string) :
  incomplete_form selected_blade custom_desc quantity st ∨
  data_file (disk st) = Unreadable ∨
  data_file (disk st) = Corrupt ∨
  writable (disk st) = false →
  let save := save_po_form selected_blade custom_desc quantity current_date created_at in
  result save st = Return () ∧
  ∃ d, run save st = with_window (queue_dialog d) st ∧ dialog_kind d = error.
Proof.
  intros Hcase save. unfold result, run, save.
  destruct (decide (incomplete_form selected_blade custom_desc quantity st)) as [Hinc|Hinc].
  { destruct (save_po_form_incomplete _ _ _ current_date created_at _ Hinc)
      as (d & -> & Hd).
    split; [done|]. by exists d. }
  rewrite save_po_form_complete by done. split; [done|]. cbv zeta. simpl.
  destruct Hcase as [?|[Hf|[Hf|Hw]]]; [done|rewrite Hf..|rewrite Hw]; try by eexists.
  destruct (data_file (disk st)); by eexists.
Qed.

(** X6 at an example: the data file does not parse. *)
Lemma refused_form_changes_nothing_example :
  let st := with_settings (set_selected_company "A") corrupt_data_file in
  disk (run (save_po_form (Some "saw") "" "2" "11/03/2026" "2026-11-03T10:15:00") st)
    = disk st.
Proof.
  cbv zeta.
  destruct (refused_form_changes_nothing
              (with_settings (set_selected_company "A") corrupt_data_file)
              (Some "saw") "" "2" "11/03/2026" "2026-11-03T10:15:00")
    as (_ & d & Hrun & _).
  - right. right. left. reflexivity.
  - rewrite Hrun. reflexivity.
Defined.





Lemma upload_selected_sends today response st all_pos :
  data_file (disk st) = Stored all_pos →
  ticked (checkboxes (window st)) ≠ [] →
  uploads (run (upload_selected today response) st) =
  uploads st ++ [payload today (driver_id (settings st))
                   (ticked (checkboxes (window st))) all_pos].
Proof.
  intros Hf Hsel. unfold run. rewrite (upload_selected_stored _ _ _ all_pos) by done.
  cbv zeta. destruct response as [|status_code text body]; [done|]. simpl.
  destruct (decide _); [|done].
  destruct (writable _); [|done].
  unfold run. by rewrite load_pos_eq.
Qed.

(** X8.  An entry of the form is sent as it was entered.  When the only
    ticked row is an entry that [save_po_form] wrote, [upload_selected] sends
    one request with that entry alone: the pickup date, the driver, the
    company and the route are those recorded when the form was saved (not
    today's date, nor the driver or selection of the moment), and the
    ["uploaded"] text ["no"] has become the boolean false. *)
Theorem saved_entry_is_sent_as_entered (st : POApp) (today : string)
    (response : http_result unit) (pos : list po_entry) (i : nat)
    (description quantity current_date created_at : string) (s : Settings) :
  data_file (disk st) = Stored pos →
  ticked (checkboxes (window st)) = [i] →
  pos !! i = Some (po_data description quantity current_date created_at s) →
  ∃ sent,
    uploads (run (upload_selected today response) st) = uploads st ++ [[sent]] ∧
    sent = <["uploaded" := JBool false]>
             (po_data description quantity current_date created_at s) ∧
    sent !! "pickup_date" = Some (JStr current_date) ∧
    sent !! "driver_id" = Some (JStr (driver_id s)) ∧
    sent !! "company" = Some (JStr (selected_company s)) ∧
    sent !! "route" = Some (JStr (selected_route s)).
Proof.
  intros Hf Hsel Hpo. eexists. split; [|by repeat split].
  rewrite (upload_selected_sends _ _ _ pos) by (done || by rewrite Hsel).
  rewrite Hsel. unfold payload. simpl. by rewrite Hpo.
Qed.

(** X8 at an example: an entry of 11/03 uploaded on 11/05. *)
Lemma saved_entry_is_sent_as_entered_example :
  ∃ sent,
    uploads (run (upload_selected "11/05/2026" NoResponse) entered) = [[sent]] ∧
    sent !! "pickup_date" = Some (JStr "11/03/2026") ∧
    sent !! "uploaded" = Some (JBool false).
Proof.
  destruct (saved_entry_is_sent_as_entered entered "11/05/2026" NoResponse
              [po_data "planer" "3" "11/03/2026" "2026-11-03T10:15:00"
                 (settings pickup_form)]
              0 "planer" "3" "11/03/2026" "2026-11-03T10:15:00" (settings pickup_form))
    as (sent & Huploads & Hsent & Hdate & _).
  - reflexivity.
  - reflexivity.
  - reflexivity.
  - exists sent. split; [exact Huploads|]. split; [exact Hdate|].
    rewrite Hsent. reflexivity.
Defined.

Lemma upload_selected_no_selection today response st :
  ticked (checkboxes (window st)) = [] →
  run (upload_selected today response) st =
  with_window (queue_dialog (a_dialog info "No Selection"
    [Lit "Please select pick up forms to upload"])) st.
Proof. intros Hsel. unfold run, upload_selected. unfold_monad. by rewrite Hsel. Qed.

Lemma delete_selected_no_selection st :
  ticked (checkboxes (window st)) = [] →
  run delete_selected st =
  with_window (queue_dialog (a_dialog info "No Selection"
    [Lit "Please select pick up forms to delete"])) st.
Proof. intros Hsel. unfold run, delete_selected. unfold_monad. by rewrite Hsel. Qed.

(** X9.  Nothing stays ticked.  After an upload that the server accepted, and
    after a deletion, on a directory that accepts the write, the PO list has
    one check box per stored entry and none is ticked.  Pressing upload or
    delete again therefore sends no request and changes no file. *)
Theorem nothing_stays_ticked (st : POApp) (today text : string) (body : option unit)
    (pos : list po_entry) :
  data_file (disk st) = Stored pos →
  ticked (checkboxes (window st)) ≠ [] →
  writable (disk st) = true →
  let uploaded := run (upload_selected today (Response 200 text body)) st in
  let deleted := run delete_selected st in
  ticked (checkboxes (window uploaded)) = [] ∧
  ticked (checkboxes (window deleted)) = [] ∧
  length (checkboxes (window uploaded)) = length pos ∧
  length (checkboxes (window deleted)) = length (stored_pos deleted) ∧
  (∀ today' response',
     uploads (run (upload_selected today' response') uploaded) = uploads uploaded ∧
     disk (run (upload_selected today' response') uploaded) = disk uploaded) ∧
  disk (run delete_selected deleted) = disk deleted ∧
  disk (run delete_selected uploaded) = disk uploaded.
Proof.
  intros Hf Hsel Hw uploaded deleted.
  assert (checkboxes (window uploaded) = replicate (length pos) false) as Hup.
  { subst uploaded. unfold run.
    rewrite (upload_selected_stored _ _ _ pos) by done. cbv zeta. simpl.
    rewrite Hw. unfold run. rewrite load_pos_eq. simpl.
    unfold stored_pos, marked. simpl. by rewrite length_imap. }
  assert (checkboxes (window deleted) = replicate (length (stored_pos deleted)) false)
    as Hdel.
  { subst deleted. unfold run.
    rewrite (delete_selected_stored _ pos) by done. rewrite Hw.
    unfold run. by rewrite load_pos_eq. }
  assert (ticked (checkboxes (window uploaded)) = []) as Hup0
    by (rewrite Hup; apply ticked_replicate).
  assert (ticked (checkboxes (window deleted)) = []) as Hdel0
    by (rewrite Hdel; apply ticked_replicate).
  split; [done|]. split; [done|].
  split; [by rewrite Hup, length_replicate|].
  split; [by rewrite Hdel, length_replicate|].
  split; [intros today' response'; by rewrite upload_selected_no_selection|].
  by rewrite !delete_selected_no_selection.
Qed.

(** X9 at an example: upload pressed twice sends one request. *)
Lemma nothing_stays_ticked_example :
  let once := run (upload_selected "11/03/2026" (Response 200 "ok" None)) three_pos in
  let twice := run (upload_selected "11/03/2026" (Response 200 "ok" None)) once in
  ticked (checkboxes (window three_pos)) = [0; 2]%nat ∧
  ticked (checkboxes (window once)) = [] ∧
  length (uploads twice) = 1%nat.
Proof.
  cbv zeta.
  destruct (nothing_stays_ticked three_pos "11/03/2026" "ok" None
              [sample_po "saw"; sample_po "knife"; sample_po "planer"])
    as (Hticked & _ & _ & _ & Hagain & _).
  - reflexivity.
  - discriminate.
  - reflexivity.
  - split; [reflexivity|]. split; [exact Hticked|].
    destruct (Hagain "11/03/2026" (Response 200 "ok" None)) as [Huploads _].
    rewrite Huploads. vm_compute. reflexivity.
Defined.

(** X10.  The list after an upload.  After an upload that the server
    accepted, on a directory that accepts the write, the PO list shows one
    row per stored entry, in the stored order; the row of a ticked entry
    shows ["yes"] in its uploaded column, the row of any other entry shows
    what it showed before; description, company and route are unchanged. *)
Theorem uploaded_rows_show_yes (st : POApp) (today text : string) (body : option unit)
    (pos : list po_entry) :
  data_file (disk st) = Stored pos →
  ticked (checkboxes (window st)) ≠ [] →
  writable (disk st) = true →
  let st' := run (upload_selected today (Response 200 text body)) st in
  length (po_list_box (window st')) = length pos ∧
  ∀ k po, pos !! k = Some po →
    ∃ row, po_list_box (window st') !! k = Some row ∧
           row_description row = row_description (row_of po) ∧
           row_company row = row_company (row_of po) ∧
           row_route row = row_route (row_of po) ∧
           row_uploaded row =
             (if decide (k ∈ ticked (checkboxes (window st))) then "yes"
              else row_uploaded (row_of po)).
Proof.
  intros Hf Hsel Hw st'. subst st'. unfold run.
  rewrite (upload_selected_stored _ _ _ pos) by done. cbv zeta. cbn [fst snd].
  rewrite decide_True by done. rewrite Hw. unfold run. rewrite load_pos_eq.
  cbn. unfold stored_pos. cbn.
  split; [unfold marked; by rewrite length_fmap, length_imap|].
  intros k po Hpo. rewrite list_lookup_fmap. unfold marked.
  rewrite list_lookup_imap, Hpo. cbn.
  eexists. split; [done|].
  destruct (decide (k ∈ _)); [|done].
  unfold mark_uploaded. cbn.
  rewrite lookup_insert_eq. by rewrite !lookup_insert_ne.
Qed.

(** X10 at an example: rows 0 and 2 of three were ticked. *)
Lemma uploaded_rows_show_yes_example :
  let st' := run (upload_selected "11/03/2026" (Response 200 "ok" None)) three_pos in
  ∃ first second,
    po_list_box (window st') !! 0%nat = Some first ∧ row_uploaded first = "yes" ∧
    po_list_box (window st') !! 1%nat = Some second ∧ row_uploaded second = "no".
Proof.
  cbv zeta.
  destruct (uploaded_rows_show_yes three_pos "11/03/2026" "ok" None
              [sample_po "saw"; sample_po "knife"; sample_po "planer"])
    as (_ & Hrows).
  - reflexivity.
  - discriminate.
  - reflexivity.
  - destruct (Hrows 0%nat (sample_po "saw") eq_refl) as (first & Hfirst & _ & _ & _ & Hyes).
    destruct (Hrows 1%nat (sample_po "knife") eq_refl)
      as (second & Hsecond & _ & _ & _ & Hno).
    exists first, second.
    split; [exact Hfirst|]. split; [rewrite Hyes; reflexivity|].
    split; [exact Hsecond|]. rewrite Hno. reflexivity.
Defined.
(** ** Company management *)

Lemma add_route_eq new_route st :
  add_route new_route st =
  (Return (),
   if decide (new_route ≠ "" ∧ company_database st !! new_route = None) then
     with_window (queue_dialog (a_dialog info "Success"
       [Lit "Route '"; Lit new_route; Lit "' added"]))
       (run update_route_company_lists
          (with_company_database (λ db, <[new_route := ∅]> db) st))
   else st).
Proof.
  unfold add_route, run. unfold_monad.
  destruct (decide _); [|done]. simpl.
  by rewrite update_route_company_lists_eq.
Qed.

Lemma record_at_insert {A} (db : gmap string (gmap string A)) route companies r c :
  record_at (<[route := companies]> db) r c =
  if decide (r = route) then companies !! c else record_at db r c.
Proof.
  unfold record_at. destruct (decide (r = route)) as [->|].
  - by rewrite lookup_insert_eq.
  - by rewrite lookup_insert_ne.
Qed.

(** X11.  Adding a route only adds.  [add_route] returns; a route that is
    already known keeps its companies; a new name that is not blank becomes a
    route without companies, appears among the available routes and is
    reported by a dialog; a blank name or a known route changes nothing at
    all.  The database file is not written: the new route is in memory
    only. *)
Theorem add_route_only_adds (st : POApp) (new_route : string) :
  let st' := run (add_route new_route) st in
  result (add_route new_route) st = Return () ∧
  (∀ route, is_Some (company_database st !! route) →
     company_database st' !! route = company_database st !! route) ∧
  (new_route ≠ "" → company_database st !! new_route = None →
     company_database st' = <[new_route := ∅]> (company_database st) ∧
     new_route ∈ available_routes st' ∧
     dialogs (window st') = dialogs (window st) ++
       [a_dialog info "Success" [Lit "Route '"; Lit new_route; Lit "' added"]]) ∧
  (new_route = "" ∨ is_Some (company_database st !! new_route) → st' = st) ∧
  company_db_file (disk st') = company_db_file (disk st).
Proof.
  cbv zeta. unfold result, run. rewrite add_route_eq.
  split; [done|].
  destruct (decide _) as [[Hne Hnew]|Hold]; cbn [fst snd].
  - destruct (update_route_company_lists_frame
                (with_company_database (λ db, <[new_route := ∅]> db) st))
      as (Hdb & Hroutes & _ & Hwindow & _ & _ & _ & Hfile & _).
    change (company_database (with_window ?f ?s)) with (company_database s).
    change (available_routes (with_window ?f ?s)) with (available_routes s).
    change (disk (with_window ?f ?s)) with (disk s).
    change (window (with_window ?f ?s)) with (f (window s)).
    rewrite Hdb, Hroutes, Hwindow, Hfile. simpl.
    split.
    { intros route [x Hx]. rewrite lookup_insert_ne; [done|]. intros ->. congruence. }
    split.
    { intros _ _. split; [done|]. split; [|done].
      apply elem_of_keys. rewrite lookup_insert_eq. by eexists. }
    split; [|done]. intros [?|[x Hx]]; [done|congruence].
  - split; [done|]. split; [|done]. intros Hne Hnew. destruct Hold. done.
Qed.

(** X11 at an example: a third route. *)
Lemma add_route_only_adds_example :
  let st := with_company_database (λ _, local_with_R2) initial_app in
  company_database (run (add_route "R3") st) = <["R3" := ∅]> local_with_R2 ∧
  company_db_file (disk (run (add_route "R3") st)) = Absent.
Proof.
  cbv zeta.
  destruct (add_route_only_adds (with_company_database (λ _, local_with_R2) initial_app)
              "R3") as (_ & _ & Hnew & _ & Hfile).
  destruct Hnew as (Hdb & _); [discriminate|reflexivity|].
  split; [exact Hdb|]. rewrite Hfile. reflexivity.
Defined.

Lemma add_company_eq dropdown_value new_company st :
  add_company dropdown_value new_company st =
  (Return (),
   let route := or_else dropdown_value (selected_route (settings st)) in
   let companies := default ∅ (company_database st !! route) in
   if decide (route ≠ "" ∧ new_company ≠ "" ∧ companies !! new_company = None) then
     with_window (queue_dialog (a_dialog info "Success"
       [Lit "Company '"; Lit new_company; Lit "' added"]))
       (run update_route_company_lists
          (with_company_database (λ db,
             <[route := <[new_company := {["frequent_blades" := []]}]> companies]> db) st))
   else st).
Proof.
  unfold add_company, run, getkey. unfold_monad. cbv zeta.
  set (route := or_else _ _).
  destruct (decide (route ≠ "" ∧ new_company ≠ "")) as [[Hr Hc]|Hno].
  - destruct (company_database st !! route) as [companies|] eqn:Hroute; simpl.
    + rewrite Hroute. simpl.
      destruct (decide (companies !! new_company = None)) as [Hnew|Hold]; simpl.
      * rewrite decide_True by done.
        by rewrite update_route_company_lists_eq.
      * rewrite decide_False by tauto. by destruct st.
    + rewrite lookup_insert_eq. simpl. rewrite decide_True by done.
      match goal with |- context [update_route_company_lists ?s] =>
        assert (s = with_company_database (λ db,
                  <[route := <[new_company := {["frequent_blades" := []]}]> ∅]> db) st)
          as -> by (unfold with_company_database; simpl; by rewrite insert_insert_eq)
      end.
      rewrite decide_True by (by rewrite lookup_empty).
      by rewrite update_route_company_lists_eq.
  - rewrite decide_False by tauto. done.
Qed.

(** X12.  Adding a company only adds.  [add_company] works on the route of
    the selector of the management screen, or on the selected route when the
    selector has no value.  It returns; a company that is known keeps its
    record; a new company of a non-blank route gets a record with no
    frequent blade; every other record is as before; the database file is
    not written. *)
Theorem add_company_only_adds (st : POApp) (dropdown_value : option string)
    (new_company : string) :
  let route := or_else dropdown_value (selected_route (settings st)) in
  let st' := run (add_company dropdown_value new_company) st in
  result (add_company dropdown_value new_company) st = Return () ∧
  (∀ r c record, record_at (company_database st) r c = Some record →
     record_at (company_database st') r c = Some record) ∧
  (route ≠ "" → new_company ≠ "" →
     record_at (company_database st) route new_company = None →
     record_at (company_database st') route new_company =
       Some {["frequent_blades" := []]}) ∧
  (∀ r c, ¬ (r = route ∧ c = new_company) →
     record_at (company_database st') r c = record_at (company_database st) r c) ∧
  company_db_file (disk st') = company_db_file (disk st).
Proof.
  intros route st'. subst st'. unfold result, run. rewrite add_company_eq.
  split; [done|]. cbv zeta. fold route. cbn [fst snd].
  set (companies := default ∅ (company_database st !! route)).
  assert (∀ c, companies !! c = record_at (company_database st) route c) as Hcompanies.
  { intros c. unfold companies, record_at.
    destruct (company_database st !! route); simpl; [done|apply lookup_empty]. }
  destruct (decide _) as [(Hr & Hc & Hnew)|Hno].
  - destruct (update_route_company_lists_frame
                (with_company_database (λ db,
                   <[route := <[new_company := {["frequent_blades" := []]}]> companies]> db)
                   st))
      as (Hdb & _ & _ & _ & _ & _ & _ & Hfile & _).
    change (company_database (with_window ?f ?s)) with (company_database s).
    change (disk (with_window ?f ?s)) with (disk s).
    rewrite Hdb, Hfile. simpl.
    split.
    { intros r c record Hrecord. rewrite record_at_insert.
      destruct (decide (r = route)) as [->|]; [|done].
      rewrite lookup_insert_ne; [by rewrite Hcompanies|].
      intros <-. rewrite <- Hcompanies in Hrecord. congruence. }
    split.
    { intros _ _ _. rewrite record_at_insert, decide_True by done.
      by rewrite lookup_insert_eq. }
    split; [|done].
    intros r c Hrc. rewrite record_at_insert.
    destruct (decide (r = route)) as [->|]; [|done].
    rewrite lookup_insert_ne; [by rewrite Hcompanies|].
    intros <-. tauto.
  - split; [done|]. split; [|done].
    intros Hr Hc Hnew. destruct Hno. by rewrite Hcompanies.
Qed.

(** X12 at an example: company B joins route R1, company A keeps its blade. *)
Lemma add_company_only_adds_example :
  let st := on_route "R1" (with_company_database (λ _, example_local) initial_app) in
  let st' := run (add_company None "B") st in
  record_at (company_database st') "R1" "B" = Some {["frequent_blades" := []]} ∧
  record_at (company_database st') "R1" "A" = Some {["frequent_blades" := ["x"]]}.
Proof.
  cbv zeta.
  destruct (add_company_only_adds
              (on_route "R1" (with_company_database (λ _, example_local) initial_app))
              None "B") as (_ & Hkept & Hnew & _).
  split.
  - apply Hnew; [discriminate|discriminate|reflexivity].
  - apply Hkept. reflexivity.
Defined.

Lemma remove_first_app_new blade (blades : list string) :
  blade ∉ blades → remove_first blade (blades ++ [blade]) = blades.
Proof.
  induction blades as [|b blades IH]; intros Hnot; simpl.
  - by rewrite decide_True.
  - rewrite decide_False by (intros ->; apply Hnot; by left).
    f_equal. apply IH. intros Hin. apply Hnot. by right.
Qed.

Lemma remove_first_split blade (blades : list string) :
  blade ∈ blades →
  ∃ before after, blades = before ++ (blade :: after) ∧ (blade ∉ before) ∧
                  remove_first blade blades = before ++ after.
Proof.
  induction blades as [|b blades IH]; intros Hin; [by apply elem_of_nil in Hin|].
  simpl. destruct (decide (b = blade)) as [->|Hne].
  - exists [], blades. split; [done|]. split; [apply not_elem_of_nil|done].
  - apply elem_of_cons in Hin as [Heq|Hin]; [congruence|].
    destruct (IH Hin) as (before & after & -> & Hnot & ->).
    exists (b :: before), after. split; [done|]. split; [|done].
    intros Hb. apply elem_of_cons in Hb as [Heq|Hb]; [congruence|done].
Qed.

Lemma record_at_Some {A} (db : gmap string (gmap string A)) route company record :
  record_at db route company = Some record ↔
  ∃ companies, db !! route = Some companies ∧ companies !! company = Some record.
Proof.
  unfold record_at. destruct (db !! route) as [companies|]; simpl.
  - split; [by exists companies|]. by intros (? & [= <-] & ?).
  - split; [done|]. by intros (? & ? & ?).
Qed.

Lemma add_frequent_blade_eq db route company blade companies record :
  route ≠ "" → company ≠ "" → blade ≠ "" →
  db !! route = Some companies →
  companies !! company = Some record →
  let old := default [] (record !! "frequent_blades") in
  add_frequent_blade route company blade db =
  <[route := <[company := <["frequent_blades" :=
                              if decide (blade ∈ old) then old else old ++ [blade]]> record]>
              companies]> db.
Proof.
  intros Hr Hc Hb Hroute Hcompany old. unfold add_frequent_blade.
  rewrite decide_True by done. rewrite Hroute, Hcompany. subst old.
  destruct (record !! "frequent_blades") as [blades|] eqn:Hblades; simpl.
  - rewrite Hblades. simpl. destruct (decide (blade ∈ blades)); [|done].
    by rewrite (insert_id record).
  - rewrite lookup_insert_eq. simpl.
    by rewrite insert_insert_eq.
Qed.

Lemma remove_blade_eq db route company blade companies record :
  db !! route = Some companies →
  companies !! company = Some record →
  let old := default [] (record !! "frequent_blades") in
  remove_blade route company blade db =
  if decide (blade ∈ old) then
    <[route := <[company := <["frequent_blades" := remove_first blade old]> record]>
                companies]> db
  else db.
Proof. intros Hroute Hcompany. unfold remove_blade. by rewrite Hroute, Hcompany. Qed.

Lemma blades_at_insert db route company companies record blades :
  blades_at (<[route := <[company := <["frequent_blades" := blades]> record]> companies]> db)
    route company = Some blades.
Proof.
  unfold blades_at. rewrite record_at_insert, decide_True by done.
  rewrite lookup_insert_eq. simpl. by rewrite lookup_insert_eq.
Qed.

Lemma record_at_insert_other {A} (db : gmap string (gmap string A)) route company
    companies record r c :
  db !! route = Some companies →
  ¬ (r = route ∧ c = company) →
  record_at (<[route := <[company := record]> companies]> db) r c = record_at db r c.
Proof.
  intros Hroute Hrc. rewrite record_at_insert.
  destruct (decide (r = route)) as [->|]; [|done].
  rewrite lookup_insert_ne by (intros <-; tauto).
  unfold record_at. by rewrite Hroute.
Qed.

(** X13.  A frequent blade is added once.  [add_frequent_blade] changes
    nothing when one of its three inputs is blank or the company is unknown.
    For a known company the blade is appended to the list unless it is
    already there: the old blades keep their places, a list without
    repetition stays without repetition, adding the same blade again changes
    nothing, and no other company and no other key of the record is
    touched. *)
Theorem add_frequent_blade_adds_once (db : database) (route company blade : string) :
  let db' := add_frequent_blade route company blade db in
  (route = "" ∨ company = "" ∨ blade = "" ∨ record_at db route company = None →
     db' = db) ∧
  (∀ record, route ≠ "" → company ≠ "" → blade ≠ "" →
     record_at db route company = Some record →
     let old := default [] (record !! "frequent_blades") in
     blades_at db' route company =
       Some (if decide (blade ∈ old) then old else old ++ [blade]) ∧
     (NoDup old → NoDup (default [] (blades_at db' route company))) ∧
     add_frequent_blade route company blade db' = db' ∧
     (∀ r c, ¬ (r = route ∧ c = company) → record_at db' r c = record_at db r c) ∧
     (∀ record' key, record_at db' route company = Some record' →
        key ≠ "frequent_blades" → record' !! key = record !! key)).
Proof.
  intros db'. subst db'. split.
  - intros Hcase. unfold add_frequent_blade.
    destruct (decide _) as [(Hr & Hc & Hb)|]; [|done].
    destruct Hcase as [?|[?|[?|Hnone]]]; try done.
    unfold record_at in Hnone.
    destruct (db !! route) as [companies|]; [|done]. simpl in Hnone.
    by rewrite Hnone.
  - intros record Hr Hc Hb Hrecord old.
    apply record_at_Some in Hrecord as (companies & Hroute & Hcompany).
    rewrite (add_frequent_blade_eq db route company blade companies record) by done.
    fold old. set (new := if decide (blade ∈ old) then old else old ++ [blade]).
    assert (blade ∈ new) as Hin.
    { subst new. destruct (decide _); [done|]. apply elem_of_app. right. by left. }
    split; [apply blades_at_insert|].
    split.
    { intros Hnodup. rewrite blades_at_insert. simpl. subst new.
      destruct (decide _) as [|Hnot]; [done|].
      apply NoDup_app. split; [done|]. split; [|apply NoDup_singleton].
      intros x Hx ->%list_elem_of_singleton. done. }
    split.
    { rewrite (add_frequent_blade_eq _ route company blade
                 (<[company := <["frequent_blades" := new]> record]> companies)
                 (<["frequent_blades" := new]> record)); try done.
      - rewrite lookup_insert_eq. simpl. rewrite decide_True by done.
        rewrite !insert_insert_eq. done.
      - by rewrite lookup_insert_eq.
      - by rewrite lookup_insert_eq. }
    split.
    { intros r c Hrc. by apply record_at_insert_other. }
    intros record' key Hrecord' Hkey.
    rewrite record_at_insert, decide_True in Hrecord' by done.
    rewrite lookup_insert_eq in Hrecord'. injection Hrecord' as <-.
    by rewrite lookup_insert_ne.
Qed.

(** X13 at an example: blade y is added to company A, once. *)
Lemma add_frequent_blade_adds_once_example :
  let db' := add_frequent_blade "R1" "A" "y" example_local in
  blades_at db' "R1" "A" = Some ["x"; "y"] ∧
  add_frequent_blade "R1" "A" "y" db' = db'.
Proof.
  cbv zeta.
  destruct (add_frequent_blade_adds_once example_local "R1" "A" "y") as [_ Hadd].
  destruct (Hadd {["frequent_blades" := ["x"]]}) as (Hblades & _ & Hagain & _);
    [discriminate|discriminate|discriminate|reflexivity|].
  split; [exact Hblades|exact Hagain].
Defined.

Lemma blades_at_Some db route company blades :
  blades_at db route company = Some blades ↔
  ∃ companies record, db !! route = Some companies ∧
    companies !! company = Some record ∧ record !! "frequent_blades" = Some blades.
Proof.
  unfold blades_at. destruct (record_at db route company) as [record|] eqn:Hrecord; simpl.
  - apply record_at_Some in Hrecord as (companies & Hroute & Hcompany). split.
    + intros Hblades. by exists companies, record.
    + intros (? & ? & Hroute' & Hcompany' & ?). congruence.
  - split; [done|]. intros (companies & record & Hroute & Hcompany & _).
    assert (record_at db route company = Some record) as Hsome
      by (apply record_at_Some; by exists companies).
    congruence.
Qed.

(** X14.  Removing a blade removes its first occurrence.  [remove_blade]
    changes nothing when the blade is not listed for the company; otherwise
    the list loses the first occurrence of the blade and nothing else, so a
    blade that was listed once is gone, and one that was listed twice is
    still listed.  No other company is touched.  Removing a blade right after
    it was added to a list that did not have it gives the database back. *)
Theorem remove_blade_removes_first_occurrence (db : database)
    (route company blade : string) :
  let db' := remove_blade route company blade db in
  let old := default [] (blades_at db route company) in
  (blade ∉ old → db' = db) ∧
  (blade ∈ old →
     ∃ before after, old = before ++ (blade :: after) ∧ (blade ∉ before) ∧
       blades_at db' route company = Some (before ++ after)) ∧
  (NoDup old → blade ∉ default [] (blades_at db' route company)) ∧
  (∀ r c, ¬ (r = route ∧ c = company) → record_at db' r c = record_at db r c) ∧
  (route ≠ "" → company ≠ "" → blade ≠ "" →
   is_Some (blades_at db route company) → blade ∉ old →
     remove_blade route company blade (add_frequent_blade route company blade db) = db).
Proof.
  intros db' old.
  destruct (db !! route) as [companies|] eqn:Hroute; cycle 1.
  { assert (db' = db) as Hsame by (unfold db', remove_blade; by rewrite Hroute).
    assert (old = []) as Hold by (unfold old, blades_at, record_at; by rewrite Hroute).
    rewrite Hsame, Hold. repeat split; try done.
    - intros Hin. by apply not_elem_of_nil in Hin.
    - intros _. fold old. rewrite Hold. apply not_elem_of_nil.
    - intros _ _ _ [blades Hblades]. apply blades_at_Some in Hblades.
      destruct Hblades as (? & ? & ? & _). congruence. }
  destruct (companies !! company) as [record|] eqn:Hcompany; cycle 1.
  { assert (db' = db) as Hsame
      by (unfold db', remove_blade; by rewrite Hroute, Hcompany).
    assert (old = []) as Hold
      by (unfold old, blades_at, record_at; rewrite Hroute; simpl; by rewrite Hcompany).
    rewrite Hsame, Hold. repeat split; try done.
    - intros Hin. by apply not_elem_of_nil in Hin.
    - intros _. fold old. rewrite Hold. apply not_elem_of_nil.
    - intros _ _ _ [blades Hblades]. apply blades_at_Some in Hblades.
      destruct Hblades as (? & ? & ? & ? & _). congruence. }
  assert (old = default [] (record !! "frequent_blades")) as Hold.
  { unfold old, blades_at, record_at. rewrite Hroute. simpl. by rewrite Hcompany. }
  assert (db' = if decide (blade ∈ old) then
            <[route := <[company := <["frequent_blades" := remove_first blade old]> record]>
                        companies]> db
          else db) as Hdb'.
  { unfold db'. rewrite (remove_blade_eq db route company blade companies record) by done.
    by rewrite Hold. }
  split; [intros Hnot; by rewrite Hdb', decide_False|].
  split.
  { intros Hin. rewrite Hdb', decide_True by done.
    destruct (remove_first_split blade old Hin) as (before & after & Hsplit & Hnot & Hrem).
    exists before, after. split; [done|]. split; [done|].
    rewrite Hrem. apply blades_at_insert. }
  split.
  { intros Hnodup. rewrite Hdb'. destruct (decide (blade ∈ old)) as [Hin|Hnot]; [|done].
    rewrite blades_at_insert. simpl.
    destruct (remove_first_split blade old Hin) as (before & after & Hsplit & Hnot & ->).
    rewrite Hsplit in Hnodup. apply NoDup_app in Hnodup as (_ & _ & Hafter).
    apply NoDup_cons in Hafter as [Hafter _].
    intros [?|?]%elem_of_app; done. }
  split.
  { intros r c Hrc. rewrite Hdb'. destruct (decide _); [|done].
    by apply record_at_insert_other. }
  intros Hr Hc Hb [blades Hblades] Hnot.
  apply blades_at_Some in Hblades as (companies' & record' & Hroute' & Hcompany' & Hkey).
  assert (companies' = companies) as -> by congruence.
  assert (record' = record) as -> by congruence.
  rewrite Hold, Hkey in Hnot. simpl in Hnot.
  rewrite (add_frequent_blade_eq db route company blade companies record) by done.
  rewrite Hkey. simpl. rewrite decide_False by done.
  rewrite (remove_blade_eq _ route company blade
             (<[company := <["frequent_blades" := blades ++ [blade]]> record]> companies)
             (<["frequent_blades" := blades ++ [blade]]> record));
    [|by rewrite lookup_insert_eq..].
  rewrite lookup_insert_eq. simpl.
  rewrite decide_True by (apply elem_of_app; right; by left).
  rewrite remove_first_app_new by done.
  rewrite !insert_insert_eq.
  rewrite (insert_id record) by done.
  rewrite (insert_id companies) by done.
  by rewrite insert_id.
Qed.

(** X14 at an example: blade y, added to company A and removed again. *)
Lemma remove_blade_removes_first_occurrence_example :
  remove_blade "R1" "A" "y" (add_frequent_blade "R1" "A" "y" example_local) =
  example_local.
Proof.
  destruct (remove_blade_removes_first_occurrence example_local "R1" "A" "y")
    as (_ & _ & _ & _ & Hback).
  apply Hback; [discriminate|discriminate|discriminate|by eexists|].
  vm_compute. intros Hin. inversion Hin as [|? ? ? Hin']. inversion Hin'.
Defined.

Lemma save_new_company_eq company_name st :
  save_new_company company_name st =
  (Return (),
   let route := selected_route (settings st) in
   let companies := default ∅ (company_database st !! route) in
   if decide (company_name = "") then
     with_window (queue_dialog (a_dialog error "Error"
       [Lit "Please enter a company name"])) st
   else if decide (is_Some (companies !! company_name)) then
     with_window (queue_dialog (a_dialog error "Error" [Lit "Company already exists"])) st
   else
     let st1 := with_company_database (λ db,
                  <[route := <[company_name := {["frequent_blades" := []]}]> companies]> db)
                  st in
     let st3 := run update_route_company_lists (run save_company_database st1) in
     with_window (queue_dialog (a_dialog info "Success"
       [Lit "Company '"; Lit company_name; Lit "' added"]))
       (run show_home
          (run save_settings (with_settings (set_selected_company company_name) st3)))).
Proof.
  unfold save_new_company. destruct (decide (company_name = "")); [done|].
  cbv zeta. step.
  set (route := selected_route (settings st)).
  assert (∀ companies st1,
    (modify (with_company_database (λ db,
       <[route := <[company_name := {["frequent_blades" := []]}]> companies]> db));;
     save_company_database;;
     update_route_company_lists;;
     modify (with_settings (set_selected_company company_name));;
     save_settings;;
     show_home;;
     show_dialog_async info "Success" [Lit "Company '"; Lit company_name; Lit "' added"])
      st1 =
    (Return (),
     with_window (queue_dialog (a_dialog info "Success"
       [Lit "Company '"; Lit company_name; Lit "' added"]))
       (run show_home (run save_settings
          (with_settings (set_selected_company company_name)
             (run update_route_company_lists (run save_company_database
                (with_company_database (λ db,
                   <[route := <[company_name := {["frequent_blades" := []]}]> companies]>
                     db) st1)))))))) as Hadd.
  { intros companies st1. step. step by save_company_database_total.
    step by update_route_company_lists_total. step.
    step by save_settings_total. by step by show_home_total. }
  destruct (company_database st !! route) as [companies|] eqn:Hroute.
  - rewrite decide_False by done. do 2 step.
    unfold getkey. rewrite Hroute. step. simpl.
    destruct (decide (is_Some (companies !! company_name))); [done|].
    apply Hadd.
  - rewrite decide_True by done. do 2 step.
    unfold getkey. cbn. rewrite lookup_insert_eq. step. simpl.
    rewrite lookup_empty. rewrite !decide_False by (by intros [? ?]).
    rewrite Hadd. unfold with_company_database. cbn. by rewrite insert_insert_eq.
Qed.

(** X15.  A new company is selected and saved.  [save_new_company] returns.
    A blank name, or the name of a company of the selected route, only
    queues an error dialog.  Otherwise the company is added to the selected
    route with no frequent blade, every other record is as before, the new
    company is the selected company and the selection is valid; on a
    directory that accepts writes the database file then holds the database
    and the settings file the settings, and on one that refuses them no file
    changes. *)
Theorem new_company_is_selected_and_saved (st : POApp) (company_name : string) :
  let route := selected_route (settings st) in
  let st' := run (save_new_company company_name) st in
  result (save_new_company company_name) st = Return () ∧
  (company_name = "" ∨ is_Some (record_at (company_database st) route company_name) →
     ∃ d, st' = with_window (queue_dialog d) st ∧ dialog_kind d = error) ∧
  (company_name ≠ "" → record_at (company_database st) route company_name = None →
     record_at (company_database st') route company_name =
       Some {["frequent_blades" := []]} ∧
     (∀ r c, ¬ (r = route ∧ c = company_name) →
        record_at (company_database st') r c = record_at (company_database st) r c) ∧
     selected_company (settings st') = company_name ∧
     selected_route (settings st') = route ∧
     selection_valid st' ∧
     (writable (disk st) = true →
        company_db_file (disk st') = Stored (company_database st') ∧
        settings_saved st') ∧
     (writable (disk st) = false → disk st' = disk st)).
Proof.
  intros route st'. subst st'. unfold result, run at 1 2 3 4 5 6 7 8 9 10.
  rewrite save_new_company_eq. split; [done|]. cbv zeta. fold route. cbn [fst snd].
  set (companies := default ∅ (company_database st !! route)).
  assert (∀ c, companies !! c = record_at (company_database st) route c) as Hcompanies.
  { intros c. unfold companies, record_at.
    destruct (company_database st !! route); simpl; [done|apply lookup_empty]. }
  destruct (decide (company_name = "")) as [->|Hname].
  { split; [by eexists|]. done. }
  destruct (decide (is_Some _)) as [Hold|Hnew].
  { split; [by eexists|]. intros _ Hnone. rewrite Hcompanies, Hnone in Hold.
    by destruct Hold. }
  split.
  { intros [?|Hsome]; [done|]. by rewrite Hcompanies in Hnew. }
  intros _ _.
  set (db1 := <[route := <[company_name := {["frequent_blades" := []]}]> companies]>
                (company_database st)).
  set (st1 := with_company_database _ st).
  destruct (save_company_database_frame st1)
    as (Hdb2 & _ & Hfile2 & Hw2 & Hroute2 & Hsame2).
  cbv zeta in Hdb2, Hfile2, Hw2, Hroute2, Hsame2.
  set (st2 := run save_company_database st1) in *.
  destruct (update_route_company_lists_frame st2)
    as (Hdb3 & _ & _ & _ & _ & _ & _ & Hfile3 & _ & _ & Hw3 & Hroute3 & _).
  cbv zeta in Hdb3, Hfile3, Hw3, Hroute3.
  set (st3 := run update_route_company_lists st2) in *.
  set (st4 := with_settings (set_selected_company company_name) st3).
  destruct (show_home_run (run save_settings st4)) as [w ->].
  rewrite save_settings_run.
  change (writable (disk st4)) with (writable (disk st3)).
  rewrite Hw3, Hw2. change (writable (disk st1)) with (writable (disk st)).
  assert (company_database st3 = db1) as Hdb by (by rewrite Hdb3, Hdb2).
  assert (selected_route (settings st3) = route) as Hroute by (by rewrite Hroute3, Hroute2).
  assert (record_at db1 route company_name = Some {["frequent_blades" := []]}) as Hrecord.
  { unfold db1. rewrite record_at_insert, decide_True by done. by rewrite lookup_insert_eq. }
  set (st' := with_window _ (with_window _ _)).
  assert (company_database st' = db1 ∧
          settings st' = set_selected_company company_name (settings st3) ∧
          disk st' = if writable (disk st)
                     then set_settings_file (Stored (settings_dict (settings st'))) (disk st3)
                     else disk st3) as (Hdb' & Hsettings' & Hdisk').
  { unfold st'. by destruct (writable (disk st)). }
  rewrite Hdb'.
  split; [done|].
  split.
  { intros r c Hrc. unfold db1. rewrite record_at_insert.
    destruct (decide (r = route)) as [->|]; [|done].
    rewrite lookup_insert_ne; [by rewrite Hcompanies|]. intros <-. tauto. }
  split; [by rewrite Hsettings'|].
  split; [by rewrite Hsettings'|].
  split.
  { right. rewrite Hdb', Hsettings'. cbn. rewrite Hroute. unfold record_at in Hrecord.
    destruct (db1 !! route) as [cs|]; [|done]. simpl in Hrecord. by rewrite Hrecord. }
  split.
  - intros Hw. unfold settings_saved. rewrite Hdisk', Hw. cbn. split; [|done].
    rewrite Hfile3, Hfile2. change (writable (disk st1)) with (writable (disk st)).
    by rewrite Hw.
  - intros Hw. rewrite Hdisk', Hw.
    assert (st2 = st1) as Hst2 by (apply Hsame2; done).
    unfold st3, run. rewrite update_route_company_lists_eq. cbv zeta.
    destruct (decide _); cbn [fst snd]; [|by rewrite Hst2].
    rewrite save_settings_eq. cbn. rewrite Hst2. cbn. by rewrite Hw.
Qed.

(** X15 at an example: the first company of route R1. *)
Lemma new_company_is_selected_and_saved_example :
  let st' := run (save_new_company "B") (on_route "R1" initial_app) in
  selected_company (settings st') = "B" ∧
  company_db_file (disk st') = Stored {["R1" := {["B" := {["frequent_blades" := []]}]}]}.
Proof.
  cbv zeta.
  destruct (new_company_is_selected_and_saved (on_route "R1" initial_app) "B")
    as (_ & _ & Hnew).
  destruct Hnew as (_ & _ & Hselected & _ & _ & Hfiles & _);
    [discriminate|reflexivity|].
  split; [exact Hselected|].
  destruct (Hfiles eq_refl) as [Hfile _]. rewrite Hfile. vm_compute. reflexivity.
Defined.

Lemma save_company_changes_eq st :
  save_company_changes st =
  (Return (),
   if writable (disk st) then
     with_window (queue_dialog (a_dialog info "Success" [Lit "Company database saved"]))
       (run save_company_database st)
   else
     with_window (queue_dialog (a_dialog error "Error"
       [Lit "Failed to save company database"])) st).
Proof.
  unfold save_company_changes, run. unfold_monad.
  rewrite save_company_database_eq. by destruct (writable (disk st)).
Qed.

(** X16.  The company database is read back as it was saved.
    [save_company_changes] returns.  When the directory refuses the write it
    only queues an error dialog.  When it accepts it, a success dialog is
    queued, the database in memory is unchanged, and [load_company_database]
    on the file it wrote ends with exactly this database, its routes as the
    available routes, and a valid selection. *)
Theorem company_database_survives_restart (st : POApp) :
  let st' := run save_company_changes st in
  result save_company_changes st = Return () ∧
  (writable (disk st) = false →
     st' = with_window (queue_dialog (a_dialog error "Error"
             [Lit "Failed to save company database"])) st) ∧
  (writable (disk st) = true →
     dialogs (window st') = dialogs (window st) ++
       [a_dialog info "Success" [Lit "Company database saved"]] ∧
     company_database st' = company_database st ∧
     ∀ st0, company_db_file (disk st0) = company_db_file (disk st') →
       company_database (run load_company_database st0) = company_database st ∧
       available_routes (run load_company_database st0) = keys (company_database st) ∧
       selection_valid (run load_company_database st0)).
Proof.
  cbv zeta. unfold result, run at 1 2 3 4. rewrite save_company_changes_eq.
  split; [done|]. cbn [fst snd].
  split; [by intros ->|]. intros Hw. rewrite Hw.
  destruct (save_company_database_frame st)
    as (Hdb & Hwindow & Hfile & _).
  cbv zeta in Hdb, Hwindow, Hfile. rewrite Hw in Hfile.
  change (dialogs (window (with_window ?f ?s))) with (dialogs (f (window s))).
  change (company_database (with_window ?f ?s)) with (company_database s).
  change (disk (with_window ?f ?s)) with (disk s).
  rewrite Hwindow, Hdb, Hfile. split; [done|]. split; [done|].
  intros st0 Hfile0. unfold run. rewrite load_company_database_eq.
  fold (run update_route_company_lists (with_company_database (λ _, loaded_db st0) st0)).
  destruct (update_route_company_lists_frame
              (with_company_database (λ _, loaded_db st0) st0)) as (-> & -> & _).
  split; [|split]; [| |apply update_route_company_lists_valid].
  all: unfold loaded_db; by rewrite Hfile0.
Qed.

(** X16 at an example: the database of the merge example, saved and read
    by a fresh application. *)
Lemma company_database_survives_restart_example :
  let saved := run save_company_changes
                 (with_company_database (λ _, example_local) initial_app) in
  company_database (run load_company_database (restarted (disk saved))) = example_local.
Proof.
  cbv zeta.
  destruct (company_database_survives_restart
              (with_company_database (λ _, example_local) initial_app))
    as (_ & _ & Hsaved).
  destruct (Hsaved eq_refl) as (_ & _ & Hread).
  destruct (Hread (restarted (disk (run save_company_changes
              (with_company_database (λ _, example_local) initial_app)))) eq_refl)
    as (Hdb & _).
  exact Hdb.
Defined.

Section sync_ui_facts.
Context `{SetIteration}.

Lemma sync_company_db_ui_eq replace response st :
  sync_company_db_ui (Some replace) response st =
  (Return (),
   let message :=
     if replace then "Company database replaced with server data"
     else "Company database merged with server data" in
   match result (sync_company_database replace response) st with
   | Return true =>
       with_window (queue_dialog (a_dialog info "Success"
         [Lit message; Lit " successfully"]))
         (run (sync_company_database replace response) st)
   | _ =>
       with_window (queue_dialog (a_dialog error "Error"
         [Lit "Failed to sync company database"]))
         (run (sync_company_database replace response) st)
   end).
Proof.
  unfold sync_company_db_ui, result, run. unfold_monad.
  destruct (sync_company_database replace response st) as [[[]|e] st1] eqn:Hsync;
    try done.
  exfalso. unfold sync_company_database in Hsync. unfold_monad in Hsync.
  by repeat case_match.
Qed.

(** X17.  What the sync dialog reports.  After the user chose replace or
    merge, [sync_company_db_ui] returns.  When the server answered 200 with
    a company snapshot (a JSON object of routes, each an object of
    companies, each an object of lists) it queues the success dialog of the
    chosen mode and the database in memory is the synced one; the database
    file holds it when the directory accepts the write and is left as it was
    when it does not (success is reported all the same).  When the request
    fails, the status is not 200 or the body is not JSON, only the error
    dialog is queued.  When the question is dismissed nothing happens.
    Bodies that are JSON of another shape are outside the answers of the
    model and of this statement. *)
Theorem sync_ui_reports_the_answer (st : POApp) (replace : bool)
    (response : http_result database) :
  let st' := run (sync_company_db_ui (Some replace) response) st in
  result (sync_company_db_ui (Some replace) response) st = Return () ∧
  (∀ text remote, response = Response 200 text (Some remote) →
     dialogs (window st') = dialogs (window st) ++
       [a_dialog info "Success"
          [Lit (if replace then "Company database replaced with server data"
                else "Company database merged with server data");
           Lit " successfully"]] ∧
     company_database st' = synced_db replace remote (company_database st) ∧
     company_db_file (disk st') =
       (if writable (disk st) then Stored (company_database st')
        else company_db_file (disk st))) ∧
  ((∀ text remote, response ≠ Response 200 text (Some remote)) →
     st' = with_window (queue_dialog (a_dialog error "Error"
             [Lit "Failed to sync company database"])) st) ∧
  run (sync_company_db_ui None response) st = st.
Proof.
  cbv zeta. unfold result, run at 1 2 3 4 5. rewrite sync_company_db_ui_eq.
  split; [done|]. cbv zeta. cbn [fst snd].
  split; [|split; [|done]].
  - intros text remote ->. unfold result, run.
    rewrite sync_company_database_ok. cbn [fst snd].
    set (st1 := with_company_database (synced_db replace remote) st).
    destruct (save_company_database_frame st1)
      as (Hdb2 & Hwindow2 & Hfile2 & Hw2 & _).
    cbv zeta in Hdb2, Hwindow2, Hfile2, Hw2.
    destruct (update_route_company_lists_frame (run save_company_database st1))
      as (Hdb3 & _ & _ & Hwindow3 & _ & _ & _ & Hfile3 & _).
    cbv zeta in Hdb3, Hwindow3, Hfile3.
    cbn. rewrite Hdb3, Hdb2, Hwindow3, Hwindow2, Hfile3, Hfile2. done.
  - intros Hfailed. unfold result, run.
    assert (sync_company_database replace response st = (Return false, st)) as ->; [|done].
    unfold sync_company_database. unfold_monad.
    destruct response as [|status_code text [remote|]]; try done.
    + destruct (decide (status_code = 200)) as [->|]; [|done].
      by destruct (Hfailed text remote).
    + by destruct (decide (status_code = 200)).
Qed.

End sync_ui_facts.

(** X17 at an example: a replace sync on a directory that refuses writes
    reports success and leaves no database file. *)
Lemma sync_ui_reports_the_answer_example :
  let st := with_disk (λ _, read_only_disk) initial_app in
  let st' := run (@sync_company_db_ui first_occurrences (Some true)
                    (Response 200 "" (Some example_remote))) st in
  dialog_kind <$> dialogs (window st') = [info] ∧
  company_db_file (disk st') = Absent.
Proof.
  cbv zeta.
  destruct (@sync_ui_reports_the_answer first_occurrences
              (with_disk (λ _, read_only_disk) initial_app) true
              (Response 200 "" (Some example_remote))) as (_ & Hok & _).
  destruct (Hok "" example_remote eq_refl) as (Hdialogs & _ & Hfile).
  rewrite Hdialogs, Hfile. split; reflexivity.
Defined.

(** ** Deliveries *)

Lemma update_delivery_display_consistent st company :
  delivery_consistent st →
  current_company st = Some company →
  update_delivery_display st =
  (display_outcome st, run save_settings (with_settings (set_selected_company company) st)).
Proof.
  intros Hcons Hcompany.
  rewrite (surjective_pairing (update_delivery_display st)). f_equal.
  { by apply update_delivery_display_result. }
  destruct Hcons as (Htotal & Hcursor & Hdata).
  unfold current_company in Hcompany.
  assert (company ∈ delivery_companies (delivery st)) as Hin
    by (by eapply list_elem_of_lookup_2).
  apply lookup_lt_Some in Hcompany as Hlt.
  destruct Hcursor as [Hzero|Hrange]; [lia|].
  unfold update_delivery_display, getitem_int, getitem, dict_of, run. unfold_monad.
  rewrite decide_False by lia. rewrite decide_True by lia.
  rewrite decide_True by lia. rewrite Hcompany. simpl.
  destruct (delivery_api_response (delivery st)) as [| | | | |fields]; try done.
  simpl. destruct (fields !! "data") as [[| | | | |data_field]|];
    try (rewrite Hdata in Hin; by apply not_elem_of_nil in Hin).
  rewrite Forall_forall in Hdata. destruct (Hdata company Hin) as [entry ->].
  simpl. rewrite save_settings_eq. simpl. by rewrite show_entry_eq.
Qed.

Lemma delivery_consistent_frame st st' :
  delivery st' = delivery st → delivery_consistent st → delivery_consistent st'.
Proof. unfold delivery_consistent. by intros ->. Qed.

Lemma delivery_consistent_cursor st i :
  delivery_consistent st →
  0 <= i < total_deliveries (delivery st) →
  delivery_consistent (with_delivery (set_current_delivery_index i) st).
Proof.
  intros (Htotal & Hcursor & Hdata) Hi. split; [done|]. split; [by right|done].
Qed.

Lemma current_company_in_range st :
  delivery_consistent st → total_deliveries (delivery st) ≠ 0 →
  is_Some (current_company st).
Proof.
  intros (Htotal & Hcursor & _) Hne. apply lookup_lt_is_Some.
  destruct Hcursor; lia.
Qed.

Lemma current_entry_in_range st :
  delivery_consistent st → total_deliveries (delivery st) ≠ 0 →
  is_Some (current_entry st).
Proof.
  intros Hcons Hne.
  destruct (current_company_in_range st Hcons Hne) as [company Hcompany].
  destruct Hcons as (_ & _ & Hdata). unfold current_entry. rewrite Hcompany.
  assert (company ∈ delivery_companies (delivery st)) as Hin
    by (by eapply list_elem_of_lookup_2).
  destruct (delivery_api_response (delivery st)) as [| | | | |fields]; try done.
  destruct (fields !! "data") as [[| | | | |data_field]|];
    try (rewrite Hdata in Hin; by apply not_elem_of_nil in Hin).
  rewrite Forall_forall in Hdata. by apply Hdata.
Qed.

(** A list of objects can always be read for display. *)
Lemma entry_shows_objects (pos : list po_entry) : entry_shows (as_json pos) = true.
Proof.
  unfold entry_shows, as_json. simpl. by induction pos.
Qed.

Lemma browse_step st i :
  delivery_consistent st →
  0 <= i < total_deliveries (delivery st) →
  let st' := run update_delivery_display
               (with_delivery (set_current_delivery_index i) st) in
  result update_delivery_display (with_delivery (set_current_delivery_index i) st)
    = display_outcome st' ∧
  delivery_consistent st' ∧
  current_delivery_index (delivery st') = i ∧
  current_company st' = Some (selected_company (settings st')) ∧
  is_Some (current_entry st') ∧
  (writable (disk st) = true → settings_saved st').
Proof.
  intros Hcons Hi. cbv zeta.
  set (st1 := with_delivery (set_current_delivery_index i) st).
  assert (delivery_consistent st1) as Hcons1 by (by apply delivery_consistent_cursor).
  destruct (current_company_in_range st1 Hcons1) as [company Hcompany]; [simpl; lia|].
  unfold result, run at 1 2 3 4 5 6 7.
  rewrite (update_delivery_display_consistent st1 company) by done. cbn [fst snd].
  rewrite save_settings_run.
  change (writable (disk (with_settings _ st1))) with (writable (disk st)).
  set (st2 := if writable (disk st) then _ else _).
  assert (delivery st2 = delivery st1) as Hdelivery
    by (unfold st2; by destruct (writable (disk st))).
  split; [symmetry; by apply display_outcome_frame|]. split.
  { by apply (delivery_consistent_frame st1). }
  split; [by rewrite Hdelivery|].
  split; [unfold st2; by destruct (writable (disk st))|].
  split.
  { apply current_entry_in_range.
    - by apply (delivery_consistent_frame st1).
    - rewrite Hdelivery. simpl. lia. }
  intros Hw. subst st2. by rewrite Hw.
Qed.

(** X18.  Browsing keeps the selection on the company under the cursor.
    From a consistent delivery state with at least one delivery,
    [next_delivery] and [previous_delivery] leave a consistent delivery
    state and end with the company under the cursor as the selected company;
    on a directory that accepts writes the settings file then holds the
    settings.  They return when the entry of that company can be read for
    display, as a list of objects can, and raise [TypeError], after the
    selection has been made and saved, when it cannot. *)
Theorem browsing_selects_the_company_under_the_cursor (st : POApp) :
  delivery_consistent st →
  count st ≠ 0 →
  let forth := run next_delivery st in
  let back := run previous_delivery st in
  delivery_consistent forth ∧
  delivery_consistent back ∧
  current_company forth = Some (selected_company (settings forth)) ∧
  current_company back = Some (selected_company (settings back)) ∧
  (writable (disk st) = true → settings_saved forth ∧ settings_saved back) ∧
  (∃ entry, current_entry forth = Some entry ∧
            result next_delivery st =
              if entry_shows entry then Return () else Raise TypeError) ∧
  (∃ entry, current_entry back = Some entry ∧
            result previous_delivery st =
              if entry_shows entry then Return () else Raise TypeError) ∧
  (∀ pos : list po_entry, current_entry forth = Some (as_json pos) →
                          result next_delivery st = Return ()) ∧
  (∀ pos : list po_entry, current_entry back = Some (as_json pos) →
                          result previous_delivery st = Return ()).
Proof.
  intros Hcons Hne forth back.
  assert (0 < count st) as Hpos.
  { destruct Hcons as (Htotal & _). unfold count in *. lia. }
  destruct (browse_step st ((cursor st + 1) `mod` count st) Hcons)
    as (Hr1 & Hc1 & _ & Hs1 & [entry1 He1] & Hw1); [by apply Z.mod_pos_bound|].
  destruct (browse_step st ((cursor st - 1) `mod` count st) Hcons)
    as (Hr2 & Hc2 & _ & Hs2 & [entry2 He2] & Hw2); [by apply Z.mod_pos_bound|].
  cbv zeta in *.
  assert (next_delivery st =
          update_delivery_display
            (with_delivery (set_current_delivery_index ((cursor st + 1) `mod` count st)) st))
    as Hnext.
  { unfold next_delivery. unfold_monad. by rewrite decide_False. }
  assert (previous_delivery st =
          update_delivery_display
            (with_delivery (set_current_delivery_index ((cursor st - 1) `mod` count st)) st))
    as Hprev.
  { unfold previous_delivery. unfold_monad. by rewrite decide_False. }
  unfold forth, back, result, run in *. rewrite Hnext, Hprev.
  unfold display_outcome in Hr1, Hr2. rewrite He1 in Hr1. rewrite He2 in Hr2.
  split_and!; try done.
  - intros Hw. split; [by apply Hw1|by apply Hw2].
  - by exists entry1.
  - by exists entry2.
  - intros pos Hpos'. rewrite Hr1. rewrite He1 in Hpos'. simplify_eq.
    by rewrite entry_shows_objects.
  - intros pos Hpos'. rewrite Hr2. rewrite He2 in Hpos'. simplify_eq.
    by rewrite entry_shows_objects.
Qed.

(** X18 at two examples: from A, next goes to B and returns; when the entry
    of B is a list of numbers it selects B all the same, and raises. *)
Lemma browsing_selects_the_company_under_the_cursor_example :
  (selected_company (settings two_stops) = "" ∧
   current_company (run next_delivery two_stops) = Some "B" ∧
   selected_company (settings (run next_delivery two_stops)) = "B" ∧
   result next_delivery two_stops = Return ()) ∧
  (current_entry (run next_delivery ill_formed_stops) = Some (JList [JNum 1]) ∧
   selected_company (settings (run next_delivery ill_formed_stops)) = "B" ∧
   result next_delivery ill_formed_stops = Raise TypeError).
Proof.
  split.
  - destruct (browsing_selects_the_company_under_the_cursor two_stops)
      as (_ & _ & Hforth & _ & _ & _ & _ & Hreturns & _).
    + apply (bool_decide_unpack _). vm_compute. exact I.
    + discriminate.
    + split; [reflexivity|].
      assert (current_company (run next_delivery two_stops) = Some "B") as Hcurrent
        by reflexivity.
      split; [exact Hcurrent|].
      rewrite Hcurrent in Hforth. split; [congruence|].
      apply (Hreturns []). reflexivity.
  - destruct (browsing_selects_the_company_under_the_cursor ill_formed_stops)
      as (_ & _ & Hforth & _ & _ & (entry & Hentry & Hresult) & _).
    + apply (bool_decide_unpack _). vm_compute. exact I.
    + discriminate.
    + assert (current_company (run next_delivery ill_formed_stops) = Some "B") as Hcurrent
        by reflexivity.
      assert (current_entry (run next_delivery ill_formed_stops) = Some (JList [JNum 1]))
        as Hshown by reflexivity.
      split; [exact Hshown|].
      rewrite Hcurrent in Hforth. split; [congruence|].
      rewrite Hshown in Hentry. injection Hentry as <-. exact Hresult.
Defined.

Lemma download_saved_delivery st text fields data_field :
  selected_route (settings st) ≠ "" →
  writable (disk st) = true →
  truthy (default JNull (fields !! "success")) = true →
  fields !! "data" = Some (JDict data_field) →
  let st' := run (download_delivery_route (Response 200 text (Some (JDict fields)))) st in
  delivery st' =
    set_delivery_companies (keys data_field)
      (set_delivery_api_response (JDict fields) (delivery st)) ∧
  delivery_data_file (disk st') = Stored (JDict fields).
Proof.
  intros Hroute Hw Hsuccess Hdata. cbv zeta. unfold run at 1 2.
  rewrite download_success_saved by done. cbv zeta. rewrite Hdata.
  match goal with |- context [run update_delivery_display ?s] =>
    destruct (update_delivery_display_frame s) as (Hdelivery & _ & _ & Hfile);
    cbv zeta in Hdelivery, Hfile;
    destruct (result update_delivery_display s)
  end.
  all: cbn [fst snd].
  all: change (delivery (with_window ?f ?s)) with (delivery s).
  all: change (disk (with_window ?f ?s)) with (disk s).
  all: by rewrite Hdelivery, Hfile.
Qed.

(** X19.  The delivery cache is read back as it was downloaded.  After a
    download that was answered with status 200, a true success flag and a
    mapping under ["data"] (a route being selected, the directory accepting
    the write), the delivery state is consistent, and [load_delivery_data] on
    the file that was written assigns the same response, the same companies
    and the same count as the download left in memory. *)
Theorem delivery_cache_survives_restart (st : POApp) (text : string)
    (fields data_field : gmap string json) :
  selected_route (settings st) ≠ "" →
  writable (disk st) = true →
  truthy (default JNull (fields !! "success")) = true →
  fields !! "data" = Some (JDict data_field) →
  let st' := run (download_delivery_route (Response 200 text (Some (JDict fields)))) st in
  delivery_consistent st' ∧
  load_delivery_data (delivery_data_file (disk st')) =
    {| loaded_api_response := delivery_api_response (delivery st');
       loaded_companies := JStr <$> delivery_companies (delivery st');
       loaded_total := total_deliveries (delivery st') |}.
Proof.
  intros Hroute Hw Hsuccess Hdata st'.
  destruct (download_saved_delivery st text fields data_field) as [Hdelivery Hfile];
    try done.
  fold st' in Hdelivery, Hfile. split.
  - unfold delivery_consistent. rewrite Hdelivery. simpl.
    split; [done|]. split; [lia|]. rewrite Hdata.
    apply Forall_forall. intros company Hin. by apply elem_of_keys.
  - rewrite Hfile, Hdelivery. unfold load_delivery_data. simpl.
    rewrite Hdata. simpl. by rewrite length_fmap.
Qed.

(** X19 at an example: two deliveries, downloaded and read by a fresh
    application. *)
Lemma delivery_cache_survives_restart_example :
  let st' := run (download_delivery_route (Response 200 "" (Some (JDict two_deliveries))))
               (on_route "R1" initial_app) in
  loaded_total (load_delivery_data (delivery_data_file (disk (restarted (disk st'))))) = 2 ∧
  total_deliveries (delivery st') = 2.
Proof.
  cbv zeta.
  destruct (delivery_cache_survives_restart (on_route "R1" initial_app) ""
              two_deliveries (list_to_map [("A", JList []); ("B", JList [])]))
    as [_ Hread].
  - discriminate.
  - reflexivity.
  - reflexivity.
  - reflexivity.
  - change (disk (restarted ?d)) with d. rewrite Hread. split; reflexivity.
Defined.

Lemma length_list_ascii_of_string s :
  length (String.list_ascii_of_string s) = String.length s.
Proof. induction s as [|c s IH]; simpl; [done|by rewrite IH]. Qed.

(** X20.  A cache whose data is not a mapping is read back as deliveries.
    When the answer has a true success flag and a ["data"] field that is not
    a mapping, the download keeps the companies and the count it had; but
    [load_delivery_data] on the file that was written takes a string for one
    delivery per character and a list for one delivery per element, and
    falls back to the empty state for any other value. *)
Theorem malformed_cache_is_read_back_as_deliveries (st : POApp) (text : string)
    (fields : gmap string json) (data_field : json) :
  selected_route (settings st) ≠ "" →
  writable (disk st) = true →
  truthy (default JNull (fields !! "success")) = true →
  fields !! "data" = Some data_field →
  (∀ d, data_field ≠ JDict d) →
  let st' := run (download_delivery_route (Response 200 text (Some (JDict fields)))) st in
  let read_back := load_delivery_data (delivery_data_file (disk st')) in
  delivery_companies (delivery st') = delivery_companies (delivery st) ∧
  total_deliveries (delivery st') = total_deliveries (delivery st) ∧
  match data_field with
  | JStr s =>
      loaded_companies read_back =
        ((λ c, JStr (String c "")) <$> String.list_ascii_of_string s) ∧
      loaded_total read_back = Z.of_nat (String.length s)
  | JList l =>
      loaded_companies read_back = l ∧
      loaded_total read_back = Z.of_nat (length l)
  | _ => read_back = no_delivery
  end.
Proof.
  intros Hroute Hw Hsuccess Hdata Hnot st' read_back.
  subst read_back st'. unfold run.
  rewrite download_success_saved by done. cbv zeta. rewrite Hdata.
  destruct data_field as [|b|n|s|l|d]; cbn [fst snd]; simpl;
    unfold load_delivery_data; simpl; rewrite ?Hdata; simpl; try done.
  - by rewrite length_fmap, length_list_ascii_of_string.
  - by destruct (Hnot d).
Qed.

(** X20 at an example: ["data"] is the string ["oops"]; the download shows no
    delivery, a restart shows four. *)
Lemma malformed_cache_is_read_back_as_deliveries_example :
  let st' := run (download_delivery_route (Response 200 "" (Some (JDict malformed_answer))))
               (on_route "R1" initial_app) in
  total_deliveries (delivery st') = 0 ∧
  loaded_total (load_delivery_data (delivery_data_file (disk st'))) = 4.
Proof.
  cbv zeta.
  destruct (malformed_cache_is_read_back_as_deliveries (on_route "R1" initial_app) ""
              malformed_answer (JStr "oops")) as (_ & Htotal & _ & Hread).
  - discriminate.
  - reflexivity.
  - reflexivity.
  - reflexivity.
  - discriminate.
  - split; [exact Htotal|exact Hread].
Defined.
(** ** Selection and home screens *)

Lemma index_first x (l : list string) :
  x ∈ l →
  ∃ i, index x l = Some i ∧ l !! i = Some x ∧
       ∀ j, (j < i)%nat → l !! j ≠ Some x.
Proof.
  induction l as [|y l IH]; intros Hin; [by apply not_elem_of_nil in Hin|].
  simpl. destruct (decide (y = x)) as [->|Hne].
  - exists 0%nat. split; [done|]. split; [done|]. intros j Hj. lia.
  - apply elem_of_cons in Hin as [Heq|Hin]; [congruence|].
    destruct (IH Hin) as (i & -> & Hi & Hfirst).
    exists (S i). split; [done|]. split; [done|].
    intros [|j] Hj; simpl; [congruence|]. apply Hfirst. lia.
Qed.

Lemma show_current_home_eq st :
  show_current_home st =
  if decide (app_mode (settings st) = "delivery")
  then update_delivery_display (with_window (set_content delivery_home_screen) st)
  else (Return (), run load_pos (with_window (set_content pickup_home_screen) st)).
Proof.
  unfold show_current_home, run. unfold_monad.
  destruct (decide _); [done|]. by rewrite load_pos_eq.
Qed.

Lemma select_company_eq company st :
  select_company company st =
  show_current_home
    (let st1 := run save_settings (with_settings (set_selected_company company) st) in
     if decide (app_mode (settings st) = "delivery" ∧
                company ∈ delivery_companies (delivery st)) then
       with_delivery (set_current_delivery_index
         (match index company (delivery_companies (delivery st)) with
          | Some i => Z.of_nat i
          | None => 0
          end)) st1
     else st1).
Proof.
  unfold select_company, run. unfold_monad. rewrite save_settings_eq. cbn [fst snd].
  set (st1 := if writable _ then _ else _).
  assert (settings st1 = set_selected_company company (settings st) ∧
          delivery st1 = delivery st) as [Hsettings Hdelivery].
  { unfold st1. by destruct (writable _). }
  rewrite Hsettings, Hdelivery.
  change (app_mode (set_selected_company company (settings st)))
    with (app_mode (settings st)).
  destruct (decide _); [|done].
  by destruct (index company _).
Qed.

Lemma update_delivery_display_saved st :
  writable (disk st) = true →
  settings_saved st →
  settings_saved (run update_delivery_display st).
Proof.
  intros Hw Hsaved. destruct (update_delivery_display_state st) as [->|[company ->]];
    [done|].
  by apply save_settings_saved.
Qed.

Lemma update_delivery_display_selection st :
  0 <= current_delivery_index (delivery st) →
  selected_company (settings (run update_delivery_display st)) =
    selected_company (settings st) ∨
  current_company st =
    Some (selected_company (settings (run update_delivery_display st))).
Proof.
  intros Hcursor.
  unfold run, update_delivery_display, getitem_int, getitem, dict_of, current_company.
  unfold_monad.
  destruct (decide (total_deliveries _ = 0)); [by left|].
  destruct (decide (current_delivery_index _ < _)); [|by left].
  destruct (decide (0 <= _ < _)) as [Hin|Hout].
  - destruct (delivery_companies (delivery st) !! _) as [company|] eqn:Hcompany;
      [|by left].
    simpl. destruct (delivery_api_response (delivery st)) as [| | | | |fields];
      try by left.
    simpl. destruct (fields !! "data") as [[| | | | |data_field]|]; try by left.
    destruct (data_field !! company) as [entry|]; [|by left].
    simpl. rewrite save_settings_eq. simpl. rewrite show_entry_eq. right.
    by destruct (writable _).
  - destruct (decide (_ <= _ < 0)) as [Hneg|]; [lia|by left].
Qed.

(** X21.  Selecting a company.  In delivery mode, selecting a company that
    has a delivery puts the browse cursor on its first position in the list
    of deliveries, shows the delivery home screen and ends with that company
    selected.  In pickup mode [select_company] returns, the company is
    selected, the delivery state is untouched and the pickup home screen
    lists the stored POs.  In both modes the settings file holds the
    settings afterwards, on a directory that accepts writes. *)
Theorem select_company_selects (st : POApp) (company : string) :
  let st' := run (select_company company) st in
  (app_mode (settings st) = "delivery" →
   company ∈ delivery_companies (delivery st) →
     ∃ i, current_delivery_index (delivery st') = Z.of_nat i ∧
          delivery_companies (delivery st') !! i = Some company ∧
          (∀ j, (j < i)%nat → delivery_companies (delivery st') !! j ≠ Some company) ∧
          selected_company (settings st') = company ∧
          content (window st') = delivery_home_screen) ∧
  (app_mode (settings st) ≠ "delivery" →
     result (select_company company) st = Return () ∧
     selected_company (settings st') = company ∧
     delivery st' = delivery st ∧
     content (window st') = pickup_home_screen ∧
     po_list_box (window st') = (row_of <$> stored_pos st)) ∧
  (writable (disk st) = true → settings_saved st').
Proof.
  cbv zeta. unfold result, run at 1 2 3 4 5 6 7 8 9 10.
  rewrite select_company_eq, show_current_home_eq. cbv zeta.
  rewrite save_settings_run.
  change (writable (disk (with_settings _ st))) with (writable (disk st)).
  set (st1 := if writable (disk st) then _ else _).
  assert (settings st1 = set_selected_company company (settings st) ∧
          delivery st1 = delivery st ∧ window st1 = window st ∧
          data_file (disk st1) = data_file (disk st) ∧
          writable (disk st1) = writable (disk st) ∧
          (writable (disk st) = true → settings_saved st1))
    as (Hsettings & Hdelivery & Hwindow & Hfile & Hw1 & Hsaved).
  { unfold st1. destruct (writable (disk st)) eqn:Hw; repeat split; try done. }
  set (st2 := if decide _ then _ else st1).
  assert (settings st2 = set_selected_company company (settings st) ∧
          window st2 = window st ∧ data_file (disk st2) = data_file (disk st) ∧
          writable (disk st2) = writable (disk st) ∧
          (writable (disk st) = true → settings_saved st2))
    as (Hsettings2 & Hwindow2 & Hfile2 & Hw2 & Hsaved2).
  { unfold st2. destruct (decide _); by repeat split. }
  rewrite Hsettings2.
  change (app_mode (set_selected_company company (settings st)))
    with (app_mode (settings st)).
  split; [|split].
  - intros Hmode Hin. rewrite decide_True by done.
    destruct (index_first company _ Hin) as (i & Hindex & Hi & Hfirst).
    exists i. unfold st2. rewrite decide_True by done. rewrite Hindex.
    set (st3 := with_window _ _).
    destruct (update_delivery_display_frame st3) as (Hd & _ & Hw & _).
    cbv zeta in Hd, Hw. fold (run update_delivery_display st3).
    rewrite Hd, Hw. unfold st3. cbn. rewrite Hdelivery.
    split; [done|]. split; [done|]. split; [done|]. split; [|done].
    destruct (update_delivery_display_selection
                (with_window (set_content delivery_home_screen)
                   (with_delivery (set_current_delivery_index (Z.of_nat i)) st1)))
      as [Hsame|Hcurrent]; [cbn; lia| |].
    + rewrite Hsame. cbn. by rewrite Hsettings.
    + unfold current_company in Hcurrent. cbn in Hcurrent.
      rewrite Hdelivery, Nat2Z.id, Hi in Hcurrent. by injection Hcurrent as <-.
  - intros Hmode. rewrite decide_False by done. cbn [fst snd].
    unfold st2. rewrite decide_False by tauto.
    unfold run. rewrite load_pos_eq. cbn. rewrite Hsettings, Hdelivery.
    unfold stored_pos. cbn. by rewrite Hfile.
  - intros Hw. destruct (decide (app_mode (settings st) = "delivery")).
    + fold (run update_delivery_display (with_window (set_content delivery_home_screen) st2)).
      apply update_delivery_display_saved; [cbn; congruence|]. by apply Hsaved2.
    + cbn [fst snd]. unfold run. rewrite load_pos_eq. by apply Hsaved2.
Qed.

(** X21 at an example: selecting B of the two deliveries A and B. *)
Lemma select_company_selects_example :
  let st' := run (select_company "B") two_stops in
  selected_company (settings st') = "B" ∧ current_delivery_index (delivery st') = 1.
Proof.
  cbv zeta.
  destruct (select_company_selects two_stops "B") as (Hdelivery & _ & _).
  destruct Hdelivery as (i & _ & _ & _ & Hselected & _); [reflexivity| |].
  - apply elem_of_cons. right. apply elem_of_cons. by left.
  - split; [exact Hselected|reflexivity].
Defined.

(** X22.  In delivery mode the selection snaps back to the cursor.  When
    the delivery state is consistent and the cursor is on a company, selecting
    a company that has no delivery leaves the delivery state as it was and
    ends with the company under the cursor selected, not the one that was
    asked for.  The handler returns when the entry of the company under the
    cursor can be read for display, as a list of objects can, and raises
    [TypeError], the selection being made, when it cannot. *)
Theorem select_company_snaps_back_to_the_cursor (st : POApp) (company shown : string) :
  app_mode (settings st) = "delivery" →
  delivery_consistent st →
  current_company st = Some shown →
  company ∉ delivery_companies (delivery st) →
  let st' := run (select_company company) st in
  selected_company (settings st') = shown ∧
  shown ≠ company ∧
  delivery st' = delivery st ∧
  (∃ entry, current_entry st = Some entry ∧
            result (select_company company) st =
              if entry_shows entry then Return () else Raise TypeError) ∧
  (∀ pos : list po_entry, current_entry st = Some (as_json pos) →
                          result (select_company company) st = Return ()).
Proof.
  intros Hmode Hcons Hshown Hnot. cbv zeta.
  assert (is_Some (current_entry st)) as [entry Hentry].
  { apply current_entry_in_range; [done|].
    destruct Hcons as (Hcount & _). apply lookup_lt_Some in Hshown. lia. }
  assert (select_company company st =
          (if entry_shows entry then Return () else Raise TypeError,
           run (select_company company) st) ∧
          selected_company (settings (run (select_company company) st)) = shown ∧
          delivery (run (select_company company) st) = delivery st)
    as (Heq & Hselected & Hkept).
  { unfold run.
    rewrite select_company_eq, show_current_home_eq. cbv zeta.
    rewrite (decide_False (P := _ ∧ _)) by tauto.
    rewrite save_settings_run.
    change (writable (disk (with_settings _ st))) with (writable (disk st)).
    set (st1 := if writable (disk st) then _ else _).
    assert (app_mode (settings st1) = "delivery" ∧ delivery st1 = delivery st)
      as [Hmode1 Hdelivery].
    { unfold st1. by destruct (writable (disk st)). }
    rewrite decide_True by done.
    set (st2 := with_window _ st1).
    assert (delivery st2 = delivery st) as Hdelivery2 by done.
    rewrite (update_delivery_display_consistent st2 shown).
    - rewrite save_settings_run. cbn [fst snd].
      rewrite (display_outcome_frame st st2) by done.
      unfold display_outcome. rewrite Hentry.
      split; [done|].
      split; by destruct (writable (disk (with_settings _ st2))).
    - by apply (delivery_consistent_frame st).
    - unfold current_company. by rewrite Hdelivery2. }
  split; [done|]. split.
  { intros ->. apply Hnot. unfold current_company in Hshown.
    by eapply list_elem_of_lookup_2. }
  split; [done|]. unfold result. rewrite Heq. cbn [fst]. split.
  - by exists entry.
  - intros pos Hpos. rewrite Hentry in Hpos. simplify_eq.
    by rewrite entry_shows_objects.
Qed.

(** X22 at two examples: selecting Z while browsing the deliveries A and B,
    the cursor on A; and while the cursor is on B, whose entry is a list of
    numbers. *)
Lemma select_company_snaps_back_to_the_cursor_example :
  (selected_company (settings (run (select_company "Z") two_stops)) = "A" ∧
   result (select_company "Z") two_stops = Return ()) ∧
  (let on_B := with_delivery (set_current_delivery_index 1) ill_formed_stops in
   selected_company (settings (run (select_company "Z") on_B)) = "B" ∧
   result (select_company "Z") on_B = Raise TypeError).
Proof.
  assert (∀ l, l = ["A"; "B"] → "Z" ∉ l) as Hnot.
  { intros l -> Hin. apply elem_of_cons in Hin as [Hin|Hin]; [discriminate Hin|].
    apply elem_of_cons in Hin as [Hin|Hin]; [discriminate Hin|].
    by apply not_elem_of_nil in Hin. }
  split.
  - destruct (select_company_snaps_back_to_the_cursor two_stops "Z" "A")
      as (Hselected & _ & _ & _ & Hreturns).
    + reflexivity.
    + apply (bool_decide_unpack _). vm_compute. exact I.
    + reflexivity.
    + by apply Hnot.
    + split; [exact Hselected|]. apply (Hreturns []). reflexivity.
  - cbv zeta.
    destruct (select_company_snaps_back_to_the_cursor
                (with_delivery (set_current_delivery_index 1) ill_formed_stops) "Z" "B")
      as (Hselected & _ & _ & (entry & Hentry & Hresult) & _).
    + reflexivity.
    + apply (bool_decide_unpack _). vm_compute. exact I.
    + reflexivity.
    + by apply Hnot.
    + split; [exact Hselected|].
      assert (current_entry (with_delivery (set_current_delivery_index 1) ill_formed_stops)
              = Some (JList [JNum 1])) as Hshown by reflexivity.
      rewrite Hshown in Hentry. injection Hentry as <-. exact Hresult.
Defined.

Lemma update_route_company_lists_company st :
  let st' := run update_route_company_lists st in
  (selected_company (settings st') = selected_company (settings st) ∨
   selected_company (settings st') = "") ∧
  (record_at (company_database st) (selected_route (settings st))
     (selected_company (settings st)) = None →
   selected_company (settings st') = "").
Proof.
  cbv zeta. unfold run. rewrite update_route_company_lists_eq. cbv zeta.
  destruct (decide _) as [[Hne Hnot]|Hkeep]; cbn [fst snd].
  - rewrite save_settings_eq. cbn [fst snd].
    assert (∀ s : POApp, selected_company (settings
              (if writable (disk s)
               then with_disk (set_settings_file (Stored (settings_dict (settings s)))) s
               else s)) = selected_company (settings s)) as Hsel
      by (intros s; by destruct (writable (disk s))).
    rewrite Hsel. cbn. auto.
  - split; [by left|]. intros Hnone. cbn.
    destruct (decide (selected_company (settings st) = "")) as [|Hne]; [done|].
    destruct Hkeep. split; [done|]. intros Hin.
    apply refreshed_names_elem in Hin. unfold record_at in Hnone.
    destruct (company_database st !! selected_route (settings st)); [|done].
    simpl in Hnone. rewrite Hnone in Hin. by destruct Hin.
Qed.

Lemma select_route_eq route st :
  route ≠ "" → route ≠ "No routes available" →
  select_route (Some route) st =
  (Return (),
   run show_home (run update_route_company_lists
     (run save_settings (with_settings (set_selected_route route) st)))).
Proof.
  intros Hne Hnot. unfold select_route, run. rewrite decide_True by done.
  unfold_monad. rewrite save_settings_eq. cbn [fst snd].
  rewrite update_route_company_lists_eq. cbn [fst snd].
  by rewrite show_home_eq.
Qed.

(** X23.  Selecting a route refreshes the selection.  [select_route]
    returns; with no value, a blank value or the placeholder
    ["No routes available"] it changes nothing.  Otherwise the value becomes
    the selected route, the company names are those of that route, the
    selected company is kept or cleared, and it is cleared when the new
    route does not have it, so that the selection is valid; the database is
    untouched, the home screen of the current mode is shown, and on a
    directory that accepts writes the settings file holds the settings. *)
Theorem select_route_refreshes_the_selection (st : POApp) (selected : option string) :
  let st' := run (select_route selected) st in
  result (select_route selected) st = Return () ∧
  (selected = None ∨ selected = Some "" ∨ selected = Some "No routes available" →
     st' = st) ∧
  (∀ route, selected = Some route → route ≠ "" → route ≠ "No routes available" →
     selected_route (settings st') = route ∧
     selection_valid st' ∧
     (selected_company (settings st') = selected_company (settings st) ∨
      selected_company (settings st') = "") ∧
     (record_at (company_database st) route (selected_company (settings st)) = None →
        selected_company (settings st') = "") ∧
     company_names st' = default [] (keys <$> company_database st !! route) ∧
     company_database st' = company_database st ∧
     content (window st') =
       (if decide (app_mode (settings st) = "delivery")
        then delivery_home_screen else pickup_home_screen) ∧
     (writable (disk st) = true → settings_saved st')).
Proof.
  cbv zeta. split; [|split].
  - unfold result. destruct selected as [route|]; [|done].
    destruct (decide (route ≠ "" ∧ route ≠ "No routes available")) as [[? ?]|Hno];
      [by rewrite select_route_eq|].
    unfold select_route. by rewrite decide_False.
  - unfold run, select_route. intros [Hs|[Hs|Hs]]; by rewrite Hs.
  - intros route -> Hne Hnot. unfold run at 1 2 3 4 5 6 7 8 9.
    rewrite select_route_eq by done. cbn [fst snd].
    set (st1 := run save_settings (with_settings (set_selected_route route) st)).
    assert (settings st1 = set_selected_route route (settings st) ∧
            company_database st1 = company_database st ∧
            window st1 = window st ∧
            writable (disk st1) = writable (disk st) ∧
            (writable (disk st) = true → settings_saved st1))
      as (Hsettings1 & Hdb1 & Hwindow1 & Hw1 & Hsaved1).
    { unfold st1. rewrite save_settings_run.
      change (writable (disk (with_settings _ st))) with (writable (disk st)).
      destruct (writable (disk st)) eqn:Hw; repeat split; done. }
    destruct (update_route_company_lists_frame st1)
      as (Hdb2 & _ & Hnames2 & Hwindow2 & _ & _ & _ & _ & _ & _ & Hw2 & Hroute2 &
          Hmode2 & _).
    destruct (update_route_company_lists_company st1) as [Hcompany2 Hstale2].
    cbv zeta in *.
    pose proof (update_route_company_lists_valid st1) as Hvalid2.
    set (st2 := run update_route_company_lists st1) in *.
    destruct (show_home_run st2) as [w Hst'].
    assert (content w =
            if decide (app_mode (settings st) = "delivery")
            then delivery_home_screen else pickup_home_screen) as Hcontent.
    { assert (window (run show_home st2) = w) as <- by (by rewrite Hst').
      unfold run. rewrite show_home_eq. cbn [fst snd].
      rewrite Hmode2, Hsettings1.
      change (app_mode (set_selected_route route (settings st)))
        with (app_mode (settings st)).
      destruct (decide _); [done|]. unfold run. by rewrite load_pos_eq. }
    rewrite Hst'. cbn.
    rewrite Hroute2, Hsettings1 in *. cbn in *. rewrite Hdb1 in *.
    split; [done|].
    split; [by apply (selection_valid_with_window (λ _, w) st2)|].
    split; [done|]. split; [done|].
    split.
    { rewrite Hnames2. unfold refreshed_names. rewrite Hsettings1, Hdb1. cbn.
      rewrite decide_True by done. by destruct (company_database st !! route). }
    split; [by rewrite Hdb2|]. split; [done|].
    intros Hw. apply update_route_company_lists_saved; [congruence|by apply Hsaved1].
Qed.

(** X23 at an example: company Z is selected, route R1 does not have it. *)
Lemma select_route_refreshes_the_selection_example :
  let st' := run (select_route (Some "R1")) stale_selection in
  selected_company (settings stale_selection) = "Z" ∧
  selected_company (settings st') = "" ∧
  company_names st' = ["A"].
Proof.
  cbv zeta.
  destruct (select_route_refreshes_the_selection stale_selection (Some "R1"))
    as (_ & _ & Hselect).
  destruct (Hselect "R1" eq_refl) as (_ & _ & _ & Hcleared & Hnames & _);
    [discriminate|discriminate|].
  split; [reflexivity|]. split; [by apply Hcleared|].
  rewrite Hnames. reflexivity.
Defined.

Lemma update_delivery_display_settings st :
  let st' := run update_delivery_display st in
  set_selected_company "" (settings st') = set_selected_company "" (settings st) ∧
  window st' = window st ∧
  delivery st' = delivery st.
Proof.
  cbv zeta. destruct (update_delivery_display_state st) as [->|[company ->]]; [done|].
  rewrite save_settings_run. by destruct (writable _).
Qed.

Lemma same_but_company (s s' : Settings) :
  set_selected_company "" s' = set_selected_company "" s →
  upload_url s' = upload_url s ∧ company_db_url s' = company_db_url s ∧
  delivery_url s' = delivery_url s ∧ selected_route s' = selected_route s ∧
  driver_id s' = driver_id s ∧ app_mode s' = app_mode s.
Proof. unfold set_selected_company. intros [= ? ? ? ? ? ?]. done. Qed.

(** X24.  Mode and addresses are saved.  On a directory that accepts
    writes, [switch_to_delivery_mode], [switch_to_pickup_mode] and
    [save_settings_from_ui] leave the settings file holding the settings.
    The first sets the mode to delivery, shows the delivery home screen and
    keeps the delivery state; the second changes the mode to pickup and
    nothing else in the settings, and shows the pickup home screen listing
    the stored POs; the third sets the three addresses, keeps mode, route
    and driver, and queues the dialog that says so. *)
Theorem mode_and_addresses_are_saved (st : POApp)
    (url db_url delivery_url_value : string) :
  writable (disk st) = true →
  let d := run switch_to_delivery_mode st in
  let p := run switch_to_pickup_mode st in
  let u := run (save_settings_from_ui url db_url delivery_url_value) st in
  (settings_saved d ∧
   app_mode (settings d) = "delivery" ∧
   content (window d) = delivery_home_screen ∧
   delivery d = delivery st) ∧
  (settings_saved p ∧
   settings p = set_app_mode_field "pickup" (settings st) ∧
   content (window p) = pickup_home_screen ∧
   po_list_box (window p) = (row_of <$> stored_pos st)) ∧
  (settings_saved u ∧
   upload_url (settings u) = url ∧
   company_db_url (settings u) = db_url ∧
   delivery_url (settings u) = delivery_url_value ∧
   app_mode (settings u) = app_mode (settings st) ∧
   selected_route (settings u) = selected_route (settings st) ∧
   driver_id (settings u) = driver_id (settings st) ∧
   dialogs (window u) =
     dialogs (window st) ++ [a_dialog info "Success" [Lit "Settings saved"]]).
Proof.
  intros Hw d p u.
  assert (∀ f, let st1 := run save_settings (with_settings f st) in
               st1 = with_disk (set_settings_file (Stored (settings_dict (f (settings st)))))
                       (with_settings f st)) as Hsave.
  { intros f. cbv zeta. rewrite save_settings_run.
    change (writable (disk (with_settings f st))) with (writable (disk st)).
    by rewrite Hw. }
  cbv zeta in Hsave.
  split; [|split].
  - assert (d = run update_delivery_display
                  (with_window (set_content delivery_home_screen)
                     (run save_settings
                        (with_settings (set_app_mode_field "delivery") st)))) as ->.
    { unfold d, switch_to_delivery_mode, run. unfold_monad.
      by rewrite save_settings_eq. }
    rewrite Hsave.
    set (st1 := with_window _ _).
    destruct (update_delivery_display_settings st1) as (Hsettings & Hwindow & Hdelivery).
    apply same_but_company in Hsettings as (_ & _ & _ & _ & _ & Hmode).
    cbv zeta in *. rewrite Hmode, Hwindow, Hdelivery.
    split; [|done]. apply update_delivery_display_saved; done.
  - assert (p = run load_pos
                  (with_window (set_content pickup_home_screen)
                     (run save_settings
                        (with_settings (set_app_mode_field "pickup") st)))) as ->.
    { unfold p, switch_to_pickup_mode, run. unfold_monad.
      rewrite save_settings_eq. cbn [fst snd]. by rewrite load_pos_eq. }
    rewrite Hsave. unfold run. by rewrite load_pos_eq.
  - assert (u = run show_current_home
                  (with_window (queue_dialog (a_dialog info "Success"
                     [Lit "Settings saved"]))
                     (run save_settings
                        (with_settings (set_urls url db_url delivery_url_value) st))))
      as ->.
    { unfold u, save_settings_from_ui, run. unfold_monad.
      by rewrite save_settings_eq. }
    rewrite Hsave. set (st1 := with_window _ _).
    unfold run. rewrite show_current_home_eq.
    destruct (decide _).
    + fold (run update_delivery_display (with_window (set_content delivery_home_screen) st1)).
      set (st2 := with_window (set_content delivery_home_screen) st1).
      destruct (update_delivery_display_settings st2) as (Hsettings & Hwindow & _).
      apply same_but_company in Hsettings as (-> & -> & -> & -> & -> & ->).
      cbv zeta in *. rewrite Hwindow.
      split; [by apply update_delivery_display_saved|].
      by repeat split.
    + cbn [fst snd]. unfold run. rewrite load_pos_eq. by repeat split.
Qed.

(** X24 at an example: the switch to pickup mode, from the initial state. *)
Lemma mode_and_addresses_are_saved_example :
  app_mode (settings initial_app) = "delivery" ∧
  app_mode (settings (run switch_to_pickup_mode initial_app)) = "pickup" ∧
  settings_saved (run switch_to_pickup_mode initial_app).
Proof.
  destruct (mode_and_addresses_are_saved initial_app "" "" "" eq_refl)
    as (_ & (Hsaved & Hsettings & _) & _).
  split; [reflexivity|]. split; [by rewrite Hsettings|exact Hsaved].
Defined.

(** The list of companies to choose from. *)

Lemma insert_sorted_Permutation x l : insert_sorted x l ≡ₚ x :: l.
Proof.
  induction l as [|y l IH]; simpl; [done|].
  destruct (String.leb x y); [done|].
  rewrite IH. apply Permutation_swap.
Qed.

Lemma sorted_Permutation l : sorted l ≡ₚ l.
Proof.
  induction l as [|x l IH]; simpl; [done|].
  by rewrite insert_sorted_Permutation, IH.
Qed.

Lemma insert_sorted_Sorted x l :
  Sorted (λ a b, String.leb a b = true) l →
  Sorted (λ a b, String.leb a b = true) (insert_sorted x l).
Proof.
  induction 1 as [|y l Hsorted IH Hhead]; simpl.
  - by repeat constructor.
  - destruct (String.leb x y) eqn:Hxy.
    + by repeat constructor.
    + constructor; [done|].
      destruct (String.leb_total x y) as [Hle|Hle]; [congruence|].
      destruct Hhead as [|z l Hyz]; simpl; [by constructor|].
      destruct (String.leb x z); by constructor.
Qed.

Lemma sorted_Sorted l : Sorted (λ a b, String.leb a b = true) (sorted l).
Proof.
  induction l as [|x l IH]; simpl; [constructor|by apply insert_sorted_Sorted].
Qed.

Section company_selection_facts.
Context `{SetIteration}.

(** X25.  The company selection screen offers each company once.  Whatever
    order the set of names is enumerated in, the buttons of
    [show_company_selection] come in ascending order of their company, no
    company has two buttons, a company has a button exactly when it is a
    company of the selected route in the database or a company of the
    loaded deliveries (of whatever route), and a button carries the delivery
    mark exactly when its company has a delivery. *)
Theorem company_buttons_offer_each_company_once (st : POApp) :
  let buttons := company_buttons st in
  let on_selected_route company :=
    is_Some (record_at (company_database st) (selected_route (settings st)) company) in
  Sorted (λ a b, String.leb a b = true) buttons.*1 ∧
  NoDup buttons.*1 ∧
  (∀ company, company ∈ buttons.*1 ↔
     on_selected_route company ∨ company ∈ delivery_companies (delivery st)) ∧
  (∀ company mark, (company, mark) ∈ buttons →
     (mark = true ↔ company ∈ delivery_companies (delivery st))).
Proof.
  cbv zeta. unfold company_buttons. cbv zeta.
  set (from_database := match company_database st !! _ with
                        | Some companies => keys companies
                        | None => []
                        end).
  set (all_companies := list_of_set _).
  assert (((λ company, (company,
             bool_decide (company ∈ delivery_companies (delivery st))))
           <$> sorted all_companies).*1 = sorted all_companies) as ->.
  { rewrite <- list_fmap_compose. apply list_fmap_id. }
  split; [apply sorted_Sorted|].
  split; [rewrite sorted_Permutation; apply list_of_set_NoDup|].
  split.
  - intros company. rewrite sorted_Permutation. unfold all_companies.
    rewrite list_of_set_elem, elem_of_app. unfold from_database, record_at.
    destruct (company_database st !! selected_route (settings st)) as [companies|];
      simpl.
    + by rewrite elem_of_keys.
    + split; [intros [Hin|?]; [by apply not_elem_of_nil in Hin|by right]|].
      intros [[? ?]|?]; [done|by right].
  - intros company mark Hin. apply list_elem_of_fmap in Hin as (c & [= -> ->] & _).
    apply bool_decide_eq_true.
Qed.

End company_selection_facts.

(** X25 at an example: company A of route R1, and the deliveries A and B. *)
Lemma company_buttons_offer_each_company_once_example :
  let buttons := @company_buttons first_occurrences
                   (with_company_database (λ _, example_local) two_stops) in
  buttons = [("A", true); ("B", true)] ∧ NoDup buttons.*1.
Proof.
  cbv zeta.
  destruct (@company_buttons_offer_each_company_once first_occurrences
              (with_company_database (λ _, example_local) two_stops)) as (_ & Hnodup & _).
  split; [reflexivity|exact Hnodup].
Defined.
